(** * run_dbm_minc: a shallow embedding of [dbm_ica/run_dbm_minc.py]

    The script drives a fixed chain of external MINC tools.  Everything it
    computes itself is path arithmetic ([pathlib]), a handful of filesystem
    checks, and the control flow around [subprocess.run].  The embedding
    keeps these three layers apart:

    - strings and [pathlib.PurePosixPath] values are pure data;
    - the filesystem is a finite map from paths to nodes, the console and
      the process table are a log of events;
    - the script is a program in a state-and-exception monad over that
      world, with the operating system's answers supplied by a record of
      oracles. *)

From stdpp Require Import base strings list gmap.
From Stdlib Require Import ZArith Ascii String.

Local Open Scope Z_scope.
Local Open Scope string_scope.

(** ** Python [str] operations used by the script *)

Module Str.

(** [s.startswith(pre)] *)
Fixpoint startswith (pre s : string) : bool :=
  match pre, s with
  | EmptyString, _ => true
  | String a pre', String b s' => Ascii.eqb a b && startswith pre' s'
  | String _ _, EmptyString => false
  end.

(** [s.endswith(suf)]: [s] is [suf], or the text after its first character
    ends with [suf]. *)
Fixpoint endswith (s suf : string) : bool :=
  String.eqb s suf ||
  match s with
  | EmptyString => false
  | String _ s' => endswith s' suf
  end.

(** [s[n:]] *)
Fixpoint drop (n : nat) (s : string) : string :=
  match n, s with
  | O, _ => s
  | S n', String _ s' => drop n' s'
  | S _, EmptyString => EmptyString
  end.

(** [c in s] for a one-character [c] *)
Fixpoint contains (c : ascii) (s : string) : bool :=
  match s with
  | EmptyString => false
  | String a s' => Ascii.eqb a c || contains c s'
  end.

(** [s.split(c)] for a one-character separator: never empty, and
    [c.join(s.split(c)) == s]. *)
Fixpoint split (c : ascii) (s : string) : list string :=
  match s with
  | EmptyString => [EmptyString]
  | String a s' =>
      if Ascii.eqb a c then EmptyString :: split c s'
      else match split c s' with
           | h :: t => String a h :: t
           | [] => [String a EmptyString]
           end
  end.

(** [s.rfind('.')], returned as the two sides of the last dot:
    [Some (s[:i], s[i+1:])] when [i = s.rfind('.')] is not [-1]. *)
Fixpoint rsplit_dot (s : string) : option (string * string) :=
  match s with
  | EmptyString => None
  | String a s' =>
      match rsplit_dot s' with
      | Some (l, r) => Some (String a l, r)
      | None => if Ascii.eqb a "." then Some (EmptyString, s') else None
      end
  end.

(** [sep.join(l)] *)
Definition join (sep : string) (l : list string) : string := String.concat sep l.

End Str.

(** ** [pathlib.PurePosixPath]

    A path is its root flag and its tail, the list of components after the
    root, as [pathlib] keeps them: no component is empty, is ["."], or
    contains a slash.  (POSIX's special two-slash root is not modelled.) *)

Module Path.

Record t : Type := mk { root : bool; tail : list string }.

#[global] Instance eq_dec : EqDecision t.
Proof. solve_decision. Defined.

#[global] Instance countable : Countable t.
Proof.
  refine (inj_countable' (fun p => (root p, tail p)) (fun x => mk x.1 x.2) _).
  by intros [].
Defined.

(** Components of a path string: split on slashes, drop [""] and ["."]. *)
Definition is_component (x : string) : bool :=
  negb (String.eqb x "") && negb (String.eqb x ".").

Definition parse_tail (s : string) : list string :=
  List.filter is_component (Str.split "/" s).

(** [Path(s)] *)
Definition of_string (s : string) : t :=
  mk (Str.startswith "/" s) (parse_tail s).

(** [str(p)] *)
Definition str (p : t) : string :=
  match root p, tail p with
  | true, l => "/" +:+ Str.join "/" l
  | false, [] => "."
  | false, l => Str.join "/" l
  end.

(** [p / q] for a path [q]: an absolute right operand replaces the left. *)
Definition join (p q : t) : t :=
  if root q then q else mk (root p) (tail p ++ tail q).

(** [p / s] for a string [s] *)
Definition joinpath (p : t) (s : string) : t := join p (of_string s).

(** [p.name]: the last component, [''] when there is none. *)
Definition name (p : t) : string := List.last (tail p) "".

(** [p.parent]: a path without components is its own parent. *)
Definition parent (p : t) : t := mk (root p) (List.removelast (tail p)).

(** [p.suffix]: with [i = name.rfind('.')], [name[i:]] if
    [0 < i < len(name) - 1], else ['']. *)
Definition suffix_of_name (n : string) : string :=
  match Str.rsplit_dot n with
  | Some (l, r) =>
      if String.eqb l "" || String.eqb r "" then "" else "." +:+ r
  | None => ""
  end.

(** [p.stem]: [name[:i]] under the same condition, else the whole name. *)
Definition stem_of_name (n : string) : string :=
  match Str.rsplit_dot n with
  | Some (l, r) =>
      if String.eqb l "" || String.eqb r "" then n else l
  | None => n
  end.

Definition suffix (p : t) : string := suffix_of_name (name p).
Definition stem (p : t) : string := stem_of_name (name p).

(** [p.with_suffix(sfx)]; [None] stands for the [ValueError] raised on an
    invalid suffix or a path without a name. *)
Definition with_suffix (p : t) (sfx : string) : option t :=
  if Str.contains "/" sfx then None
  else if (negb (String.eqb sfx "") && negb (Str.startswith "." sfx))
          || String.eqb sfx "." then None
  else if String.eqb (name p) "" then None
  else Some (mk (root p) (List.removelast (tail p) ++ [stem p +:+ sfx])).

(** [q] is [d] or lies below it. *)
Definition is_under (d q : t) : bool :=
  bool_decide (root d = root q) && bool_decide (tail d `prefix_of` tail q).

End Path.

(** ** Module constants *)

Definition DEFAULT_VERBOSITY : Z := 2.
Definition DEFAULT_BEAST_CONF : string := "default.1mm.conf".
Definition DEFAULT_TEMPLATE : string := "mni_icbm152_t1_tal_nlin_sym_09c".

Definition DNAME_BEAST_LIB : string := "beast-library-1.1".
Definition DNAME_TEMPLATE_MAP : gmap string string :=
  <["mni_icbm152_t1_tal_nlin_sym_09c" := "icbm152_model_09c"]>
  (<["mni_icbm152_t1_tal_nlin_sym_09a" := "icbm152_model_09a"]> ∅).
Definition SUFFIX_TEMPLATE_MASK : string := "_mask".

Definition EXT_NIFTI : string := ".nii".
Definition EXT_GZIP : string := ".gz".
Definition EXT_MINC : string := ".mnc".
Definition EXT_TRANSFORM : string := ".xfm".

Definition SUFFIX_DENOISED : string := "denoised".
Definition SUFFIX_NORM : string := "norm".
Definition SUFFIX_MASK : string := "mask".
Definition SUFFIX_EXTRACTED : string := "extracted".
Definition SUFFIX_NONLINEAR : string := "nl".
Definition SUFFIX_DBM : string := "dbm".
Definition SUFFIX_RESHAPED : string := "reshaped".

Definition PREFIX_RUN : string := "[RUN] ".
Definition PREFIX_ERR : string := "[ERROR] ".

(** ** [add_suffix] *)

(** [sep] is [Some s] for a separator string and [None] for Python's
    [None]; the default argument is [Some "."]. *)
Definition add_suffix (path : Path.t) (suffix : string) (sep : option string)
  : Path.t :=
  let suffix' :=
    match sep with
    | Some s =>
        if Str.startswith s suffix then Str.drop (String.length s) suffix
        else suffix
    | None => suffix
    end in
  let sep' := match sep with Some s => s | None => "" end in
  Path.joinpath (Path.parent path)
    (Path.stem path +:+ sep' +:+ suffix' +:+ Path.suffix path).

(** The default value of [sep]. *)
Definition SEP_DEFAULT : option string := Some ".".

(** The semantic suffixes of the stage chain. *)
Definition semantic_suffixes : list string :=
  [SUFFIX_DENOISED; SUFFIX_NORM; SUFFIX_MASK; SUFFIX_EXTRACTED;
   SUFFIX_NONLINEAR; SUFFIX_DBM; SUFFIX_RESHAPED].

(** ** The world: filesystem, console and processes *)

Inductive node : Type := File | Dir.

#[global] Instance node_eq_dec : EqDecision node.
Proof. solve_decision. Defined.

(** The filesystem maps every existing path to its kind.  Permissions and
    I/O errors are outside the model. *)
Abbreviation FS := (gmap Path.t node).

(** Python exceptions that can be raised along the script. [SystemExit] is
    the only one that does not derive from [Exception].  [OSError args]
    is the exception of a program that cannot be started, whatever its
    class is in Python: [FileNotFoundError] when the program is not on
    the search path, [PermissionError] when it is not executable.
    [FileNotFoundError p] and [NotADirectoryError p] are the exceptions
    of the filesystem operations on [p]. *)
Inductive exn : Type :=
| SystemExit (code : Z)
| KeyError (key : string)
| TypeError
| ValueError
| RuntimeError
| FileExistsError (p : Path.t)
| FileNotFoundError (p : Path.t)
| NotADirectoryError (p : Path.t)
| OSError (args : list string).

Definition is_Exception (e : exn) : bool :=
  match e with SystemExit _ => false | _ => true end.

Definition is_FileExistsError (e : exn) : bool :=
  match e with FileExistsError _ => true | _ => false end.

(** What [subprocess.run] observes: the child's return code (the exit
    status [0..255] of a child that exited, [-N] for a child killed by
    signal [N]), or a failure to start it (an [OSError] from [Popen]). *)
Inductive proc_result : Type :=
| Exited (returncode : Z)
| NotStarted.

(** The [stdout] argument handed to [subprocess.run]. *)
Inductive stream : Type :=
| Inherit
| DEVNULL
| ToFile (p : Path.t).

(** The texts the script prints, one constructor per f-string. *)
Inductive message : Type :=
| CommandLine (args_str : string)
    (** [f'{args_str}'] *)
| Returned (args_str : string) (returncode : Z)
    (** [f'Command {args_str} returned {ex.returncode}'] *)
| ShareDirMissing
    (** ['If --share-dir is not given, both --template-dir and
        --beast-lib-dir must be specified.'] *)
| NiftiNotFound (p : Path.t)
    (** [f'Nifti file not found: {fpath_nifti}'] *)
| InvalidFormat (p : Path.t) (valid : list string)
    (** [f'Invalid file format for {fpath_nifti}. Valid extensions are: ...'] *)
| TemplateNotFound (p : Path.t)
    (** [f'Template file not found: {fpath_template}'] *)
| TemplateMaskNotFound (p : Path.t)
    (** [f'Template mask file not found: {fpath_template_mask}'] *)
| BeastLibNotFound (p : Path.t)
    (** [f'BEaST library directory not found: {dpath_beast_lib}'] *)
| OutputDirExists (p : Path.t)
    (** [f'Non-empty output directory {dpath_out_sub} already exists. ...'] *)
| Traceback (e : exn)
    (** [traceback.format_exc()] for the exception being handled *).

(** Observable events, in the order they happen. *)
Inductive event : Type :=
| Echo (prefix : string) (msg : message) (text_color : string)
       (prefix_only : bool)
    (** [click.echo] of [prefix] and [msg]; [prefix_only] tells whether the
        colour covers the prefix alone *)
| Exec (args : list string) (stdout : stream) (res : proc_result)
    (** [subprocess.run(args, stdout=stdout)] started (or tried to start)
        an external process *)
| Mkdtemp (d : Path.t)
    (** [TemporaryDirectory()] created [d] *)
| Cleanup (d : Path.t)
    (** the context manager removed [d] *).

Record World : Type := mkWorld { w_fs : FS; w_log : list event }.

(** The answers of the operating system.  They may depend on everything
    that happened so far. *)
Record OS : Type := mkOS {
  (** run a program to completion: its result and the filesystem it leaves *)
  os_run : list event -> list string -> stream -> FS -> proc_result * FS;
  (** the name [tempfile.mkdtemp] picks, relative to the filesystem root *)
  os_mkdtemp : list event -> FS -> string;
  (** [os.getcwd()] *)
  os_getcwd : string;
  (** [os.path.expanduser] *)
  os_expanduser : string -> string;
}.

(** ** The monad of the script: state and exceptions *)

Inductive outcome (A : Type) : Type :=
| Return (a : A)
| Raise (e : exn).
Arguments Return {A} a.
Arguments Raise {A} e.

Definition M (A : Type) : Type := World -> outcome A * World.

Definition ret {A} (a : A) : M A := fun w => (Return a, w).

Definition bind {A B} (m : M A) (k : A -> M B) : M B := fun w =>
  match m w with
  | (Return a, w') => k a w'
  | (Raise e, w') => (Raise e, w')
  end.

Definition raise {A} (e : exn) : M A := fun w => (Raise e, w).

(** A computation that does not touch the world. *)
Definition lift {A} (r : outcome A) : M A := fun w => (r, w).

(** [try: m  except <catches>: h] *)
Definition try_except {A} (m : M A) (catches : exn -> bool) (h : exn -> M A)
  : M A := fun w =>
  match m w with
  | (Raise e, w') => if catches e then h e w' else (Raise e, w')
  | r => r
  end.

Declare Scope py_scope.
Delimit Scope py_scope with py.
Notation "x <- m ;; k" := (bind m (fun x => k))
  (at level 100, m at next level, right associativity) : py_scope.
Notation "m ;;; k" := (bind m (fun _ => k))
  (at level 100, right associativity) : py_scope.
Local Open Scope py_scope.

(** [if b: m] *)
Definition when (b : bool) (m : M unit) : M unit := if b then m else ret tt.

(** [for x in l: f(x)] *)
Fixpoint for_each {A} (l : list A) (f : A -> M unit) : M unit :=
  match l with
  | [] => ret tt
  | x :: l' => f x ;;; for_each l' f
  end.

Definition emit (e : event) : M unit := fun w =>
  (Return tt, mkWorld (w_fs w) (w_log w ++ [e])).

(** *** Filesystem primitives *)

(** [p.exists()] *)
Definition path_exists (p : Path.t) : M bool := fun w =>
  (Return (bool_decide (is_Some (w_fs w !! p))), w).

(** Entries directly inside [d]. *)
Definition children (fs : FS) (d : Path.t) : list Path.t :=
  List.filter
    (fun q => negb (bool_decide (Path.tail q = [])) &&
              bool_decide (Path.parent q = d))
    (map_to_list fs).*1.

(** [list(p.iterdir())] *)
Definition iterdir (p : Path.t) : M (list Path.t) := fun w =>
  match w_fs w !! p with
  | Some Dir => (Return (children (w_fs w) p), w)
  | Some File => (Raise (NotADirectoryError p), w)
  | None => (Raise (FileNotFoundError p), w)
  end.

(** Create [r/pre/x1], [r/pre/x1/x2], ... where they are missing. *)
Fixpoint makedirs (fs : FS) (r : bool) (pre rest : list string) : FS :=
  match rest with
  | [] => fs
  | x :: rest' =>
      let p := Path.mk r (pre ++ [x]) in
      makedirs (match fs !! p with None => <[p := Dir]> fs | Some _ => fs end)
               r (pre ++ [x]) rest'
  end.

(** [p.mkdir(parents=True, exist_ok=exist_ok)] *)
Definition mkdir (p : Path.t) (exist_ok : bool) : M unit := fun w =>
  match w_fs w !! p with
  | None =>
      (Return tt,
       mkWorld (makedirs (w_fs w) (Path.root p) [] (Path.tail p)) (w_log w))
  | Some Dir =>
      if exist_ok then (Return tt, w) else (Raise (FileExistsError p), w)
  | Some File => (Raise (FileExistsError p), w)
  end.

(** [p.open('wb')]: the file exists and is empty afterwards. *)
Definition open_wb (p : Path.t) : M unit := fun w =>
  (Return tt, mkWorld (<[p := File]> (w_fs w)) (w_log w)).

(** [shutil.rmtree(d)] *)
Definition rmtree (d : Path.t) (fs : FS) : FS :=
  filter (fun kv => Path.is_under d kv.1 = false) fs.

Section Script.

Context (os : OS).

(** [with TemporaryDirectory() as d: body(Path(d))]: the directory is
    removed on every way out of the body. *)
Definition with_TemporaryDirectory {A} (body : Path.t -> M A) : M A := fun w =>
  let d := Path.of_string ("/" +:+ os_mkdtemp os (w_log w) (w_fs w)) in
  let w1 := mkWorld (<[d := Dir]> (w_fs w)) (w_log w ++ [Mkdtemp d]) in
  let '(r, w2) := body d w1 in
  (r, mkWorld (rmtree d (w_fs w2)) (w_log w2 ++ [Cleanup d])).

(** [subprocess.run(args, check=True, stdout=stdout)], up to the check. *)
Definition subprocess_run (args : list string) (stdout : stream)
  : M proc_result := fun w =>
  let '(res, fs') := os_run os (w_log w) args stdout (w_fs w) in
  (Return res, mkWorld fs' (w_log w ++ [Exec args stdout res])).

(** *** [echo] and [print_error_and_exit] *)

Definition echo (msg : message) (prefix : string) (text_color : string)
    (color_prefix_only : bool) : M unit :=
  emit (Echo prefix msg text_color
          (negb (String.eqb prefix "") && color_prefix_only)).

Definition print_error_and_exit {A} (msg : message) (exit_code : Z) : M A :=
  echo msg PREFIX_ERR "red" false ;;;
  raise (SystemExit exit_code).

(** *** [process_path] *)

(** [p.expanduser()] *)
Definition expanduser (p : Path.t) : outcome Path.t :=
  match Path.root p, Path.tail p with
  | false, first :: rest =>
      if Str.startswith "~" first then
        let homedir := os_expanduser os first in
        if Str.startswith "~" homedir then Raise RuntimeError
        else Return (Path.mk (Str.startswith "/" homedir)
                             (Path.parse_tail homedir ++ rest))
      else Return p
  | _, _ => Return p
  end.

(** [p.absolute()] *)
Definition absolute (p : Path.t) : Path.t :=
  if Path.root p then p else Path.join (Path.of_string (os_getcwd os)) p.

Definition process_path (path : string) : outcome Path.t :=
  match expanduser (Path.of_string path) with
  | Return p => Return (absolute p)
  | Raise e => Raise e
  end.

(** *** [run_command] *)

(** Command tokens are strings or paths. *)
Inductive arg : Type :=
| AStr (s : string)
| APath (p : Path.t).

(** [str(arg)] *)
Definition arg_str (a : arg) : string :=
  match a with AStr s => s | APath p => Path.str p end.

(** [arg != ''] *)
Definition arg_nonempty (a : arg) : bool :=
  match a with AStr s => negb (String.eqb s "") | APath _ => true end.

(** The token list and the command line [run_command] assembles. *)
Definition command_tokens (args : list arg) : list string :=
  List.map arg_str (List.filter arg_nonempty args).

Definition command_line (args : list arg) : string :=
  Str.join " " (command_tokens args).

(** [verbosity] and [dry_run] are the variables of the enclosing function
    that the closure reads when it is called.  [shell] and [stderr] keep
    their defaults at every call and are left out. *)
Definition run_command (verbosity : Z) (dry_run : bool)
    (args : list arg) (stdout : option Path.t) (silent : bool) : M unit :=
  let args' := command_tokens args in
  let args_str := Str.join " " args' in
  when (negb silent && ((0 <? verbosity)%Z || dry_run))
       (echo (CommandLine args_str) PREFIX_RUN "yellow" dry_run) ;;;
  when (negb dry_run)
       (let stdout' :=
          match stdout with
          | None => if (verbosity <? 2)%Z then DEVNULL else Inherit
          | Some f => ToFile f
          end in
        res <- subprocess_run args' stdout' ;;
        match res with
        | Exited rc =>
            if (rc =? 0)%Z then ret tt
            else print_error_and_exit (Returned args_str rc) rc
        | NotStarted => raise (OSError args')
        end).

Definition timestamp (verbosity : Z) (dry_run : bool) : M unit :=
  run_command verbosity dry_run [AStr "date"] None false.

(** *** The command-line arguments of [run_dbm_minc]

    The fields are the values [click] hands to the function; the script
    rebinds some of these names to resolved paths, which live in [Paths]. *)
Record Config : Type := mkConfig {
  opt_fpath_nifti : string;
  opt_dpath_out : string;
  opt_dpath_share : option string;
  opt_dpath_templates : option string;
  opt_template_prefix : string;
  opt_dpath_beast_lib : option string;
  opt_beast_conf : string;
  opt_overwrite : bool;
  opt_save_all : bool;
  opt_dry_run : bool;
  opt_verbosity : Z;
  opt_quiet : bool;
}.

(** The processed paths of lines 116-132. *)
Record Paths : Type := mkPaths {
  fpath_nifti : Path.t;
  dpath_out : Path.t;
  dpath_templates : Path.t;
  dpath_beast_lib : Path.t;
}.

(** The template files of lines 145-147. *)
Record Templates : Type := mkTemplates {
  fpath_template : Path.t;
  fpath_template_mask : Path.t;
}.

(** The artifact paths of the stage chain. *)
Record Artifacts : Type := mkArtifacts {
  fpath_raw : Path.t;
  fpath_denoised : Path.t;
  fpath_norm : Path.t;
  fpath_norm_transform : Path.t;
  fpath_mask : Path.t;
  fpath_extracted : Path.t;
  fpath_nonlinear : Path.t;
  fpath_nonlinear_transform : Path.t;
  fpath_dbm : Path.t;
  fpath_dbm_reshaped : Path.t;
  fpath_dbm_nii : Path.t;
}.

Definition valid_file_formats : list string :=
  [EXT_NIFTI; EXT_NIFTI +:+ EXT_GZIP].

(** [DNAME_TEMPLATE_MAP[key]] *)
Definition template_dname (key : string) : outcome string :=
  match DNAME_TEMPLATE_MAP !! key with
  | Some dname => Return dname
  | None => Raise (KeyError key)
  end.

(** [d / s] where [d] may be [None] *)
Definition truediv (d : option Path.t) (s : string) : outcome Path.t :=
  match d with
  | Some p => Return (Path.joinpath p s)
  | None => Raise TypeError
  end.

(** Lines 116-132: process paths. *)
Definition process_paths (c : Config) : M Paths :=
  fpath_nifti <- lift (process_path (opt_fpath_nifti c)) ;;
  dpath_out <- lift (process_path (opt_dpath_out c)) ;;
  dpath_share <-
    match opt_dpath_share c with
    | None =>
        when (bool_decide (opt_dpath_templates c = None)
              || bool_decide (opt_dpath_beast_lib c = None))
             (print_error_and_exit ShareDirMissing 1) ;;;
        ret None
    | Some s => p <- lift (process_path s) ;; ret (Some p)
    end ;;
  dpath_templates <-
    match opt_dpath_templates c with
    | None =>
        dname <- lift (template_dname (opt_template_prefix c)) ;;
        lift (truediv dpath_share dname)
    | Some s => lift (process_path s)
    end ;;
  dpath_beast_lib <-
    match opt_dpath_beast_lib c with
    | None => lift (truediv dpath_share DNAME_BEAST_LIB)
    | Some s => lift (process_path s)
    end ;;
  ret (mkPaths fpath_nifti dpath_out dpath_templates dpath_beast_lib).

(** Lines 134-159: make sure the input, the template files and the BEaST
    library exist. *)
Definition check_paths (template_prefix : string) (ps : Paths) : M Templates :=
  (* make sure input file exists and has valid extension *)
  found <- path_exists (fpath_nifti ps) ;;
  when (negb found) (print_error_and_exit (NiftiNotFound (fpath_nifti ps)) 1) ;;;
  when (negb (existsb (Str.endswith (Path.str (fpath_nifti ps)))
                      valid_file_formats))
       (print_error_and_exit
          (InvalidFormat (fpath_nifti ps) valid_file_formats) 1) ;;;
  (* generate paths for template files and make sure they are valid *)
  let fpath_template :=
    Path.joinpath (dpath_templates ps) (template_prefix +:+ EXT_MINC) in
  let fpath_template_mask :=
    add_suffix fpath_template SUFFIX_TEMPLATE_MASK None in
  found <- path_exists fpath_template ;;
  when (negb found) (print_error_and_exit (TemplateNotFound fpath_template) 1) ;;;
  found <- path_exists fpath_template_mask ;;
  when (negb found)
       (print_error_and_exit (TemplateMaskNotFound fpath_template_mask) 1) ;;;
  (* make sure beast library can be found *)
  found <- path_exists (dpath_beast_lib ps) ;;
  when (negb found)
       (print_error_and_exit (BeastLibNotFound (dpath_beast_lib ps)) 1) ;;;
  ret (mkTemplates fpath_template fpath_template_mask).

(** [p.with_suffix(sfx)] with its [ValueError] *)
Definition with_suffix (p : Path.t) (sfx : string) : outcome Path.t :=
  match Path.with_suffix p sfx with
  | Some q => Return q
  | None => Raise ValueError
  end.

Section Pipeline.

(** The variables the body of the [with] block closes over. *)
Context (verbosity : Z) (dry_run : bool).

(** Lines 164-172: unzip a zipped file, else create a symbolic link. *)
Definition materialize (dpath_tmp fpath_nifti : Path.t) : M Path.t :=
  if String.eqb (Path.suffix fpath_nifti) EXT_GZIP then
    let fpath_raw_nii := Path.joinpath dpath_tmp (Path.stem fpath_nifti) in
    open_wb fpath_raw_nii ;;;
    run_command verbosity dry_run
      [AStr "zcat"; APath fpath_nifti] (Some fpath_raw_nii) false ;;;
    ret fpath_raw_nii
  else
    let fpath_raw_nii := Path.joinpath dpath_tmp (Path.name fpath_nifti) in
    run_command verbosity dry_run
      [AStr "ln"; AStr "-s"; APath fpath_nifti; APath fpath_raw_nii]
      None false ;;;
    ret fpath_raw_nii.

(** Lines 174-183: the output subdirectory. *)
Definition make_output_dir (overwrite : bool) (dpath_out fpath_raw_nii : Path.t)
  : M Path.t :=
  let dpath_out_sub := Path.joinpath dpath_out (Path.stem fpath_raw_nii) in
  try_except (mkdir dpath_out_sub overwrite) is_FileExistsError
    (fun _ =>
       entries <- iterdir dpath_out_sub ;;
       when (negb (Nat.eqb (List.length entries) 0))
            (print_error_and_exit (OutputDirExists dpath_out_sub) 1)) ;;;
  ret dpath_out_sub.

(** Lines 185-279: the chain of tools from [nii2mnc] to [mnc2nii]. *)
Definition run_stages (template_prefix beast_conf : string) (ps : Paths)
    (ts : Templates) (dpath_tmp fpath_raw_nii : Path.t) : M Artifacts :=
  (* convert to minc format *)
  raw_mnc <- lift (with_suffix fpath_raw_nii EXT_MINC) ;;
  let fpath_raw := Path.join dpath_tmp raw_mnc in
  run_command verbosity dry_run
    [AStr "nii2mnc"; APath fpath_raw_nii; APath fpath_raw] None false ;;;
  (* denoise *)
  let fpath_denoised := add_suffix fpath_raw SUFFIX_DENOISED SEP_DEFAULT in
  run_command verbosity dry_run
    [AStr "mincnlm"; AStr "-verbose"; APath fpath_raw; APath fpath_denoised]
    None false ;;;
  (* normalize, scale, perform linear registration *)
  let fpath_norm := add_suffix fpath_denoised SUFFIX_NORM SEP_DEFAULT in
  fpath_norm_transform <- lift (with_suffix fpath_norm EXT_TRANSFORM) ;;
  run_command verbosity dry_run
    [AStr "beast_normalize";
     AStr "-modeldir"; APath (dpath_templates ps);
     AStr "-modelname"; AStr template_prefix;
     APath fpath_denoised; APath fpath_norm; APath fpath_norm_transform]
    None false ;;;
  (* get brain mask *)
  let fpath_mask := add_suffix fpath_norm SUFFIX_MASK SEP_DEFAULT in
  let fpath_conf := Path.joinpath (dpath_beast_lib ps) beast_conf in
  run_command verbosity dry_run
    [AStr "mincbeast"; AStr "-fill"; AStr "-median";
     AStr "-conf"; APath fpath_conf; AStr "-verbose";
     APath (dpath_beast_lib ps); APath fpath_norm; APath fpath_mask]
    None false ;;;
  (* extract brain *)
  let fpath_extracted := add_suffix fpath_norm SUFFIX_EXTRACTED SEP_DEFAULT in
  run_command verbosity dry_run
    [AStr "minccalc"; AStr "-verbose"; AStr "-expression"; AStr "A[0]*A[1]";
     APath fpath_norm; APath fpath_mask; APath fpath_extracted]
    None false ;;;
  (* perform nonlinear registration *)
  let fpath_nonlinear :=
    add_suffix fpath_extracted SUFFIX_NONLINEAR SEP_DEFAULT in
  fpath_nonlinear_transform <-
    lift (with_suffix fpath_nonlinear EXT_TRANSFORM) ;;
  run_command verbosity dry_run
    [AStr "nlfit_s"; AStr "-verbose";
     AStr "-source_mask"; APath fpath_mask;
     AStr "-target_mask"; APath (fpath_template_mask ts);
     APath fpath_extracted; APath (fpath_template ts);
     APath fpath_nonlinear_transform; APath fpath_nonlinear]
    None false ;;;
  (* get DBM map *)
  let fpath_dbm := add_suffix fpath_nonlinear SUFFIX_DBM SEP_DEFAULT in
  run_command verbosity dry_run
    [AStr "pipeline_dbm.pl"; AStr "-verbose";
     AStr "--model"; APath (fpath_template ts);
     APath fpath_nonlinear_transform; APath fpath_dbm]
    None false ;;;
  (* need this otherwise nifti file has wrong affine *)
  let fpath_dbm_reshaped := add_suffix fpath_dbm SUFFIX_RESHAPED SEP_DEFAULT in
  run_command verbosity dry_run
    [AStr "mincreshape"; AStr "-dimorder"; AStr "xspace,yspace,zspace";
     APath fpath_dbm; APath fpath_dbm_reshaped]
    None false ;;;
  (* convert back to nifti *)
  fpath_dbm_nii <- lift (with_suffix fpath_dbm_reshaped EXT_NIFTI) ;;
  run_command verbosity dry_run
    [AStr "mnc2nii"; AStr "-nii"; APath fpath_dbm_reshaped; APath fpath_dbm_nii]
    None false ;;;
  ret (mkArtifacts fpath_raw fpath_denoised fpath_norm fpath_norm_transform
         fpath_mask fpath_extracted fpath_nonlinear fpath_nonlinear_transform
         fpath_dbm fpath_dbm_reshaped fpath_dbm_nii).

(** Lines 285-294: the files to copy. *)
Definition fpaths_to_copy (save_all : bool) (dpath_tmp : Path.t)
    (a : Artifacts) : M (list Path.t) :=
  if save_all then iterdir dpath_tmp
  else ret [fpath_denoised a; fpath_mask a; fpath_extracted a;
            fpath_nonlinear a; fpath_dbm_nii a].

(** The command of lines 297-302. *)
Definition cp_args (fpath_source dpath_out_sub : Path.t) : list arg :=
  [AStr "cp"; AStr "-vfp"; APath fpath_source; APath dpath_out_sub].

(** Lines 285-302: copy all/some result files to the output directory. *)
Definition copy_results (save_all : bool) (dpath_tmp : Path.t) (a : Artifacts)
    (dpath_out_sub : Path.t) : M unit :=
  fpaths <- fpaths_to_copy save_all dpath_tmp a ;;
  for_each fpaths (fun fpath_source =>
    run_command verbosity dry_run (cp_args fpath_source dpath_out_sub)
      None false).

(** Lines 162-307: the body of the [with] block. *)
Definition pipeline (c : Config) (ps : Paths) (ts : Templates)
    (dpath_tmp : Path.t) : M unit :=
  fpath_raw_nii <- materialize dpath_tmp (fpath_nifti ps) ;;
  dpath_out_sub <-
    make_output_dir (opt_overwrite c) (dpath_out ps) fpath_raw_nii ;;
  a <- run_stages (opt_template_prefix c) (opt_beast_conf c) ps ts
         dpath_tmp fpath_raw_nii ;;
  (* list all output files *)
  run_command verbosity dry_run
    [AStr "ls"; AStr "-lh"; APath dpath_tmp] None false ;;;
  copy_results (opt_save_all c) dpath_tmp a dpath_out_sub ;;;
  (* list files in output directory *)
  run_command verbosity dry_run
    [AStr "ls"; AStr "-lh"; APath dpath_out_sub] None false ;;;
  timestamp verbosity dry_run.

End Pipeline.

(** *** [run_dbm_minc] *)

(** [verbosity] after line 113. *)
Definition effective_verbosity (c : Config) : Z :=
  if opt_quiet c then 0 else opt_verbosity c.

(** Lines 309-310: the handler of [except Exception]. *)
Definition on_exception (e : exn) : M unit :=
  print_error_and_exit (Traceback e) 1.

Definition run_dbm_minc (c : Config) : M unit :=
  try_except
    (timestamp (opt_verbosity c) (opt_dry_run c) ;;;
     ps <- process_paths c ;;
     ts <- check_paths (opt_template_prefix c) ps ;;
     with_TemporaryDirectory
       (pipeline (effective_verbosity c) (opt_dry_run c) c ps ts))
    is_Exception
    on_exception.

End Script.

(** The exit status of the process: [0] when the function returns; when
    [SystemExit] escapes, the low eight bits of the argument of
    [sys.exit], which is all the operating system keeps of it
    ([sys.exit(-15)] ends the process with status [241]; this is for the
    codes that fit a machine word, as the return code of a child and
    the [1] of the script do); an escaping [Exception] would make the
    interpreter exit with [1]. *)
Definition exit_code (r : outcome unit) : Z :=
  match r with
  | Return _ => 0
  | Raise (SystemExit code) => code mod 256
  | Raise _ => 1
  end.

(** A world at process start: nothing has happened yet. *)
Definition initial (fs : FS) : World := mkWorld fs [].

(** ** Reading the log *)

(** The token lists of the external processes that were started. *)
Definition execs (log : list event) : list (list string) :=
  omap (fun e => match e with Exec a _ _ => Some a | _ => None end) log.

(** The command lines printed with the [RUN] prefix. *)
Definition printed_commands (log : list event) : list string :=
  omap (fun e => match e with
                 | Echo _ (CommandLine s) _ _ => Some s
                 | _ => None
                 end) log.

(** The error messages printed by [print_error_and_exit]. *)
Definition errors (log : list event) : list message :=
  omap (fun e => match e with
                 | Echo _ (CommandLine _) _ _ => None
                 | Echo _ m _ _ => Some m
                 | _ => None
                 end) log.

(** ** Vocabulary of the properties *)

(** A path component as [pathlib] stores it. *)
Definition component (x : string) : Prop :=
  Path.is_component x = true /\ Str.contains "/" x = false.

(** The representation invariant of [Path.t]. *)
Definition wf_path (p : Path.t) : Prop := Forall component (Path.tail p).

(** [add_suffix] applied along a list of suffixes, first to last. *)
Definition add_suffixes (p : Path.t) (l : list string) : Path.t :=
  fold_left (fun q s => add_suffix q s SEP_DEFAULT) l p.

(** The suffixes [add_suffix] is meant for: non-empty, no dot, no slash. *)
Definition good_suffix (s : string) : Prop :=
  s <> "" /\ Str.contains "." s = false /\ Str.contains "/" s = false.

(** The name [add_suffix] builds from a name [n] and a suffix [s], with
    the default separator. *)
Definition suffixed (n s : string) : string :=
  Path.stem_of_name n +:+ "." +:+ s +:+ Path.suffix_of_name n.

(** *** What a computation adds to the log *)

(** How a computation ended: [None] for a normal return. *)
Definition status {A} (r : outcome A) : option exn :=
  match r with Return _ => None | Raise e => Some e end.

(** [logs P m]: from every world, [m] only appends events to the log, and
    the events it appends satisfy [P] together with the way [m] ended. *)
Definition logs {A} (P : list event -> option exn -> Prop) (m : M A) : Prop :=
  forall w, exists evs,
    w_log (m w).2 = (w_log w ++ evs)%list /\ P evs (status (m w).1).

(** Properties of event lists that survive sequencing, silent steps,
    printing, and the handling of an [Exception]. *)
Class Sequential (P : list event -> option exn -> Prop) : Prop := {
  seq_silent s : P [] s;
  seq_echo prefix msg color b s : P [Echo prefix msg color b] s;
  seq_app evs1 evs2 s : P evs1 None -> P evs2 s -> P (evs1 ++ evs2)%list s;
  seq_caught evs e : is_Exception e = true -> P evs (Some e) -> P evs None;
}.

(** Fail-fast: a process that exits with a nonzero code is the last one
    started, and the computation ends in [SystemExit] with that code. *)
Definition fail_fast (evs : list event) (s : option exn) : Prop :=
  forall pre args out rc post,
    evs = (pre ++ Exec args out (Exited rc) :: post)%list -> rc <> 0 ->
    execs post = [] /\ s = Some (SystemExit rc).

(** No process is started. *)
Definition no_exec (evs : list event) (s : option exn) : Prop :=
  execs evs = [].

(** The events that belong to the workspace's life cycle. *)
Definition is_tmp_event (e : event) : bool :=
  match e with Mkdtemp _ | Cleanup _ => true | _ => false end.

(** No temporary directory is created or removed. *)
Definition no_tmp (evs : list event) (s : option exn) : Prop :=
  Forall (fun e => is_tmp_event e = false) evs.

(** *** Error kinds *)

(** The error kinds of the specification (section 7). *)
Inductive ErrorKind : Type :=
| InvalidInput
| ConfigurationError
| MissingResource
| OutputConflict
| ExternalCommandFailure.

(** The kind each message of the script reports.  A traceback stands for
    a configuration error when it comes from the template table
    ([KeyError]) or from a home directory that cannot be determined
    ([RuntimeError]); other tracebacks have no kind of their own. *)
Definition error_kind (m : message) : option ErrorKind :=
  match m with
  | CommandLine _ => None
  | Returned _ _ => Some ExternalCommandFailure
  | ShareDirMissing => Some ConfigurationError
  | NiftiNotFound _ | InvalidFormat _ _ => Some InvalidInput
  | TemplateNotFound _ | TemplateMaskNotFound _ | BeastLibNotFound _ =>
      Some MissingResource
  | OutputDirExists _ => Some OutputConflict
  | Traceback (KeyError _) | Traceback RuntimeError => Some ConfigurationError
  | Traceback _ => None
  end.

(** [print_error_and_exit msg 1] in world [w]. *)
Definition failed {A} (msg : message) (w : World) : outcome A * World :=
  (Raise (SystemExit 1),
   mkWorld (w_fs w) (w_log w ++ [Echo PREFIX_ERR msg "red" false])).

(** What the [except Exception] handler makes of exception [e]. *)
Definition handled (e : exn) (w : World) : outcome unit * World :=
  if is_Exception e then failed (Traceback e) w else (Raise e, w).

(** [p] exists in [fs]. *)
Definition present (fs : FS) (p : Path.t) : bool :=
  bool_decide (is_Some (fs !! p)).

(** The tests of lines 134-159, in order: the message of the first one
    that fails. *)
Definition first_failed_check (fs : FS) (template_prefix : string)
    (ps : Paths) : option message :=
  let t := Path.joinpath (dpath_templates ps) (template_prefix +:+ EXT_MINC) in
  let m := add_suffix t SUFFIX_TEMPLATE_MASK None in
  if negb (present fs (fpath_nifti ps)) then
    Some (NiftiNotFound (fpath_nifti ps))
  else if negb (existsb (Str.endswith (Path.str (fpath_nifti ps)))
                        valid_file_formats) then
    Some (InvalidFormat (fpath_nifti ps) valid_file_formats)
  else if negb (present fs t) then Some (TemplateNotFound t)
  else if negb (present fs m) then Some (TemplateMaskNotFound m)
  else if negb (present fs (dpath_beast_lib ps)) then
    Some (BeastLibNotFound (dpath_beast_lib ps))
  else None.

(** The same command line with [--dry-run] or [--no-dry-run]. *)
Definition with_dry_run (b : bool) (c : Config) : Config :=
  mkConfig (opt_fpath_nifti c) (opt_dpath_out c) (opt_dpath_share c)
    (opt_dpath_templates c) (opt_template_prefix c) (opt_dpath_beast_lib c)
    (opt_beast_conf c) (opt_overwrite c) (opt_save_all c) b
    (opt_verbosity c) (opt_quiet c).

(** The stream [run_command] hands to [subprocess.run]. *)
Definition stdout_of (verbosity : Z) (stdout : option Path.t) : stream :=
  match stdout with
  | None => if (verbosity <? 2)%Z then DEVNULL else Inherit
  | Some f => ToFile f
  end.

(** A filesystem in which the paths without components (the root and the
    working directory) are directories and every other entry lies in a
    directory. *)
Definition fs_wf (fs : FS) : Prop :=
  (forall r, fs !! Path.mk r [] = Some Dir) /\
  map_Forall (fun q _ => Path.tail q <> [] -> fs !! Path.parent q = Some Dir)
             fs.

(** *** The plan of a run *)

(** What a dry [run_command] prints for [args]. *)
Definition echo_run (args : list arg) : event :=
  Echo PREFIX_RUN (CommandLine (command_line args)) "yellow" true.

(** The artifact of the Materialize stage. *)
Definition materialized (tmp nifti : Path.t) : Path.t :=
  if String.eqb (Path.suffix nifti) EXT_GZIP
  then Path.joinpath tmp (Path.stem nifti)
  else Path.joinpath tmp (Path.name nifti).

(** The planned invocations of the ten stages of the specification
    (section 4.4), in stage order: Materialize, Format-convert, Denoise,
    Normalize, Segment, Extract, Nonlinear-register, Compute-DBM, Reshape
    and Format-convert-back. *)
Definition stage_commands (c : Config) (ps : Paths) (ts : Templates)
    (tmp : Path.t) (a : Artifacts) : list (list arg) :=
  let nifti := fpath_nifti ps in
  let raw_nii := materialized tmp nifti in
  [ if String.eqb (Path.suffix nifti) EXT_GZIP
    then [AStr "zcat"; APath nifti]
    else [AStr "ln"; AStr "-s"; APath nifti; APath raw_nii];
    [AStr "nii2mnc"; APath raw_nii; APath (fpath_raw a)];
    [AStr "mincnlm"; AStr "-verbose"; APath (fpath_raw a);
     APath (fpath_denoised a)];
    [AStr "beast_normalize"; AStr "-modeldir"; APath (dpath_templates ps);
     AStr "-modelname"; AStr (opt_template_prefix c);
     APath (fpath_denoised a); APath (fpath_norm a);
     APath (fpath_norm_transform a)];
    [AStr "mincbeast"; AStr "-fill"; AStr "-median"; AStr "-conf";
     APath (Path.joinpath (dpath_beast_lib ps) (opt_beast_conf c));
     AStr "-verbose"; APath (dpath_beast_lib ps); APath (fpath_norm a);
     APath (fpath_mask a)];
    [AStr "minccalc"; AStr "-verbose"; AStr "-expression"; AStr "A[0]*A[1]";
     APath (fpath_norm a); APath (fpath_mask a); APath (fpath_extracted a)];
    [AStr "nlfit_s"; AStr "-verbose"; AStr "-source_mask";
     APath (fpath_mask a); AStr "-target_mask";
     APath (fpath_template_mask ts); APath (fpath_extracted a);
     APath (fpath_template ts); APath (fpath_nonlinear_transform a);
     APath (fpath_nonlinear a)];
    [AStr "pipeline_dbm.pl"; AStr "-verbose"; AStr "--model";
     APath (fpath_template ts); APath (fpath_nonlinear_transform a);
     APath (fpath_dbm a)];
    [AStr "mincreshape"; AStr "-dimorder"; AStr "xspace,yspace,zspace";
     APath (fpath_dbm a); APath (fpath_dbm_reshaped a)];
    [AStr "mnc2nii"; AStr "-nii"; APath (fpath_dbm_reshaped a);
     APath (fpath_dbm_nii a)] ].

(** All planned invocations of a run that copies the files [copies] into
    [sub]: the timestamps, the stages, the listings and the copies. *)
Definition planned_invocations (c : Config) (ps : Paths) (ts : Templates)
    (tmp sub : Path.t) (a : Artifacts) (copies : list Path.t)
  : list (list arg) :=
  [AStr "date"] :: stage_commands c ps ts tmp a
  ++ [[AStr "ls"; AStr "-lh"; APath tmp]]
  ++ ((fun src => cp_args src sub) <$> copies)
  ++ [[AStr "ls"; AStr "-lh"; APath sub]; [AStr "date"]].

(** *** Properties that tell what is printed *)

(** The messages [print_error_and_exit] is called with inside the [try]
    block at its default exit code: the messages of the checks. *)
Definition is_report (m : message) : bool :=
  match m with
  | CommandLine _ | Returned _ _ | Traceback _ => false
  | _ => true
  end.

(** The event of [print_error_and_exit] in the handler of the script. *)
Definition traceback_event (e : exn) : event :=
  Echo PREFIX_ERR (Traceback e) "red" false.

(** Properties of event lists that survive sequencing and the handling of
    an [Exception].  Unlike [Sequential] properties they may tell what is
    printed: only a step that is silent, or that prints the message of a
    check and exits with code [1], has the property for free. *)
Class Composable (P : list event -> option exn -> Prop) : Prop := {
  comp_silent : P [] None;
  comp_raise e : is_Exception e = true -> P [] (Some e);
  comp_exit msg :
    is_report msg = true ->
    P [Echo PREFIX_ERR msg "red" false] (Some (SystemExit 1));
  comp_app evs1 evs2 s : P evs1 None -> P evs2 s -> P (evs1 ++ evs2)%list s;
  comp_caught evs e : is_Exception e = true -> P evs (Some e) -> P evs None;
}.

(** A pure step raises no [SystemExit]. *)
Definition no_exit {A} (r : outcome A) : Prop :=
  match r with Raise e => is_Exception e = true | Return _ => True end.

(** What [run_command] prints before it runs anything. *)
Definition announcement (verbosity : Z) (dry_run silent : bool)
    (args : list arg) : list event :=
  if negb silent && ((0 <? verbosity)%Z || dry_run)
  then [Echo PREFIX_RUN (CommandLine (command_line args)) "yellow" dry_run]
  else [].

(** The exit discipline: a computation that returns or raises an
    [Exception] has printed no error; one that raises [SystemExit] has a
    nonzero code and has printed exactly one error, the report of a
    command that returned this code or else a message that goes with
    code [1]. *)
Definition disciplined (evs : list event) (s : option exn) : Prop :=
  match s with
  | Some (SystemExit rc) =>
      rc <> 0 /\
      exists msg,
        errors evs = [msg] /\
        match msg with
        | Returned line rc' =>
            rc' = rc /\
            exists args out,
              line = Str.join " " args /\ Exec args out (Exited rc) ∈ evs
        | CommandLine _ => False
        | _ => rc = 1
        end
  | _ => errors evs = []
  end.

(** Every printed command line is that of a process started right
    after. *)
Definition announced (evs : list event) (s : option exn) : Prop :=
  printed_commands evs = Str.join " " <$> execs evs.

(** No command line is printed. *)
Definition unannounced (evs : list event) (s : option exn) : Prop :=
  printed_commands evs = [].

(** Every process writes where [run_command] sends it at verbosity [v]:
    to the terminal of the script from verbosity [2] on and to [DEVNULL]
    below; only [zcat] writes to a file. *)
Definition routed (v : Z) (evs : list event) (s : option exn) : Prop :=
  forall a o x,
    Exec a o x ∈ evs ->
    o = stdout_of v None \/ (exists p, o = ToFile p) /\ head a = Some "zcat".

(** The calls of [run_command] in the script: a file is given for the
    output of [zcat] only, and no call is silent. *)
Definition script_call (args : list arg) (stdout : option Path.t) : Prop :=
  stdout <> None -> head (command_tokens args) = Some "zcat".

(** What the script does after the first timestamp, inside the [try]. *)
Definition after_timestamp (os : OS) (c : Config) : M unit :=
  ps <- process_paths os c ;;
  ts <- check_paths (opt_template_prefix c) ps ;;
  with_TemporaryDirectory os
    (pipeline os (effective_verbosity c) (opt_dry_run c) c ps ts).

(** *** Real runs that go through *)

(** A process event reports a return code of 0; any other event goes. *)
Definition succeeded (e : event) : Prop :=
  match e with Exec _ _ x => x = Exited 0 | _ => True end.

(** From world [w] to world [w'] the processes with token lists [l] were
    started, in this order, and each returned 0. *)
Definition runs_more (w w' : World) (l : list (list string)) : Prop :=
  exists evs,
    w_log w' = (w_log w ++ evs)%list /\ execs evs = l /\ Forall succeeded evs.

(** *** The filesystem of a dry run *)

(** The workspace after the Materialize stage of a dry run: the file
    opened for the output of [zcat] exists, the link does not. *)
Definition dry_materialized_fs (tmp nifti : Path.t) (fs : FS) : FS :=
  if String.eqb (Path.suffix nifti) EXT_GZIP
  then <[materialized tmp nifti := File]> fs
  else fs.

(** The filesystem after a [mkdir] of [sub] that went through. *)
Definition with_output_dir (sub : Path.t) (fs : FS) : FS :=
  match fs !! sub with
  | None => makedirs fs (Path.root sub) [] (Path.tail sub)
  | Some _ => fs
  end.

(** The files a dry run plans to copy. *)
Definition dry_copies (save_all : bool) (tmp : Path.t) (a : Artifacts)
    (fs : FS) : list Path.t :=
  if save_all then children fs tmp
  else [fpath_denoised a; fpath_mask a; fpath_extracted a;
        fpath_nonlinear a; fpath_dbm_nii a].

(** The workspaces created along a log. *)
Definition workspaces (log : list event) : list Path.t :=
  omap (fun e => match e with Mkdtemp d => Some d | _ => None end) log.

(** *** The style of the printed lines *)

(** Every printed line is a command line in the style of [run_command]
    or an error in the style of [print_error_and_exit]. *)
Definition styled (dry_run : bool) (evs : list event) (s : option exn)
  : Prop :=
  forall p m col b,
    Echo p m col b ∈ evs ->
    match m with
    | CommandLine _ => p = PREFIX_RUN /\ col = "yellow" /\ b = dry_run
    | _ => p = PREFIX_ERR /\ col = "red" /\ b = false
    end.

(** *** The exceptions behind a traceback *)

(** No traceback is printed. *)
Definition no_traceback (evs : list event) (s : option exn) : Prop :=
  forall p e col b, Echo p (Traceback e) col b ∉ evs.

(** Every [Exception] that [m] raises satisfies [E]. *)
Definition raising {A} (E : exn -> Prop) (m : M A) : Prop :=
  forall w e, (m w).1 = Raise e -> is_Exception e = true -> E e.

(** What can be behind the traceback of a run with the arguments [c]: a
    home directory that cannot be determined, a template identifier that
    the table does not have, a program that cannot be started, a path
    that is listed but is no directory, and a file that is not found.
    In Python a program that is not on the search path gives a
    [FileNotFoundError] too, so this class is tied to real runs and not
    to [--save-all], although the only [FileNotFoundError p] along the
    script is the one of listing the workspace. *)
Definition crash_cause (c : Config) (e : exn) : Prop :=
  match e with
  | RuntimeError => True
  | KeyError k =>
      k = opt_template_prefix c /\ opt_dpath_templates c = None /\
      DNAME_TEMPLATE_MAP !! k = None
  | OSError _ => opt_dry_run c = false
  | NotADirectoryError _ => True
  | FileNotFoundError _ => opt_dry_run c = false
  | SystemExit _ | TypeError | ValueError | FileExistsError _ => False
  end.

(** ** A small installation to run the script on *)

Module Ex.

(** Every tool succeeds and leaves the filesystem alone, except that the
    program named [prog] exits with [rc]. *)
Definition os_failing (prog : string) (rc : Z) : OS :=
  mkOS (fun _ args _ fs =>
          (Exited (if bool_decide (head args = Some prog) then rc else 0), fs))
       (fun _ _ => "tmp/tmpk3v9")
       "/home/user"
       (fun s => s).

(** Every tool succeeds. *)
Definition os_ok : OS := os_failing "" 0.

Definition P (s : string) : Path.t := Path.of_string s.

(** The shared data with the default template, and one zipped scan. *)
Definition fs : FS :=
  list_to_map
    [(P "/", Dir); (P ".", Dir); (P "/data", Dir); (P "/data/scan001.nii.gz", File);
     (P "/share", Dir); (P "/share/icbm152_model_09c", Dir);
     (P "/share/icbm152_model_09c/mni_icbm152_t1_tal_nlin_sym_09c.mnc", File);
     (P "/share/icbm152_model_09c/mni_icbm152_t1_tal_nlin_sym_09c_mask.mnc",
      File);
     (P "/share/beast-library-1.1", Dir)].

(** [run_dbm_minc scan out --share-dir /share] with the given flags. *)
Definition cfg (scan : string) (save_all overwrite dry quiet : bool) : Config :=
  mkConfig scan "/out" (Some "/share") None DEFAULT_TEMPLATE None
           DEFAULT_BEAST_CONF overwrite save_all dry DEFAULT_VERBOSITY quiet.

Definition scan : string := "/data/scan001.nii.gz".

(** The same files with an output directory left by an earlier run. *)
Definition fs_with_output (stray : list string) : FS :=
  list_to_map ((fun n => (P ("/out/scan001/" +:+ n), File)) <$> stray)
  ∪ <[P "/out/scan001" := Dir]> (<[P "/out" := Dir]> fs).

End Ex.

(** * Properties *)

(** ** Strings *)

#[local] Arguments String.append !s1 s2 : simpl nomatch.

Section StrFacts.
Implicit Types (s t u l r pre suf : string) (c : ascii).

Lemma str_app_nil_r s : s +:+ "" = s.
Proof. induction s as [|a s IH]; simpl; [done | by rewrite IH]. Qed.

Lemma str_app_assoc s t u : (s +:+ t) +:+ u = s +:+ t +:+ u.
Proof. induction s as [|a s IH]; simpl; [done | by rewrite IH]. Qed.

Lemma str_app_length s t :
  String.length (s +:+ t) = (String.length s + String.length t)%nat.
Proof. induction s as [|a s IH]; simpl; [done | by rewrite IH]. Qed.

Lemma str_app_inv_head s t u : s +:+ t = s +:+ u -> t = u.
Proof. induction s as [|a s IH]; simpl; [done | intros [= H]; auto]. Qed.

Lemma str_length_zero s : String.length s = 0%nat -> s = "".
Proof. by destruct s. Qed.

Lemma str_app_inv_tail s t u : t +:+ s = u +:+ s -> t = u.
Proof.
  revert u. induction t as [|a t IH]; intros [|b u]; simpl; try done.
  - intros H. apply (f_equal String.length) in H. simpl in H.
    rewrite str_app_length in H. lia.
  - intros H. apply (f_equal String.length) in H. simpl in H.
    rewrite str_app_length in H. lia.
  - intros [= -> H]. f_equal. auto.
Qed.

Lemma str_app_eq_nil s t : s +:+ t = "" -> s = "" /\ t = "".
Proof. by destruct s. Qed.

Lemma contains_app c s t :
  Str.contains c (s +:+ t) = Str.contains c s || Str.contains c t.
Proof.
  induction s as [|a s IH]; simpl; [done |].
  rewrite IH. by rewrite orb_assoc.
Qed.

Lemma endswith_cons a s suf :
  Str.endswith (String a s) suf =
  String.eqb (String a s) suf || Str.endswith s suf.
Proof. done. Qed.

Lemma endswith_nil suf : Str.endswith "" suf = String.eqb "" suf.
Proof. unfold Str.endswith. by rewrite orb_false_r. Qed.

Lemma endswith_spec s suf :
  Str.endswith s suf = true <-> exists pre, s = pre +:+ suf.
Proof.
  induction s as [|a s IH].
  - rewrite endswith_nil, String.eqb_eq. split.
    + intros <-. by exists "".
    + intros [pre H]. symmetry in H. apply str_app_eq_nil in H as [_ ->]. done.
  - rewrite endswith_cons, orb_true_iff, String.eqb_eq, IH. split.
    + intros [<- | [pre ->]]; [by exists "" | by exists (String a pre)].
    + intros [[|b pre] H]; simpl in H; [by left |].
      injection H as -> ->. right. by exists pre.
Qed.

Lemma startswith_spec pre s :
  Str.startswith pre s = true <-> exists t, s = pre +:+ t.
Proof.
  revert s. induction pre as [|a pre IH]; intros s; simpl.
  - split; [by exists s | done].
  - destruct s as [|b s]; [split; [done | by intros [t H]] |].
    rewrite andb_true_iff, Ascii.eqb_eq, IH. split.
    + intros [-> [t ->]]. by exists t.
    + intros [t [= -> ->]]. split; [done | by exists t].
Qed.

(** Two ways to cut the same string overlap. *)
Lemma str_app_eq_app s1 s2 t1 t2 :
  s1 +:+ s2 = t1 +:+ t2 ->
  (exists u, s1 = t1 +:+ u /\ t2 = u +:+ s2) \/
  (exists u, t1 = s1 +:+ u /\ s2 = u +:+ t2).
Proof.
  revert t1. induction s1 as [|a s1 IH]; intros t1 H; simpl in H.
  - right. by exists t1.
  - destruct t1 as [|b t1]; simpl in H.
    + left. by exists (String a s1).
    + injection H as -> H.
      destruct (IH _ H) as [(u & -> & ->) | (u & -> & ->)].
      * left. by exists u.
      * right. by exists u.
Qed.

Lemma concat_snoc sep (l : list string) n :
  l <> [] ->
  String.concat sep (l ++ [n]) = String.concat sep l +:+ sep +:+ n.
Proof.
  induction l as [|x l IH]; [done |]. intros _.
  destruct l as [|y l]; [done |].
  change (String.concat sep ((x :: y :: l) ++ [n]))
    with (x +:+ sep +:+ String.concat sep ((y :: l) ++ [n])).
  rewrite IH by done.
  change (String.concat sep (x :: y :: l))
    with (x +:+ sep +:+ String.concat sep (y :: l)).
  by rewrite !str_app_assoc.
Qed.

(** *** The last dot of a name *)

Lemma rsplit_dot_None s :
  Str.rsplit_dot s = None <-> Str.contains "." s = false.
Proof.
  induction s as [|a s IH]; simpl; [done |].
  destruct (Str.rsplit_dot s) as [[l r]|].
  - split; [done |]. rewrite orb_false_iff. intros [_ H].
    apply IH in H. done.
  - destruct (Ascii.eqb_spec a "."); simpl; [done |].
    split; [intros _; by apply IH | done].
Qed.

Lemma rsplit_dot_Some s l r :
  Str.rsplit_dot s = Some (l, r) ->
  s = l +:+ "." +:+ r /\ Str.contains "." r = false.
Proof.
  revert l. induction s as [|a s IH]; intros l; simpl; [done |].
  destruct (Str.rsplit_dot s) as [[l' r']|] eqn:E.
  - intros [= <- <-]. destruct (IH l' eq_refl) as [-> H]. done.
  - destruct (Ascii.eqb_spec a "."); [|done].
    intros [= <- <-]. subst a. split; [done | by apply rsplit_dot_None].
Qed.

Lemma rsplit_dot_app l r :
  Str.contains "." r = false ->
  Str.rsplit_dot (l +:+ "." +:+ r) = Some (l, r).
Proof.
  intros Hr. induction l as [|a l IH]; simpl in *.
  - by apply rsplit_dot_None in Hr as ->.
  - by rewrite IH.
Qed.

Lemma rsplit_dot_snoc l r :
  Str.contains "." r = false ->
  Str.rsplit_dot (l +:+ String "." r) = Some (l, r).
Proof. apply rsplit_dot_app. Qed.

End StrFacts.

(** ** Names, stems and suffixes *)

Section NameFacts.
Implicit Types (n s t l r st : string).

Lemma stem_suffix_dotted st r :
  st <> "" -> r <> "" -> Str.contains "." r = false ->
  Path.stem_of_name (st +:+ "." +:+ r) = st /\
  Path.suffix_of_name (st +:+ "." +:+ r) = "." +:+ r.
Proof.
  intros Hst Hr Hd. unfold Path.stem_of_name, Path.suffix_of_name.
  rewrite (rsplit_dot_app _ _ Hd).
  apply String.eqb_neq in Hst as ->. apply String.eqb_neq in Hr as ->. done.
Qed.

Lemma stem_suffix_hidden r :
  Str.contains "." r = false ->
  Path.stem_of_name ("." +:+ r) = "." +:+ r /\
  Path.suffix_of_name ("." +:+ r) = "".
Proof.
  intros Hd. unfold Path.stem_of_name, Path.suffix_of_name.
  pose proof (rsplit_dot_app "" _ Hd) as E.
  change ("" +:+ "." +:+ r) with ("." +:+ r) in E. by rewrite E.
Qed.

(** A name either has no suffix, and is its own stem, or splits at its last
    dot into a non-empty stem and a suffix with one leading dot. *)
Lemma name_cases n :
  (Path.suffix_of_name n = "" /\ Path.stem_of_name n = n) \/
  (exists st r, n = st +:+ "." +:+ r /\ st <> "" /\ r <> "" /\
                Str.contains "." r = false /\
                Path.stem_of_name n = st /\ Path.suffix_of_name n = "." +:+ r).
Proof.
  unfold Path.stem_of_name, Path.suffix_of_name.
  destruct (Str.rsplit_dot n) as [[l r]|] eqn:E; [|by left].
  apply rsplit_dot_Some in E as [-> Hd].
  destruct (String.eqb_spec l ""), (String.eqb_spec r ""); simpl;
    try (by left).
  right. exists l, r. done.
Qed.

Lemma name_stem_suffix n :
  n = Path.stem_of_name n +:+ Path.suffix_of_name n.
Proof.
  destruct (name_cases n) as [[-> ->] | (st & r & -> & _ & _ & _ & -> & ->)].
  - by rewrite str_app_nil_r.
  - done.
Qed.

Lemma stem_nil n : Path.stem_of_name n = "" -> n = "".
Proof.
  destruct (name_cases n) as [[_ ->] | (st & r & _ & Hst & _ & _ & -> & _)];
    done.
Qed.

End NameFacts.

(** ** Parsing and joining paths *)

Section PathFacts.
Implicit Types (p q : Path.t) (n s x : string).

Lemma split_no_sep c s : Str.contains c s = false -> Str.split c s = [s].
Proof.
  induction s as [|a s IH]; simpl; [done |].
  rewrite orb_false_iff. intros [-> H]. by rewrite (IH H).
Qed.

Lemma split_sep_free c s :
  Forall (fun x => Str.contains c x = false) (Str.split c s).
Proof.
  induction s as [|a s IH]; simpl; [by repeat constructor |].
  destruct (Ascii.eqb a c) eqn:E; [by constructor |].
  destruct (Str.split c s) as [|h t]; [by repeat constructor; simpl; rewrite E |].
  inversion_clear IH. constructor; [simpl; by rewrite E | done].
Qed.

Lemma parse_tail_component x : component x -> Path.parse_tail x = [x].
Proof.
  intros [Hc Hs]. unfold Path.parse_tail.
  rewrite (split_no_sep _ _ Hs). simpl. by rewrite Hc.
Qed.

Lemma parse_tail_wf s : Forall component (Path.parse_tail s).
Proof.
  unfold Path.parse_tail.
  pose proof (split_sep_free "/" s) as H.
  induction H as [|x l Hx _ IH]; simpl; [constructor |].
  destruct (Path.is_component x) eqn:E; [constructor; [done | exact IH] | exact IH].
Qed.

Lemma of_string_wf s : wf_path (Path.of_string s).
Proof. apply parse_tail_wf. Qed.

Lemma join_wf p q : wf_path p -> wf_path q -> wf_path (Path.join p q).
Proof.
  unfold wf_path, Path.join. intros Hp Hq.
  destruct (Path.root q); simpl; [done | by apply Forall_app].
Qed.

Lemma joinpath_wf p s : wf_path p -> wf_path (Path.joinpath p s).
Proof. intros. apply join_wf; [done | apply of_string_wf]. Qed.

Lemma parent_wf p : wf_path p -> wf_path (Path.parent p).
Proof.
  unfold wf_path, Path.parent. simpl. intros H.
  destruct (Path.tail p) as [|x l] using rev_ind; [done |].
  rewrite removelast_last. by apply Forall_app in H as [H _].
Qed.

Lemma component_startswith_slash x :
  component x -> Str.startswith "/" x = false.
Proof.
  intros [_ H]. destruct x as [|a x]; [done |].
  change (Str.startswith "/" (String a x)) with (Ascii.eqb "/" a && true).
  change (Ascii.eqb a "/" || Str.contains "/" x = false) in H.
  apply orb_false_iff in H as [H _]. by rewrite Ascii.eqb_sym, H.
Qed.

(** Joining a single component appends it. *)
Lemma joinpath_component p x :
  component x ->
  Path.joinpath p x = Path.mk (Path.root p) (Path.tail p ++ [x]).
Proof.
  intros Hx. unfold Path.joinpath, Path.join, Path.of_string.
  cbn [Path.root Path.tail].
  by rewrite (component_startswith_slash _ Hx), (parse_tail_component _ Hx).
Qed.

Lemma name_snoc r l x : Path.name (Path.mk r (l ++ [x])) = x.
Proof. unfold Path.name. simpl. apply last_last. Qed.

Lemma parent_snoc r l x : Path.parent (Path.mk r (l ++ [x])) = Path.mk r l.
Proof. unfold Path.parent. simpl. by rewrite removelast_last. Qed.

(** The name of a well-formed path is empty (no components) or a
    component. *)
Lemma wf_name p :
  wf_path p ->
  (Path.tail p = [] /\ Path.name p = "") \/
  (component (Path.name p) /\
   Path.tail p = (List.removelast (Path.tail p) ++ [Path.name p])%list).
Proof.
  unfold wf_path, Path.name. intros H.
  destruct (Path.tail p) as [|x l] using rev_ind; [by left |].
  right. rewrite last_last, removelast_last.
  apply Forall_app in H as [_ H]. by inversion_clear H.
Qed.

Lemma wf_name_slashfree p : wf_path p -> Str.contains "/" (Path.name p) = false.
Proof. intros [[_ ->] | [[_ H] _]]%wf_name; done. Qed.

Lemma str_nonempty p :
  Path.tail p <> [] ->
  Path.str p =
  (if Path.root p then "/" else "") +:+ String.concat "/" (Path.tail p).
Proof.
  unfold Path.str, Str.join. by destruct (Path.root p), (Path.tail p).
Qed.

(** [str(p)] ends with the name of [p], after nothing or after a slash. *)
Lemma str_name p :
  Path.tail p <> [] ->
  exists pre, Path.str p = pre +:+ Path.name p /\
              (pre = "" \/ exists pre', pre = pre' +:+ "/").
Proof.
  intros Hne. rewrite str_nonempty by done. unfold Path.name.
  destruct (Path.tail p) as [|x l _] using rev_ind; [done |].
  rewrite last_last. destruct l as [|y l].
  - destruct (Path.root p).
    + exists "/". split; [done |]. right. by exists "".
    + exists "". split; [done | by left].
  - rewrite concat_snoc by done.
    exists ((if Path.root p then "/" else "")
            +:+ String.concat "/" (y :: l) +:+ "/").
    split; [by rewrite !str_app_assoc |].
    right. exists ((if Path.root p then "/" else "")
                   +:+ String.concat "/" (y :: l)).
    by rewrite !str_app_assoc.
Qed.

(** A slash-free ending of [str(p)], two characters or more, is an ending
    of the name. *)
Lemma str_endswith_name p suf :
  wf_path p -> (1 < String.length suf)%nat -> Str.contains "/" suf = false ->
  Str.endswith (Path.str p) suf = true ->
  component (Path.name p) /\ exists pre, Path.name p = pre +:+ suf.
Proof.
  intros Hp Hlen Hsl [pre0 E]%endswith_spec.
  destruct (wf_name p Hp) as [[Ht _] | [Hc Ht]].
  { exfalso. apply (f_equal String.length) in E.
    rewrite str_app_length in E. unfold Path.str in E. rewrite Ht in E.
    destruct (Path.root p); simpl in E; lia. }
  split; [done |].
  destruct (str_name p) as (pre & E' & Hpre).
  { rewrite Ht. by destruct (removelast (Path.tail p)). }
  rewrite E' in E. apply str_app_eq_app in E as [(u & -> & Es) | (u & -> & En)].
  - destruct u as [|a u]; [exists ""; by rewrite Es |].
    exfalso. destruct Hpre as [Hpre | (pre' & Hpre)]; [by destruct pre0 |].
    rewrite Es, contains_app in Hsl. apply orb_false_iff in Hsl as [Hsl _].
    destruct (str_app_eq_app _ _ _ _ Hpre) as [(v & Ev & Ev') | (v & Ev & Ev')].
    + destruct v as [|b v].
      * simpl in Ev'. rewrite <- Ev' in Hsl. by simpl in Hsl.
      * simpl in Ev'. injection Ev' as _ Ev'. by destruct v.
    + rewrite Ev', contains_app in Hsl.
      apply orb_false_iff in Hsl as [_ Hsl]. by simpl in Hsl.
  - by exists u.
Qed.

Lemma join_root p q :
  Path.root p = true -> Path.root (Path.join p q) = true.
Proof. unfold Path.join. intros H. by destruct (Path.root q) eqn:E. Qed.

Lemma joinpath_root p s :
  Path.root p = true -> Path.root (Path.joinpath p s) = true.
Proof. apply join_root. Qed.

End PathFacts.

(** ** [add_suffix] *)

Example add_suffix_ex1 :
  Path.str (add_suffix (Path.of_string "/tmp/w/scan001.mnc") SUFFIX_DENOISED SEP_DEFAULT)
  = "/tmp/w/scan001.denoised.mnc".
Proof. reflexivity. Qed.

Example add_suffix_ex2 :
  Path.str (add_suffix (Path.of_string "/m/t1.mnc") SUFFIX_TEMPLATE_MASK None)
  = "/m/t1_mask.mnc".
Proof. reflexivity. Qed.

Example add_suffix_ex3 :
  Path.str (add_suffix (Path.of_string "/tmp/w/scan001") SUFFIX_DENOISED SEP_DEFAULT)
  = "/tmp/w/scan001.denoised".
Proof. reflexivity. Qed.

Section AddSuffixFacts.
Implicit Types (p q : Path.t) (n s t st r : string) (l : list string).

Lemma semantic_good s : s ∈ semantic_suffixes -> good_suffix s.
Proof.
  unfold semantic_suffixes. rewrite !elem_of_cons, elem_of_nil.
  intros H. repeat destruct H as [-> | H]; try done.
Qed.

Lemma good_startswith_dot s : good_suffix s -> Str.startswith "." s = false.
Proof.
  intros (Hne & Hd & _). destruct s as [|a s]; [done |].
  change (Str.startswith "." (String a s)) with (Ascii.eqb "." a && true).
  change (Ascii.eqb a "." || Str.contains "." s = false) in Hd.
  apply orb_false_iff in Hd as [Hd _]. by rewrite Ascii.eqb_sym, Hd.
Qed.

Lemma suffixed_length n s :
  String.length (suffixed n s) = (String.length n + 1 + String.length s)%nat.
Proof.
  unfold suffixed. rewrite (name_stem_suffix n) at 3.
  rewrite !str_app_length. simpl. lia.
Qed.

Lemma suffixed_slashfree n s :
  Str.contains "/" n = false -> good_suffix s ->
  Str.contains "/" (suffixed n s) = false.
Proof.
  intros Hn (_ & _ & Hs). unfold suffixed.
  rewrite (name_stem_suffix n), contains_app in Hn.
  apply orb_false_iff in Hn as [H1 H2].
  rewrite !contains_app, H1, Hs, H2. done.
Qed.

Lemma suffixed_component n s :
  Str.contains "/" n = false -> good_suffix s -> component (suffixed n s).
Proof.
  intros Hn Hs. split; [| by apply suffixed_slashfree].
  pose proof (suffixed_length n s) as Hl.
  destruct Hs as (Hne & _).
  assert (0 < String.length s)%nat by (destruct s; simpl; [done | lia]).
  unfold Path.is_component.
  destruct (String.eqb_spec (suffixed n s) "") as [E|_];
    [rewrite E in Hl; simpl in Hl; lia |].
  destruct (String.eqb_spec (suffixed n s) ".") as [E|_];
    [rewrite E in Hl; simpl in Hl; lia | done].
Qed.

(** A name with a suffix keeps it, and its stem grows by the new suffix. *)
Lemma suffixed_dotted st r s :
  st <> "" -> r <> "" -> Str.contains "." r = false -> good_suffix s ->
  suffixed (st +:+ "." +:+ r) s = (st +:+ "." +:+ s) +:+ "." +:+ r.
Proof.
  intros Hst Hr Hd _. unfold suffixed.
  destruct (stem_suffix_dotted st r Hst Hr Hd) as [-> ->].
  by rewrite !str_app_assoc.
Qed.

Lemma app_dot_nonempty st s : st +:+ "." +:+ s <> "".
Proof. by destruct st. Qed.

(** [suffixed] can be undone: the name and the suffix are determined by
    the result. *)
Lemma suffixed_inj n1 n2 s1 s2 :
  good_suffix s1 -> good_suffix s2 ->
  suffixed n1 s1 = suffixed n2 s2 -> n1 = n2 /\ s1 = s2.
Proof.
  intros G1 G2.
  pose proof G1 as (Hne1 & Hd1 & _). pose proof G2 as (Hne2 & Hd2 & _).
  destruct (name_cases n1) as [[E1 S1] | (st1 & r1 & -> & Hst1 & Hr1 & Hdr1 & _ & _)];
  destruct (name_cases n2) as [[E2 S2] | (st2 & r2 & -> & Hst2 & Hr2 & Hdr2 & _ & _)].
  - unfold suffixed. rewrite E1, S1, E2, S2, !str_app_nil_r. intros H.
    apply (f_equal Str.rsplit_dot) in H.
    rewrite !rsplit_dot_app in H by done. by injection H.
  - rewrite suffixed_dotted by done. unfold suffixed.
    rewrite E1, S1, str_app_nil_r. intros H.
    apply (f_equal Str.rsplit_dot) in H.
    rewrite !rsplit_dot_app in H by done. injection H as -> ->.
    destruct (stem_suffix_dotted st2 s2) as [_ E]; try done.
    simpl in E. rewrite E in E1. done.
  - rewrite suffixed_dotted by done. unfold suffixed.
    rewrite E2, S2, str_app_nil_r. intros H.
    apply (f_equal Str.rsplit_dot) in H.
    rewrite !rsplit_dot_app in H by done. injection H as <- <-.
    destruct (stem_suffix_dotted st1 s1) as [_ E]; try done.
    simpl in E. rewrite E in E2. done.
  - rewrite !suffixed_dotted by done. intros H.
    apply (f_equal Str.rsplit_dot) in H.
    rewrite !rsplit_dot_app in H by done. injection H as H' ->.
    apply (f_equal Str.rsplit_dot) in H'.
    rewrite !rsplit_dot_snoc in H' by done. by injection H' as -> ->.
Qed.

Lemma suffixed_chain_length n l :
  (String.length n <= String.length (fold_left suffixed l n))%nat.
Proof.
  revert n. induction l as [|s l IH]; intros n; simpl; [done |].
  etrans; [| apply IH]. rewrite suffixed_length. lia.
Qed.

Lemma suffixed_chain_inj n l1 l2 :
  Forall good_suffix l1 -> Forall good_suffix l2 ->
  fold_left suffixed l1 n = fold_left suffixed l2 n -> l1 = l2.
Proof.
  revert l2. induction l1 as [|s1 l1 IH] using rev_ind;
    intros l2 G1 G2; destruct l2 as [|s2 l2 _] using rev_ind; try done.
  - rewrite fold_left_app. simpl. intros H.
    apply (f_equal String.length) in H. rewrite suffixed_length in H.
    pose proof (suffixed_chain_length n l2). lia.
  - rewrite fold_left_app. simpl. intros H.
    apply (f_equal String.length) in H. rewrite suffixed_length in H.
    pose proof (suffixed_chain_length n l1). lia.
  - rewrite !fold_left_app. simpl. intros H.
    apply Forall_app in G1 as [G1 G1']. apply Forall_app in G2 as [G2 G2'].
    inversion_clear G1'. inversion_clear G2'.
    apply suffixed_inj in H as [H ->]; [| done..].
    f_equal. by apply IH.
Qed.

(** With the default separator and a good suffix nothing is stripped. *)
Lemma add_suffix_default p s :
  good_suffix s ->
  add_suffix p s SEP_DEFAULT =
  Path.joinpath (Path.parent p) (suffixed (Path.name p) s).
Proof.
  intros G. unfold add_suffix, SEP_DEFAULT.
  by rewrite (good_startswith_dot _ G).
Qed.

Lemma add_suffix_tail p s :
  wf_path p -> good_suffix s ->
  add_suffix p s SEP_DEFAULT =
  Path.mk (Path.root p)
          (List.removelast (Path.tail p) ++ [suffixed (Path.name p) s]).
Proof.
  intros Hp G. rewrite add_suffix_default by done.
  rewrite joinpath_component; [done |].
  apply suffixed_component; [by apply wf_name_slashfree | done].
Qed.

Lemma add_suffix_name p s :
  wf_path p -> good_suffix s ->
  Path.name (add_suffix p s SEP_DEFAULT) = suffixed (Path.name p) s.
Proof. intros. rewrite add_suffix_tail by done. apply name_snoc. Qed.

Lemma add_suffix_parent p s :
  wf_path p -> good_suffix s ->
  Path.parent (add_suffix p s SEP_DEFAULT) = Path.parent p.
Proof. intros. rewrite add_suffix_tail by done. apply parent_snoc. Qed.

Lemma add_suffix_wf p s :
  wf_path p -> good_suffix s -> wf_path (add_suffix p s SEP_DEFAULT).
Proof.
  intros Hp G. rewrite add_suffix_default by done.
  by apply joinpath_wf, parent_wf.
Qed.

Lemma add_suffixes_snoc p l s :
  add_suffixes p (l ++ [s]) = add_suffix (add_suffixes p l) s SEP_DEFAULT.
Proof. unfold add_suffixes. by rewrite fold_left_app. Qed.

Lemma add_suffixes_wf_name p l :
  wf_path p -> Forall good_suffix l ->
  wf_path (add_suffixes p l) /\
  Path.name (add_suffixes p l) = fold_left suffixed l (Path.name p).
Proof.
  intros Hp. induction l as [|s l IH] using rev_ind; intros G; [done |].
  apply Forall_app in G as [G Gs]. inversion_clear Gs.
  destruct (IH G) as [Hwf Hn].
  rewrite add_suffixes_snoc, fold_left_app. simpl. split.
  - by apply add_suffix_wf.
  - rewrite add_suffix_name by done. by rewrite Hn.
Qed.

Lemma add_suffixes_inj p l1 l2 :
  wf_path p -> Forall good_suffix l1 -> Forall good_suffix l2 ->
  add_suffixes p l1 = add_suffixes p l2 -> l1 = l2.
Proof.
  intros Hp G1 G2 H. apply (f_equal Path.name) in H.
  destruct (add_suffixes_wf_name p l1 Hp G1) as [_ E1].
  destruct (add_suffixes_wf_name p l2 Hp G2) as [_ E2].
  rewrite E1, E2 in H. by apply suffixed_chain_inj in H.
Qed.

Lemma add_suffix_neq p s :
  wf_path p -> good_suffix s -> add_suffix p s SEP_DEFAULT <> p.
Proof.
  intros Hp G H.
  apply (add_suffixes_inj p [s] []) in H; [done | done | | constructor].
  by constructor.
Qed.

End AddSuffixFacts.

(** C5. For every (well-formed) input path and every semantic suffix, the
    derived artifact path is a function of the path and the suffix alone;
    the suffix is inserted between the stem and the extension, in the same
    directory, so a path with an extension keeps it; the derived path never
    equals the input; and chains of semantic suffixes applied to the same
    input never collide: equal results come from equal chains. *)
Theorem add_suffix_derivation (p : Path.t) (s : string) :
  wf_path p -> s ∈ semantic_suffixes ->
  let q := add_suffix p s SEP_DEFAULT in
  (forall p' s', p' = p -> s' = s -> add_suffix p' s' SEP_DEFAULT = q) /\
  Path.parent q = Path.parent p /\
  Path.name q = Path.stem p +:+ "." +:+ s +:+ Path.suffix p /\
  (Path.suffix p <> "" ->
   Path.suffix q = Path.suffix p /\ Path.stem q = Path.stem p +:+ "." +:+ s) /\
  q <> p /\
  (forall l1 l2,
     Forall (fun x => x ∈ semantic_suffixes) l1 ->
     Forall (fun x => x ∈ semantic_suffixes) l2 ->
     add_suffixes p l1 = add_suffixes p l2 -> l1 = l2).
Proof.
  intros Hp Hs q. pose proof (semantic_good s Hs) as G.
  assert (Hn : Path.name q = suffixed (Path.name p) s)
    by (by apply add_suffix_name).
  split; [| split; [| split; [| split; [| split]]]].
  - by intros p' s' -> ->.
  - by apply add_suffix_parent.
  - exact Hn.
  - intros Hext. unfold Path.suffix, Path.stem in *. rewrite Hn.
    fold (suffixed (Path.name p) s).
    destruct (name_cases (Path.name p))
      as [[E _] | (st & r & En & Hst & Hr & Hd & Est & Eext)]; [done |].
    rewrite Est, Eext. rewrite En, suffixed_dotted by done.
    destruct (stem_suffix_dotted (st +:+ "." +:+ s) r) as [-> ->];
      [apply app_dot_nonempty | done..].
  - by apply add_suffix_neq.
  - intros l1 l2 G1 G2. apply add_suffixes_inj; [done | |].
    + eapply Forall_impl; [exact G1 | apply semantic_good].
    + eapply Forall_impl; [exact G2 | apply semantic_good].
Qed.

Lemma add_suffix_derivation_witness :
  let p := Path.of_string "/tmp/w/scan001.mnc" in
  let q := add_suffix p SUFFIX_DENOISED SEP_DEFAULT in
  wf_path p /\ SUFFIX_DENOISED ∈ semantic_suffixes /\
  Path.str q = "/tmp/w/scan001.denoised.mnc" /\
  Path.parent q = Path.parent p /\
  Path.name q = Path.stem p +:+ "." +:+ SUFFIX_DENOISED +:+ Path.suffix p /\
  Path.suffix q = Path.suffix p /\
  q <> p.
Proof.
  intros p q.
  assert (Hp : wf_path p) by apply of_string_wf.
  assert (Hs : SUFFIX_DENOISED ∈ semantic_suffixes) by (by left).
  destruct (add_suffix_derivation p SUFFIX_DENOISED Hp Hs)
    as (_ & Hpar & Hn & Hext & Hneq & _).
  split; [exact Hp |]. split; [exact Hs |].
  split; [reflexivity |]. split; [exact Hpar |]. split; [exact Hn |].
  split; [| exact Hneq].
  destruct Hext as [E _]; [by vm_compute | exact E].
Defined.

(** ** Reasoning about the log *)

Section Logs.
Context {P : list event -> option exn -> Prop} `{!Sequential P}.

Lemma logs_ret {A} (a : A) : logs P (ret a).
Proof. intros w. exists []. simpl. rewrite app_nil_r. split; [done | apply seq_silent]. Qed.

Lemma logs_raise {A} e : logs P (raise (A := A) e).
Proof. intros w. exists []. simpl. rewrite app_nil_r. split; [done | apply seq_silent]. Qed.

Lemma logs_bind {A B} (m : M A) (k : A -> M B) :
  logs P m -> (forall a, logs P (k a)) -> logs P (bind m k).
Proof.
  intros Hm Hk w. unfold bind. destruct (Hm w) as (evs1 & E1 & P1).
  destruct (m w) as [[a|e] w1]; simpl in *.
  - destruct (Hk a w1) as (evs2 & E2 & P2).
    exists (evs1 ++ evs2)%list. rewrite E2, E1, app_assoc.
    split; [done | by apply seq_app].
  - by exists evs1.
Qed.

Lemma logs_when b m : logs P m -> logs P (when b m).
Proof. destruct b; [done | intros _; apply logs_ret]. Qed.

Lemma logs_for_each {A} (l : list A) f :
  (forall x, logs P (f x)) -> logs P (for_each l f).
Proof.
  intros Hf. induction l as [|x l IH]; simpl; [apply logs_ret |].
  apply logs_bind; [apply Hf | intros _; apply IH].
Qed.

Lemma logs_try_except {A} (m : M A) catches h :
  (forall e, catches e = true -> is_Exception e = true) ->
  logs P m -> (forall e, logs P (h e)) -> logs P (try_except m catches h).
Proof.
  intros Hc Hm Hh w. unfold try_except. destruct (Hm w) as (evs1 & E1 & P1).
  destruct (m w) as [[a|e] w1]; simpl in *; [by exists evs1 |].
  destruct (catches e) eqn:Ec; [| by exists evs1].
  destruct (Hh e w1) as (evs2 & E2 & P2).
  exists (evs1 ++ evs2)%list. rewrite E2, E1, app_assoc.
  split; [done |]. apply seq_app; [| done].
  eapply seq_caught; [by apply Hc | done].
Qed.

Lemma logs_echo msg prefix color b : logs P (echo msg prefix color b).
Proof. intros w. eexists. split; [done | apply seq_echo]. Qed.

Lemma logs_print_error_and_exit {A} msg code :
  logs P (print_error_and_exit (A := A) msg code).
Proof.
  intros w. eexists. split; [done |]. apply seq_echo.
Qed.

Lemma logs_path_exists p : logs P (path_exists p).
Proof. intros w. exists []. simpl. rewrite app_nil_r. split; [done | apply seq_silent]. Qed.

Lemma logs_iterdir p : logs P (iterdir p).
Proof.
  intros w. exists []. unfold iterdir.
  destruct (w_fs w !! p) as [[]|]; simpl; rewrite app_nil_r;
    (split; [done | apply seq_silent]).
Qed.

Lemma logs_mkdir p b : logs P (mkdir p b).
Proof.
  intros w. exists []. unfold mkdir.
  destruct (w_fs w !! p) as [[]|]; [| destruct b |]; simpl; rewrite app_nil_r;
    (split; [done | apply seq_silent]).
Qed.

Lemma logs_open_wb p : logs P (open_wb p).
Proof. intros w. exists []. simpl. rewrite app_nil_r. split; [done | apply seq_silent]. Qed.

Lemma logs_lift {A} (r : outcome A) : logs P (lift r).
Proof. intros w. exists []. simpl. rewrite app_nil_r. split; [done | apply seq_silent]. Qed.

End Logs.

(** *** The three log properties are sequential *)

Lemma execs_app l1 l2 : execs (l1 ++ l2) = (execs l1 ++ execs l2)%list.
Proof. unfold execs. apply omap_app. Qed.

#[global] Instance no_exec_sequential : Sequential no_exec.
Proof.
  split; unfold no_exec; try done.
  intros evs1 evs2 _ H1 H2. by rewrite execs_app, H1, H2.
Qed.

#[global] Instance no_tmp_sequential : Sequential no_tmp.
Proof.
  split; unfold no_tmp; try done.
  - intros. by repeat constructor.
  - intros evs1 evs2 _ H1 H2. by apply Forall_app.
Qed.

(** Where an element sits in a concatenation. *)
Lemma app_eq_middle {A} (l1 l2 pre post : list A) x :
  (l1 ++ l2 = pre ++ x :: post)%list ->
  (exists post1, l1 = pre ++ x :: post1 /\ post = post1 ++ l2)%list \/
  (exists pre2, l2 = pre2 ++ x :: post /\ pre = l1 ++ pre2)%list.
Proof.
  revert pre. induction l1 as [|y l1 IH]; intros pre H; simpl in *.
  - right. by exists pre.
  - destruct pre as [|z pre]; simpl in *.
    + injection H as -> <-. left. by exists l1.
    + injection H as -> H. destruct (IH _ H) as [(post1 & -> & ->) | (pre2 & -> & ->)].
      * left. by exists post1.
      * right. by exists pre2.
Qed.

#[global] Instance fail_fast_sequential : Sequential fail_fast.
Proof.
  split; unfold fail_fast.
  - intros s pre args out rc post H. by destruct pre.
  - intros prefix msg color b s pre args out rc post H.
    destruct pre as [|? [|? ?]]; done.
  - intros evs1 evs2 s H1 H2 pre args out rc post H Hrc.
    apply app_eq_middle in H as [(post1 & -> & ->) | (pre2 & -> & ->)].
    + by destruct (H1 _ _ _ _ _ eq_refl Hrc).
    + by apply (H2 _ _ _ _ _ eq_refl).
  - intros evs e He H pre args out rc post E Hrc.
    destruct (H _ _ _ _ _ E Hrc) as [_ [= ->]]. done.
Qed.

Lemma fail_fast_single args out res s :
  (forall rc, res = Exited rc -> rc <> 0 -> s = Some (SystemExit rc)) ->
  fail_fast [Exec args out res] s.
Proof.
  intros H pre a o rc post E Hrc.
  destruct pre as [|? [|? ?]]; try done.
  simpl in E. injection E as _ _ -> <-. split; [done | by apply H].
Qed.

(** *** [run_command] *)

Section RunCommand.
Context (os : OS).

Lemma logs_subprocess_run P args out :
  (forall res, P [Exec args out res] None) ->
  logs P (subprocess_run os args out).
Proof.
  intros H w. unfold subprocess_run.
  destruct (os_run os (w_log w) args out (w_fs w)) as [res fs']. simpl.
  by eexists.
Qed.

(** In a dry run [run_command] prints its command line, whatever the
    verbosity, and does nothing else. *)
Lemma run_command_dry verbosity args stdout w :
  run_command os verbosity true args stdout false w =
  (Return tt,
   mkWorld (w_fs w)
     (w_log w ++ [Echo PREFIX_RUN (CommandLine (command_line args))
                       "yellow" true])).
Proof.
  unfold run_command. rewrite orb_true_r. done.
Qed.

Lemma run_command_no_exec_dry verbosity args stdout silent :
  logs no_exec (run_command os verbosity true args stdout silent).
Proof.
  unfold run_command. apply logs_bind; [| intros _; apply logs_ret].
  apply logs_when, logs_echo.
Qed.

Lemma run_command_no_tmp verbosity dry_run args stdout silent :
  logs no_tmp (run_command os verbosity dry_run args stdout silent).
Proof.
  unfold run_command. apply logs_bind; [apply logs_when, logs_echo |].
  intros _. apply logs_when. apply logs_bind.
  - apply logs_subprocess_run. intros res. by repeat constructor.
  - intros [rc|]; [| apply logs_raise].
    destruct (rc =? 0)%Z; [apply logs_ret | apply logs_print_error_and_exit].
Qed.

Lemma fail_fast_failed args out rc prefix msg color b :
  fail_fast [Exec args out (Exited rc); Echo prefix msg color b]
            (Some (SystemExit rc)).
Proof.
  intros pre a o rc' post E Hrc'.
  destruct pre as [|? [|? [|? ?]]]; try done.
  simpl in E. by injection E as _ _ <- <-.
Qed.

Lemma run_command_fail_fast verbosity dry_run args stdout silent :
  logs fail_fast (run_command os verbosity dry_run args stdout silent).
Proof.
  unfold run_command. apply logs_bind; [apply logs_when, logs_echo |].
  intros _. destruct dry_run; [apply logs_ret |]. simpl.
  intros w. unfold bind, subprocess_run.
  destruct (os_run os (w_log w) _ _ (w_fs w)) as [[rc|] fs']; simpl.
  - destruct (Z.eqb_spec rc 0) as [->|Hrc]; simpl.
    + eexists. split; [done |]. by apply fail_fast_single; intros ? [= <-].
    + eexists. split; [by rewrite <- app_assoc |]. apply fail_fast_failed.
  - eexists. split; [done |]. by apply fail_fast_single.
Qed.

End RunCommand.

(** *** The script, phase by phase *)

Section ProgramLogs.
Context (os : OS) {P : list event -> option exn -> Prop} `{!Sequential P}.

Ltac logs_step :=
  lazy zeta;
  first
    [ apply logs_ret | apply logs_raise | apply logs_print_error_and_exit
    | apply logs_path_exists | apply logs_lift | apply logs_iterdir
    | apply logs_mkdir | apply logs_open_wb
    | apply logs_when | apply logs_for_each; intros ?
    | apply logs_bind; [| intros ?]
    | assumption | done ].

Lemma logs_process_paths c : logs P (process_paths os c).
Proof.
  unfold process_paths.
  destruct (opt_dpath_share c), (opt_dpath_templates c),
    (opt_dpath_beast_lib c); repeat logs_step.
Qed.

Lemma logs_check_paths template ps : logs P (check_paths template ps).
Proof. unfold check_paths. repeat logs_step. Qed.

Section Body.
Context (verbosity : Z) (dry_run : bool).
Hypothesis Hrun : forall args stdout silent,
  logs P (run_command os verbosity dry_run args stdout silent).

Ltac body_step := first [ apply Hrun | logs_step ].

Lemma logs_timestamp : logs P (timestamp os verbosity dry_run).
Proof. apply Hrun. Qed.

Lemma logs_materialize tmp nifti :
  logs P (materialize os verbosity dry_run tmp nifti).
Proof.
  unfold materialize. destruct (String.eqb _ _); repeat body_step.
Qed.

Lemma logs_make_output_dir overwrite out raw_nii :
  logs P (make_output_dir overwrite out raw_nii).
Proof.
  unfold make_output_dir. lazy zeta.
  apply logs_bind; [| intros; apply logs_ret].
  apply logs_try_except; [by intros [] | apply logs_mkdir |].
  intros _. repeat logs_step.
Qed.

Lemma logs_run_stages template conf ps ts tmp raw_nii :
  logs P (run_stages os verbosity dry_run template conf ps ts tmp raw_nii).
Proof. unfold run_stages. repeat body_step. Qed.

Lemma logs_copy_results save_all tmp a sub :
  logs P (copy_results os verbosity dry_run save_all tmp a sub).
Proof.
  unfold copy_results, fpaths_to_copy.
  destruct save_all; repeat body_step.
Qed.

Lemma logs_pipeline c ps ts tmp :
  logs P (pipeline os verbosity dry_run c ps ts tmp).
Proof.
  unfold pipeline.
  apply logs_bind; [apply logs_materialize | intros ?].
  apply logs_bind; [apply logs_make_output_dir | intros ?].
  apply logs_bind; [apply logs_run_stages | intros ?].
  apply logs_bind; [apply Hrun | intros ?].
  apply logs_bind; [apply logs_copy_results | intros ?].
  apply logs_bind; [apply Hrun | intros ?].
  apply logs_timestamp.
Qed.

End Body.

(** The [with] block brackets the events of its body. *)
Lemma logs_with_TemporaryDirectory {A} (body : Path.t -> M A) :
  (forall d evs s, P evs s -> P (Mkdtemp d :: evs ++ [Cleanup d])%list s) ->
  (forall d, logs P (body d)) -> logs P (with_TemporaryDirectory os body).
Proof.
  intros Htmp Hbody w. unfold with_TemporaryDirectory.
  set (d := Path.of_string _). set (w1 := mkWorld _ _).
  destruct (Hbody d w1) as (evs & E & HP).
  destruct (body d w1) as [r w2]. simpl in *.
  exists (Mkdtemp d :: evs ++ [Cleanup d])%list. split; [| by apply Htmp].
  rewrite E. simpl. by rewrite <- !app_assoc.
Qed.

Lemma logs_run_dbm_minc c :
  (forall d evs s, P evs s -> P (Mkdtemp d :: evs ++ [Cleanup d])%list s) ->
  (forall v args stdout silent,
     logs P (run_command os v (opt_dry_run c) args stdout silent)) ->
  logs P (run_dbm_minc os c).
Proof.
  intros Htmp Hrun. unfold run_dbm_minc.
  apply logs_try_except; [done | | intros; apply logs_print_error_and_exit].
  apply logs_bind; [apply Hrun | intros _].
  apply logs_bind; [apply logs_process_paths | intros ps].
  apply logs_bind; [apply logs_check_paths | intros ts].
  apply logs_with_TemporaryDirectory; [done |].
  intros d. apply logs_pipeline. apply Hrun.
Qed.

End ProgramLogs.

(** A process is started only by a run that is not dry. *)
Lemma run_no_exec_dry os c :
  opt_dry_run c = true -> logs no_exec (run_dbm_minc os c).
Proof.
  intros Hdry. apply (@logs_run_dbm_minc os no_exec _).
  - unfold no_exec. intros d evs _ H. simpl.
    by rewrite execs_app, H.
  - rewrite Hdry. intros. apply run_command_no_exec_dry.
Qed.

(** Every run is fail-fast. *)
Lemma run_fail_fast os c : logs fail_fast (run_dbm_minc os c).
Proof.
  apply (@logs_run_dbm_minc os fail_fast _);
    [| intros; apply run_command_fail_fast].
  intros d evs s H pre args out rc post E Hrc.
  destruct pre as [|e pre]; [done |]. simpl in E. injection E as <- E.
  change (evs ++ [Cleanup d] = pre ++ Exec args out (Exited rc) :: post)%list
    in E.
  apply app_eq_middle in E as [(post1 & -> & ->) | (pre2 & E & ->)].
  - destruct (H _ _ _ _ _ eq_refl Hrc) as [H1 ->].
    split; [| done]. by rewrite execs_app, H1.
  - destruct pre2 as [|? [|? ?]]; done.
Qed.

(** ** The workspace *)

Lemma is_under_refl d : Path.is_under d d = true.
Proof.
  unfold Path.is_under. rewrite !bool_decide_eq_true_2; done.
Qed.

Lemma rmtree_lookup d q fs :
  Path.is_under d q = true -> rmtree d fs !! q = None.
Proof.
  intros H. unfold rmtree. apply map_lookup_filter_None. right.
  intros x _. simpl. by rewrite H.
Qed.

(** The log of a run either has no workspace event at all (the run ended
    before the [with] block), or consists of what happened up to and inside
    the block, the removal of the one workspace, and at most an error
    message after it; the workspace is gone from the final filesystem. *)
Lemma run_shape os c w :
  let r := run_dbm_minc os c w in
  (exists evs,
     w_log r.2 = (w_log w ++ evs)%list /\
     Forall (fun e => is_tmp_event e = false) evs) \/
  (exists d L1 L2,
     w_log r.2 = (w_log w ++ L1 ++ Cleanup d :: L2)%list /\
     (forall d', Mkdtemp d' ∈ L1 -> d' = d) /\
     Forall (fun e => is_tmp_event e = false) L2 /\ execs L2 = [] /\
     forall q, Path.is_under d q = true -> w_fs r.2 !! q = None).
Proof.
  unfold run_dbm_minc, try_except, on_exception, bind.
  destruct (run_command_no_tmp os (opt_verbosity c) (opt_dry_run c)
              [AStr "date"] None false w) as (evs1 & E1 & N1).
  fold (timestamp os (opt_verbosity c) (opt_dry_run c)) in *.
  destruct (timestamp os _ _ w) as [[[]|e1] w1]; simpl in *.
  2: { left. destruct (is_Exception e1); simpl.
       - exists (evs1 ++ [Echo PREFIX_ERR (Traceback e1) "red" false])%list.
         rewrite E1, app_assoc. split; [done |].
         apply Forall_app. split; [done | by repeat constructor].
       - by exists evs1. }
  pose proof (logs_bind (P := no_tmp) (process_paths os c)
                (check_paths (opt_template_prefix c))
                (logs_process_paths os c)
                (logs_check_paths (opt_template_prefix c)) w1)
    as (evs2 & E2 & N2).
  unfold bind in E2, N2.
  destruct (process_paths os c w1) as [[ps|e2] w2'].
  2: { simpl in *. left. destruct (is_Exception e2); simpl.
       - exists (evs1 ++ evs2 ++ [Echo PREFIX_ERR (Traceback e2) "red" false])%list.
         rewrite E2, E1, <- !app_assoc. split; [done |].
         rewrite !Forall_app. split_and!; [done.. | by repeat constructor].
       - exists (evs1 ++ evs2)%list. rewrite E2, E1, <- app_assoc.
         split; [done | by apply Forall_app]. }
  destruct (check_paths (opt_template_prefix c) ps w2') as [[ts|e2] w2].
  2: { simpl in *. left. destruct (is_Exception e2); simpl.
       - exists (evs1 ++ evs2 ++ [Echo PREFIX_ERR (Traceback e2) "red" false])%list.
         rewrite E2, E1, <- !app_assoc. split; [done |].
         rewrite !Forall_app. split_and!; [done.. | by repeat constructor].
       - exists (evs1 ++ evs2)%list. rewrite E2, E1, <- app_assoc.
         split; [done | by apply Forall_app]. }
  simpl in E2, N2.
  unfold with_TemporaryDirectory.
  set (d := Path.of_string _). set (w3 := mkWorld _ _).
  destruct (@logs_pipeline os no_tmp _ (effective_verbosity c) (opt_dry_run c)
              (run_command_no_tmp os _ _) c ps ts d w3) as (evs3 & E3 & N3).
  destruct (pipeline os _ _ c ps ts d w3) as [r3 w4]. simpl in *.
  assert (HL : forall d', Mkdtemp d' ∈ (evs1 ++ evs2 ++ Mkdtemp d :: evs3)%list
                          -> d' = d).
  { intros d'. rewrite !elem_of_app, elem_of_cons.
    intros [H | [H | [[= ->] | H]]]; [| | done |].
    - by eapply Forall_forall in H; [| exact N1].
    - by eapply Forall_forall in H; [| exact N2].
    - by eapply Forall_forall in H; [| exact N3]. }
  assert (EL : (w_log w4 ++ [Cleanup d] =
               w_log w ++ (evs1 ++ evs2 ++ Mkdtemp d :: evs3) ++ [Cleanup d])%list).
  { rewrite E3. unfold w3. simpl. rewrite E2, E1.
    by rewrite <- !app_assoc. }
  right. exists d, (evs1 ++ evs2 ++ Mkdtemp d :: evs3)%list.
  destruct r3 as [[]|e3]; simpl; [| destruct (is_Exception e3); simpl].
  - exists []. split_and!; [by rewrite EL | done.. |].
    intros. by apply rmtree_lookup.
  - exists [Echo PREFIX_ERR (Traceback e3) "red" false].
    split_and!; [| done | by repeat constructor | done |].
    + rewrite EL. by rewrite <- !app_assoc.
    + intros. by apply rmtree_lookup.
  - exists []. split_and!; [by rewrite EL | done.. |].
    intros. by apply rmtree_lookup.
Qed.

(** C1. In every run, if an external command returns a nonzero code,
    then no process is started after it, the workspace (when one was
    created) is removed afterwards and is absent from the final
    filesystem, and the script exits with the failed command's code:
    the exit status of the process is that code modulo 256, hence the
    code itself for every nonzero exit status [1..255] of the command.
    (For a command killed by signal [N], whose return code is [-N], the
    process ends with status [256 - N].) *)
Theorem failed_command_aborts (os : OS) (c : Config) (fs : FS)
    (pre post : list event) (args : list string) (out : stream) (rc : Z) :
  let r := run_dbm_minc os c (initial fs) in
  w_log r.2 = (pre ++ Exec args out (Exited rc) :: post)%list ->
  rc <> 0 ->
  execs post = [] /\
  (forall d, Mkdtemp d ∈ w_log r.2 ->
     Cleanup d ∈ post /\
     forall q, Path.is_under d q = true -> w_fs r.2 !! q = None) /\
  r.1 = Raise (SystemExit rc) /\
  exit_code r.1 = rc mod 256 /\
  (0 < rc < 256 -> exit_code r.1 = rc).
Proof.
  intros r E Hrc.
  destruct (run_fail_fast os c (initial fs)) as (evs & Eevs & FF).
  fold r in Eevs, FF. simpl in Eevs. rewrite E in Eevs. subst evs.
  destruct (FF _ _ _ _ _ eq_refl Hrc) as [Hpost Hst].
  assert (Hr : r.1 = Raise (SystemExit rc)).
  { destruct r.1; simpl in Hst; [done | by injection Hst as ->]. }
  split_and!;
    [done | | done | by rewrite Hr
    | intros Hb; rewrite Hr; simpl; apply Z.mod_small; lia].
  intros d Hd.
  destruct (run_shape os c (initial fs)) as [(evs & E1 & N) | (d0 & L1 & L2 & E1 & HL1 & N2 & X2 & Hfs)];
    fold r in E1; simpl in E1.
  - rewrite E1 in Hd. by eapply Forall_forall in Hd; [| exact N].
  - assert (d = d0) as ->.
    { rewrite E1 in Hd. apply elem_of_app in Hd as [Hd | Hd]; [by apply HL1 |].
      apply elem_of_cons in Hd as [[=] | Hd].
      by eapply Forall_forall in Hd; [| exact N2]. }
    split; [| by apply Hfs].
    rewrite E in E1. symmetry in E1.
    apply app_eq_middle in E1 as [(post1 & -> & ->) | (pre2 & E2 & ->)].
    + apply elem_of_app. right. by left.
    + exfalso. destruct pre2 as [|e pre2]; [done |].
      simpl in E2. injection E2 as _ E2. rewrite E2, execs_app in X2.
      by apply app_eq_nil in X2 as [_ ?].
Qed.

Lemma failed_command_aborts_witness :
  let os := Ex.os_failing "mincnlm" 3 in
  let c := Ex.cfg Ex.scan false false false true in
  let r := run_dbm_minc os c (initial Ex.fs) in
  let tmp := Ex.P "/tmp/tmpk3v9" in
  let zcat_out := ToFile (Ex.P "/tmp/tmpk3v9/scan001.nii") in
  let line :=
    "mincnlm -verbose /tmp/tmpk3v9/scan001.mnc /tmp/tmpk3v9/scan001.denoised.mnc" in
  let pre :=
    [Echo PREFIX_RUN (CommandLine "date") "yellow" false;
     Exec ["date"] Inherit (Exited 0); Mkdtemp tmp;
     Exec ["zcat"; "/data/scan001.nii.gz"] zcat_out (Exited 0);
     Exec ["nii2mnc"; "/tmp/tmpk3v9/scan001.nii"; "/tmp/tmpk3v9/scan001.mnc"]
          DEVNULL (Exited 0)] in
  let failed :=
    Exec ["mincnlm"; "-verbose"; "/tmp/tmpk3v9/scan001.mnc";
          "/tmp/tmpk3v9/scan001.denoised.mnc"] DEVNULL (Exited 3) in
  let post :=
    [Echo PREFIX_ERR (Returned line 3) "red" false; Cleanup tmp] in
  w_log r.2 = (pre ++ failed :: post)%list /\
  3 <> 0 /\
  execs post = [] /\
  (forall d, Mkdtemp d ∈ w_log r.2 ->
     Cleanup d ∈ post /\
     forall q, Path.is_under d q = true -> w_fs r.2 !! q = None) /\
  r.1 = Raise (SystemExit 3) /\
  exit_code r.1 = 3 mod 256 /\
  0 < 3 < 256 /\
  exit_code r.1 = 3.
Proof.
  intros os c r tmp zcat_out line pre failed post.
  assert (E : w_log r.2 = (pre ++ failed :: post)%list)
    by (vm_compute; reflexivity).
  assert (Hrc : 3 <> 0) by lia.
  assert (Hb : 0 < 3 < 256) by lia.
  split; [exact E |]. split; [exact Hrc |].
  destruct (failed_command_aborts os c Ex.fs pre post _ _ 3 E Hrc)
    as (H1 & H2 & H3 & H4 & H5).
  split; [exact H1 |]. split; [exact H2 |]. split; [exact H3 |].
  split; [exact H4 |]. split; [exact Hb | exact (H5 Hb)].
Defined.

(** ** Path processing and validation *)

Section Validation.
Context (os : OS).

Lemma process_path_wf s p :
  process_path os s = Return p ->
  wf_path p /\
  (Str.startswith "/" (os_getcwd os) = true -> Path.root p = true).
Proof.
  unfold process_path, expanduser.
  pose proof (of_string_wf s) as Hwf. unfold wf_path in Hwf.
  assert (Habs : forall q, wf_path q ->
            wf_path (absolute os q) /\
            (Str.startswith "/" (os_getcwd os) = true ->
             Path.root (absolute os q) = true)).
  { intros q Hq. unfold absolute. destruct (Path.root q) eqn:E; [done |].
    split; [apply join_wf; [apply of_string_wf | done] |].
    unfold Path.join. by rewrite E. }
  destruct (Path.root (Path.of_string s)) eqn:Er.
  { intros [= <-]. by apply Habs, of_string_wf. }
  destruct (Path.tail (Path.of_string s)) as [|first rest] eqn:Et.
  { intros [= <-]. by apply Habs, of_string_wf. }
  destruct (Str.startswith "~" first).
  2: { intros [= <-]. by apply Habs, of_string_wf. }
  destruct (Str.startswith "~" (os_expanduser os first)); [done |].
  intros [= <-]. apply Habs.
  unfold wf_path. simpl. apply Forall_app. split; [apply parse_tail_wf |].
  by inversion Hwf.
Qed.

Lemma process_path_cases s :
  (exists p, process_path os s = Return p) \/
  process_path os s = Raise RuntimeError.
Proof.
  unfold process_path, expanduser.
  destruct (Path.root _); [by left; eexists |].
  destruct (Path.tail _) as [|first rest]; [by left; eexists |].
  destruct (Str.startswith "~" first); [| by left; eexists].
  destruct (Str.startswith "~" _); [by right | by left; eexists].
Qed.

#[local] Opaque DNAME_TEMPLATE_MAP.

(** [process_paths] reads nothing from the world; it returns the four
    processed paths and leaves the world alone, or fails in one of three
    ways. *)
Lemma process_paths_cases c :
  (exists ps, (forall w, process_paths os c w = (Return ps, w)) /\
     (wf_path (fpath_nifti ps) /\ wf_path (dpath_out ps) /\
      wf_path (dpath_templates ps) /\ wf_path (dpath_beast_lib ps)) /\
     (Str.startswith "/" (os_getcwd os) = true ->
      Path.root (fpath_nifti ps) = true /\ Path.root (dpath_out ps) = true /\
      Path.root (dpath_templates ps) = true /\
      Path.root (dpath_beast_lib ps) = true) /\
     process_path os (opt_fpath_nifti c) = Return (fpath_nifti ps) /\
     (opt_dpath_templates c = None ->
      exists share dir dname,
        opt_dpath_share c = Some share /\
        process_path os share = Return dir /\
        DNAME_TEMPLATE_MAP !! opt_template_prefix c = Some dname /\
        dpath_templates ps = Path.joinpath dir dname)) \/
  (forall w, process_paths os c w = (Raise RuntimeError, w)) \/
  ((forall w, process_paths os c w =
              (Raise (KeyError (opt_template_prefix c)), w)) /\
   opt_dpath_templates c = None /\
   DNAME_TEMPLATE_MAP !! opt_template_prefix c = None) \/
  ((forall w, process_paths os c w = failed ShareDirMissing w) /\
   opt_dpath_share c = None).
Proof.
  unfold process_paths, bind, lift, template_dname, truediv, when, failed.
  destruct (process_path_cases (opt_fpath_nifti c)) as [[p1 E1] | ->];
    [| by right; left].
  destruct (process_path_cases (opt_dpath_out c)) as [[p2 E2] | ->];
    [| rewrite E1; by right; left].
  destruct (process_path_wf _ _ E1) as [W1 A1].
  destruct (process_path_wf _ _ E2) as [W2 A2]. rewrite E1, E2.
  destruct (opt_dpath_share c) as [share|] eqn:Es.
  - destruct (process_path_cases share) as [[p3 E3] | ->];
      [| by right; left].
    destruct (process_path_wf _ _ E3) as [W3 A3]. rewrite E3.
    destruct (opt_dpath_templates c) as [tdir|] eqn:Et.
    + destruct (process_path_cases tdir) as [[p4 E4] | ->];
        [| by right; left].
      destruct (process_path_wf _ _ E4) as [W4 A4]. rewrite E4.
      destruct (opt_dpath_beast_lib c) as [bdir|] eqn:Eb.
      * destruct (process_path_cases bdir) as [[p5 E5] | ->];
          [| by right; left].
        destruct (process_path_wf _ _ E5) as [W5 A5]. rewrite E5.
        left. eexists. split; [reflexivity |]. simpl.
        split_and!; [done.. | | done | done]. intros H. auto.
      * left. eexists. split; [reflexivity |]. simpl.
        split_and!; [done.. | by apply joinpath_wf | | done | done].
        intros H. split_and!; auto using joinpath_root.
    + destruct (DNAME_TEMPLATE_MAP !! opt_template_prefix c) as [dname|] eqn:Ed;
        [| by right; right; left].
      destruct (opt_dpath_beast_lib c) as [bdir|] eqn:Eb.
      * destruct (process_path_cases bdir) as [[p5 E5] | ->];
          [| by right; left].
        destruct (process_path_wf _ _ E5) as [W5 A5]. rewrite E5.
        left. eexists. split; [reflexivity |]. simpl.
        split_and!; [done | done | by apply joinpath_wf | done | | done |].
        -- intros H. split_and!; auto using joinpath_root.
        -- intros _. by exists share, p3, dname.
      * left. eexists. split; [reflexivity |]. simpl.
        split_and!; [done | done | by apply joinpath_wf..| | done |].
        -- intros H. split_and!; auto using joinpath_root.
        -- intros _. by exists share, p3, dname.
  - destruct (opt_dpath_templates c) as [tdir|] eqn:Et;
      [| by right; right; right].
    destruct (opt_dpath_beast_lib c) as [bdir|] eqn:Eb;
      [| by right; right; right].
    destruct (process_path_cases tdir) as [[p4 E4] | ->];
      [| by right; left].
    destruct (process_path_cases bdir) as [[p5 E5] | ->];
      [| rewrite E4; by right; left].
    destruct (process_path_wf _ _ E4) as [W4 A4].
    destruct (process_path_wf _ _ E5) as [W5 A5]. rewrite E4, E5.
    left. eexists. split; [reflexivity |]. simpl.
    split_and!; [done.. | | done | done]. intros H. auto.
Qed.

(** [check_paths] reads the filesystem only: it fails with the message of
    the first failed check, or returns the template paths and leaves the
    world alone. *)
Lemma check_paths_spec template ps w :
  check_paths template ps w =
  match first_failed_check (w_fs w) template ps with
  | Some msg => failed msg w
  | None =>
      let t := Path.joinpath (dpath_templates ps) (template +:+ EXT_MINC) in
      (Return (mkTemplates t (add_suffix t SUFFIX_TEMPLATE_MASK None)), w)
  end.
Proof.
  unfold check_paths, first_failed_check, bind, when, path_exists, present,
    failed.
  repeat (match goal with
          | |- context [negb ?b] => destruct b; simpl; [| done]
          end).
  done.
Qed.

(** The run, phase by phase: an exception of any phase goes to the
    handler of lines 309-310. *)
Lemma run_unfold c w :
  run_dbm_minc os c w =
  match timestamp os (opt_verbosity c) (opt_dry_run c) w with
  | (Raise e, w1) => handled e w1
  | (Return _, w1) =>
      match process_paths os c w1 with
      | (Raise e, w2) => handled e w2
      | (Return ps, w2) =>
          match check_paths (opt_template_prefix c) ps w2 with
          | (Raise e, w3) => handled e w3
          | (Return ts, w3) =>
              match with_TemporaryDirectory os
                      (pipeline os (effective_verbosity c) (opt_dry_run c)
                                c ps ts) w3 with
              | (Raise e, w4) => handled e w4
              | r => r
              end
          end
      end
  end.
Proof.
  unfold run_dbm_minc, try_except, bind, handled, on_exception, failed.
  destruct (timestamp os _ _ w) as [[[]|e] w1]; [| done].
  destruct (process_paths os c w1) as [[ps|e] w2]; [| done].
  destruct (check_paths _ ps w2) as [[ts|e] w3]; [| done].
  by destruct (with_TemporaryDirectory _ _ w3) as [[[]|e] w4].
Qed.

(** What [timestamp] can leave in the log. *)
Lemma timestamp_execs v dry w r w1 :
  timestamp os v dry w = (r, w1) ->
  execs (w_log w1) = execs (w_log w) \/
  execs (w_log w1) = (execs (w_log w) ++ [["date"]])%list.
Proof.
  unfold timestamp, run_command, bind, when, echo, emit, subprocess_run.
  destruct (negb false && _); simpl.
  - destruct dry; simpl.
    + intros [= <- <-]. left. simpl. by rewrite execs_app, app_nil_r.
    + destruct (os_run os _ _ _ _) as [[rc|] fs'].
      * destruct (rc =? 0)%Z; intros [= <- <-]; right; simpl;
          rewrite !execs_app; simpl; by rewrite ?app_nil_r.
      * intros [= <- <-]. right. simpl. rewrite !execs_app. simpl.
        by rewrite app_nil_r.
  - destruct dry; simpl.
    + intros [= <- <-]. by left.
    + destruct (os_run os _ _ _ _) as [[rc|] fs'].
      * destruct (rc =? 0)%Z; intros [= <- <-]; right; simpl;
          rewrite !execs_app; simpl; by rewrite ?app_nil_r.
      * intros [= <- <-]. right. simpl. by rewrite !execs_app.
Qed.

(** A [timestamp] that returns has printed no error. *)
Lemma timestamp_errors v dry w w1 :
  timestamp os v dry w = (Return tt, w1) ->
  errors (w_log w1) = errors (w_log w).
Proof.
  unfold timestamp, run_command, bind, when, echo, emit, subprocess_run.
  assert (Happ : forall l1 l2, errors (l1 ++ l2) = (errors l1 ++ errors l2)%list)
    by (intros; apply omap_app).
  destruct (negb false && _); simpl.
  - destruct dry; simpl.
    + intros [= <-]. simpl. rewrite Happ. simpl. by rewrite app_nil_r.
    + destruct (os_run os _ _ _ _) as [[rc|] fs']; [| done].
      destruct (rc =? 0)%Z; [| done]. intros [= <-]. simpl.
      rewrite !Happ. simpl. by rewrite !app_nil_r.
  - destruct dry; simpl.
    + by intros [= <-].
    + destruct (os_run os _ _ _ _) as [[rc|] fs']; [| done].
      destruct (rc =? 0)%Z; [| done]. intros [= <-]. simpl.
      rewrite !Happ. simpl. by rewrite !app_nil_r.
Qed.

End Validation.

Section ValidationClaims.
Context (os : OS).

Lemma errors_app l1 l2 : errors (l1 ++ l2) = (errors l1 ++ errors l2)%list.
Proof. apply omap_app. Qed.

Lemma first_failed_check_None fs template ps :
  first_failed_check fs template ps = None ->
  let t := Path.joinpath (dpath_templates ps) (template +:+ EXT_MINC) in
  present fs (fpath_nifti ps) = true /\
  existsb (Str.endswith (Path.str (fpath_nifti ps))) valid_file_formats = true /\
  present fs t = true /\
  present fs (add_suffix t SUFFIX_TEMPLATE_MASK None) = true /\
  present fs (dpath_beast_lib ps) = true.
Proof.
  unfold first_failed_check.
  repeat (match goal with
          | |- context [negb ?b] => destruct b eqn:?; simpl; [| done]
          end).
  done.
Qed.

Lemma first_failed_check_kind fs template ps msg :
  first_failed_check fs template ps = Some msg ->
  errors [Echo PREFIX_ERR msg "red" false] = [msg] /\
  (error_kind msg = Some InvalidInput \/ error_kind msg = Some MissingResource).
Proof.
  unfold first_failed_check.
  repeat (match goal with
          | |- context [negb ?b] =>
              destruct b; simpl; [| intros [= <-]; auto]
          end).
  done.
Qed.

(** What the run looks like when the paths are not accepted. *)
Lemma failed_errors_execs {A} msg (w : World) :
  errors [Echo PREFIX_ERR msg "red" false] = [msg] ->
  errors (w_log w) = [] ->
  errors (w_log (failed (A := A) msg w).2) = [msg] /\
  execs (w_log (failed (A := A) msg w).2) = execs (w_log w).
Proof.
  intros Hm Hw. unfold failed. simpl.
  rewrite errors_app, execs_app, Hw, Hm. simpl. by rewrite app_nil_r.
Qed.

Lemma add_suffix_root p s sep :
  Path.root p = true -> Path.root (add_suffix p s sep) = true.
Proof. intros H. unfold add_suffix. by apply joinpath_root. Qed.

(** C2, amended. Once the initial [date] timestamp has been taken, either
    every path check succeeds, and then the input scan (with a valid
    extension), the template, its mask and the BEaST library all exist
    and are well-formed (absolute, when the working directory is), or the
    run ends with exit code 1 and one error message of a specific kind,
    and no external command other than that [date] has been executed. *)
Theorem validation_before_stages (c : Config) (fs : FS) :
  let stamp := timestamp os (opt_verbosity c) (opt_dry_run c) (initial fs) in
  stamp.1 = Return tt ->
  let w1 := stamp.2 in
  let r := run_dbm_minc os c (initial fs) in
  (exists ps ts,
     process_paths os c w1 = (Return ps, w1) /\
     check_paths (opt_template_prefix c) ps w1 = (Return ts, w1) /\
     present (w_fs w1) (fpath_nifti ps) = true /\
     existsb (Str.endswith (Path.str (fpath_nifti ps))) valid_file_formats
       = true /\
     present (w_fs w1) (fpath_template ts) = true /\
     present (w_fs w1) (fpath_template_mask ts) = true /\
     present (w_fs w1) (dpath_beast_lib ps) = true /\
     (wf_path (fpath_nifti ps) /\ wf_path (dpath_out ps) /\
      wf_path (dpath_templates ps) /\ wf_path (dpath_beast_lib ps)) /\
     (Str.startswith "/" (os_getcwd os) = true ->
      Path.root (fpath_nifti ps) = true /\ Path.root (dpath_out ps) = true /\
      Path.root (dpath_templates ps) = true /\
      Path.root (dpath_beast_lib ps) = true /\
      Path.root (fpath_template ts) = true /\
      Path.root (fpath_template_mask ts) = true)) \/
  (exists msg kind,
     r.1 = Raise (SystemExit 1) /\
     errors (w_log r.2) = [msg] /\
     error_kind msg = Some kind /\
     execs (w_log r.2) = execs (w_log w1) /\
     (execs (w_log w1) = [] \/ execs (w_log w1) = [["date"]])).
Proof.
  intros stamp Hst w1 r. subst r.
  assert (Hts : timestamp os (opt_verbosity c) (opt_dry_run c) (initial fs)
                = (Return tt, w1)).
  { subst w1 stamp. destruct (timestamp _ _ _ _) as [o w']. simpl in *.
    by rewrite Hst. }
  clearbody w1. clear stamp Hst. rewrite run_unfold, Hts.
  pose proof (timestamp_errors os _ _ _ _ Hts) as Herr. simpl in Herr.
  pose proof (timestamp_execs os _ _ _ _ _ Hts) as Hex. simpl in Hex.
  destruct (process_paths_cases os c)
    as [(ps & E & W & A & _ & _) | [E | [(E & _ & _) | (E & _)]]];
    rewrite E.
  - rewrite check_paths_spec.
    destruct (first_failed_check (w_fs w1) (opt_template_prefix c) ps)
      as [msg|] eqn:Ec.
    + right. destruct (first_failed_check_kind _ _ _ _ Ec) as [Hm Hk].
      destruct (failed_errors_execs (A := unit) msg w1 Hm Herr) as [He Hx].
      exists msg. destruct Hk as [Hk | Hk]; eexists; by split_and!.
    + left. exists ps. eexists. split; [done |].
      rewrite check_paths_spec, Ec. split; [done |]. simpl.
      destruct (first_failed_check_None _ _ _ Ec) as (? & ? & ? & ? & ?).
      assert (Hroot : Str.startswith "/" (os_getcwd os) = true ->
        Path.root (fpath_nifti ps) = true /\ Path.root (dpath_out ps) = true /\
        Path.root (dpath_templates ps) = true /\
        Path.root (dpath_beast_lib ps) = true /\
        Path.root (Path.joinpath (dpath_templates ps)
                     (opt_template_prefix c +:+ EXT_MINC)) = true /\
        Path.root (add_suffix (Path.joinpath (dpath_templates ps)
                     (opt_template_prefix c +:+ EXT_MINC))
                     SUFFIX_TEMPLATE_MASK None) = true).
      { intros Hcwd. destruct (A Hcwd) as (? & ? & ? & ?).
        split_and!; auto using joinpath_root, add_suffix_root. }
      destruct W as (? & ? & ? & ?). by split_and!.
  - right. exists (Traceback RuntimeError), ConfigurationError.
    destruct (failed_errors_execs (A := unit) (Traceback RuntimeError) w1
                eq_refl Herr) as [He Hx].
    by split_and!.
  - right. exists (Traceback (KeyError (opt_template_prefix c))),
      ConfigurationError.
    destruct (failed_errors_execs (A := unit)
                (Traceback (KeyError (opt_template_prefix c))) w1
                eq_refl Herr) as [He Hx].
    by split_and!.
  - right. exists ShareDirMissing, ConfigurationError.
    destruct (failed_errors_execs (A := unit) ShareDirMissing w1
                eq_refl Herr) as [He Hx].
    by split_and!.
Qed.

(** C9. When no template directory is given: if the paths are processed
    successfully, the template directory is the processed shared data
    root joined with the name the table [DNAME_TEMPLATE_MAP] gives for the
    template identifier; and if the identifier is not a key of the table,
    the run (once it has taken its initial timestamp) ends with a nonzero
    exit code and one error message of kind [ConfigurationError], without
    executing anything further. *)
Theorem template_dir_from_table (c : Config) (fs : FS) :
  let stamp := timestamp os (opt_verbosity c) (opt_dry_run c) (initial fs) in
  stamp.1 = Return tt ->
  opt_dpath_templates c = None ->
  let w1 := stamp.2 in
  let r := run_dbm_minc os c (initial fs) in
  (forall ps w w',
     process_paths os c w = (Return ps, w') ->
     exists share dir dname,
       opt_dpath_share c = Some share /\
       process_path os share = Return dir /\
       DNAME_TEMPLATE_MAP !! opt_template_prefix c = Some dname /\
       dpath_templates ps = Path.joinpath dir dname) /\
  (DNAME_TEMPLATE_MAP !! opt_template_prefix c = None ->
   exists msg,
     r.1 = Raise (SystemExit 1) /\ exit_code r.1 <> 0 /\
     errors (w_log r.2) = [msg] /\
     error_kind msg = Some ConfigurationError /\
     execs (w_log r.2) = execs (w_log w1)).
Proof.
  intros stamp Hst Hnone w1 r. subst r.
  assert (Hts : timestamp os (opt_verbosity c) (opt_dry_run c) (initial fs)
                = (Return tt, w1)).
  { subst w1 stamp. destruct (timestamp _ _ _ _) as [o w']. simpl in *.
    by rewrite Hst. }
  clearbody w1. clear stamp Hst.
  pose proof (timestamp_errors os _ _ _ _ Hts) as Herr. simpl in Herr.
  split.
  - intros ps w w' Hps.
    destruct (process_paths_cases os c)
      as [(ps0 & E & _ & _ & _ & Ht) | [E | [(E & _ & _) | (E & _)]]];
      rewrite E in Hps; try done.
    injection Hps as <- _. by apply Ht.
  - intros Hkey. rewrite run_unfold, Hts.
    destruct (process_paths_cases os c)
      as [(ps0 & E & _ & _ & _ & Ht) | [E | [(E & _ & _) | (E & _)]]];
      rewrite E.
    + destruct (Ht Hnone) as (? & ? & dname & _ & _ & Hd & _).
      by rewrite Hkey in Hd.
    + exists (Traceback RuntimeError).
      destruct (failed_errors_execs (A := unit) (Traceback RuntimeError) w1
                  eq_refl Herr) as [He Hx].
      by split_and!.
    + exists (Traceback (KeyError (opt_template_prefix c))).
      destruct (failed_errors_execs (A := unit)
                  (Traceback (KeyError (opt_template_prefix c))) w1
                  eq_refl Herr) as [He Hx].
      by split_and!.
    + exists ShareDirMissing.
      destruct (failed_errors_execs (A := unit) ShareDirMissing w1
                  eq_refl Herr) as [He Hx].
      by split_and!.
Qed.

(** A [timestamp] that is not dry and returns has run [date]. *)
Lemma timestamp_real_execs v w w1 :
  timestamp os v false w = (Return tt, w1) ->
  execs (w_log w1) = (execs (w_log w) ++ [["date"]])%list.
Proof.
  unfold timestamp, run_command, bind, when, echo, emit, subprocess_run.
  destruct (negb false && _); simpl.
  - destruct (os_run os _ _ _ _) as [[rc|] fs']; [| done].
    destruct (rc =? 0)%Z; [| done]. intros [= <-]. simpl.
    rewrite !execs_app. simpl. by rewrite app_nil_r.
  - destruct (os_run os _ _ _ _) as [[rc|] fs']; [| done].
    destruct (rc =? 0)%Z; [| done]. intros [= <-]. simpl.
    by rewrite !execs_app.
Qed.

(** A dry [timestamp] only prints. *)
Lemma timestamp_dry v w :
  timestamp os v true w =
  (Return tt,
   mkWorld (w_fs w)
     (w_log w ++ [Echo PREFIX_RUN (CommandLine "date") "yellow" true])).
Proof. unfold timestamp. by rewrite run_command_dry. Qed.

(** When the paths are processed but a check fails on filesystem [fs],
    the run ends there, dry or not. *)
Lemma run_check_failed c w w1 ps msg :
  timestamp os (opt_verbosity c) (opt_dry_run c) w = (Return tt, w1) ->
  errors (w_log w) = [] ->
  (forall w', process_paths os c w' = (Return ps, w')) ->
  first_failed_check (w_fs w1) (opt_template_prefix c) ps = Some msg ->
  let r := run_dbm_minc os c w in
  r.1 = Raise (SystemExit 1) /\ errors (w_log r.2) = [msg] /\
  execs (w_log r.2) = execs (w_log w1).
Proof.
  intros Hts Hw Hps Hc r. subst r. rewrite run_unfold, Hts, Hps.
  rewrite check_paths_spec, Hc.
  pose proof (timestamp_errors os _ _ _ _ Hts) as Herr. rewrite Hw in Herr.
  destruct (first_failed_check_kind _ _ _ _ Hc) as [Hm _].
  destruct (failed_errors_execs (A := unit) msg w1 Hm Herr) as [He Hx].
  by split_and!.
Qed.

Lemma first_failed_check_absent fs template ps :
  let t := Path.joinpath (dpath_templates ps) (template +:+ EXT_MINC) in
  let m := add_suffix t SUFFIX_TEMPLATE_MASK None in
  present fs (fpath_nifti ps) = false \/ present fs t = false \/
  present fs m = false \/ present fs (dpath_beast_lib ps) = false ->
  exists msg,
    first_failed_check fs template ps = Some msg /\
    (present fs (fpath_nifti ps) = false ->
     msg = NiftiNotFound (fpath_nifti ps)).
Proof.
  intros t m H.
  destruct (first_failed_check fs template ps) as [msg|] eqn:E.
  - exists msg. split; [done |]. intros Hn. revert E.
    unfold first_failed_check. rewrite Hn. simpl. by intros [= <-].
  - apply first_failed_check_None in E as (H1 & _ & H2 & H3 & H4).
    fold t in H2, H3. fold m in H3.
    rewrite H1, H2, H3, H4 in H. by repeat destruct H as [H | H].
Qed.

(** C10. In a dry run no external command is executed, and the path
    checks still run against the filesystem: if the input scan, the
    template volume, the template mask or the BEaST library directory is
    absent, the dry run ends with exit code 1 and the message of the first
    failed check, and a real run of the same command line whose [date]
    succeeds and leaves the files alone ends the same way, having executed
    nothing but that [date]. *)
Theorem dry_run_validates (c : Config) (fs : FS) (ps : Paths) :
  opt_dry_run c = true ->
  (process_paths os c (initial fs)).1 = Return ps ->
  let t := Path.joinpath (dpath_templates ps)
             (opt_template_prefix c +:+ EXT_MINC) in
  let m := add_suffix t SUFFIX_TEMPLATE_MASK None in
  present fs (fpath_nifti ps) = false \/ present fs t = false \/
  present fs m = false \/ present fs (dpath_beast_lib ps) = false ->
  let r := run_dbm_minc os c (initial fs) in
  exists msg,
    first_failed_check fs (opt_template_prefix c) ps = Some msg /\
    (present fs (fpath_nifti ps) = false ->
     msg = NiftiNotFound (fpath_nifti ps)) /\
    r.1 = Raise (SystemExit 1) /\ exit_code r.1 <> 0 /\
    errors (w_log r.2) = [msg] /\
    execs (w_log r.2) = [] /\
    forall w1,
      timestamp os (opt_verbosity c) false (initial fs) = (Return tt, w1) ->
      w_fs w1 = fs ->
      let r' := run_dbm_minc os (with_dry_run false c) (initial fs) in
      r'.1 = r.1 /\ errors (w_log r'.2) = errors (w_log r.2) /\
      execs (w_log r'.2) = [["date"]].
Proof.
  intros Hdry Hps t m Habs r.
  destruct (first_failed_check_absent fs (opt_template_prefix c) ps Habs)
    as (msg & Hc & Hn).
  assert (Hps' : forall w', process_paths os c w' = (Return ps, w')).
  { destruct (process_paths_cases os c)
      as [(ps0 & E & _) | [E | [(E & _ & _) | (E & _)]]];
      rewrite E in Hps; try done.
    simpl in Hps. by injection Hps as <-. }
  exists msg. split; [done |]. split; [done |].
  destruct (run_check_failed c (initial fs) _ ps msg
              ltac:(rewrite Hdry; apply timestamp_dry) eq_refl Hps' Hc)
    as (Hr & He & Hx).
  fold r in Hr, He, Hx. simpl in Hx. rewrite Hr, He, Hx.
  split_and!; try done.
  intros w1 Hts Hfs r'.
  destruct (run_check_failed (with_dry_run false c) (initial fs) w1 ps msg
              Hts eq_refl Hps' ltac:(by rewrite Hfs)) as (Hr' & He' & Hx').
  fold r' in Hr', He', Hx'. rewrite Hr', He', Hx'.
  split_and!; try done. by rewrite (timestamp_real_execs _ _ _ Hts).
Qed.

End ValidationClaims.

(** ** The stages *)

Section Stages.
Context (os : OS).

Lemma printed_commands_app l1 l2 :
  printed_commands (l1 ++ l2) = (printed_commands l1 ++ printed_commands l2)%list.
Proof. apply omap_app. Qed.

(** What one call of [run_command] adds to the log: at most one printed
    command line, and, unless the run is dry, exactly one process, started
    with the assembled tokens and the chosen stream. *)
Lemma run_command_events verbosity dry_run args stdout silent w :
  let m := run_command os verbosity dry_run args stdout silent w in
  exists evs,
    w_log m.2 = (w_log w ++ evs)%list /\
    printed_commands evs =
      (if negb silent && ((0 <? verbosity)%Z || dry_run)
       then [command_line args] else []) /\
    (if dry_run then execs evs = [] /\ m.1 = Return tt /\ w_fs m.2 = w_fs w
     else exists res,
       execs evs = [command_tokens args] /\
       Exec (command_tokens args) (stdout_of verbosity stdout) res ∈ evs /\
       (forall a o x, Exec a o x ∈ evs ->
          a = command_tokens args /\ o = stdout_of verbosity stdout /\ x = res) /\
       (m.1 = Return tt <-> res = Exited 0)).
Proof.
  unfold run_command, bind, when, echo, emit, subprocess_run, stdout_of,
    command_line.
  set (toks := command_tokens args).
  set (line := Echo PREFIX_RUN (CommandLine (Str.join " " toks)) "yellow" _).
  set (out := match stdout with Some f => ToFile f | None => _ end).
  assert (Hin : forall pre post res a o x,
            Exec a o x ∈ (pre ++ Exec toks out res :: post)%list ->
            execs pre = [] -> execs post = [] ->
            a = toks /\ o = out /\ x = res).
  { intros pre post res a o x Hin Hpre Hpost.
    apply elem_of_app in Hin as [Hin | Hin].
    - apply list_elem_of_split in Hin as (l1 & l2 & ->).
      rewrite execs_app in Hpre. simpl in Hpre.
      by apply app_eq_nil in Hpre as [_ ?].
    - apply elem_of_cons in Hin as [E | Hin];
        [by injection E as -> -> -> |].
      apply list_elem_of_split in Hin as (l1 & l2 & ->).
      rewrite execs_app in Hpost. simpl in Hpost.
      by apply app_eq_nil in Hpost as [_ ?]. }
  destruct (negb silent && ((0 <? verbosity)%Z || dry_run)); simpl.
  - destruct dry_run; simpl.
    + exists [line]. by split_and!.
    + destruct (os_run os _ _ _ _) as [[rc|] fs']; simpl.
      * destruct (Z.eqb_spec rc 0) as [->|Hrc]; simpl.
        -- exists [line; Exec toks out (Exited 0)].
           split_and!; [by rewrite <- app_assoc | done |].
           exists (Exited 0). split_and!; [done | rewrite !elem_of_cons; auto | | done].
           intros a o x Hin'. by apply (Hin [line] []).
        -- exists [line; Exec toks out (Exited rc);
                   Echo PREFIX_ERR (Returned (Str.join " " toks) rc) "red" false].
           split_and!; [by rewrite <- !app_assoc | done |].
           exists (Exited rc). split_and!; [done | rewrite !elem_of_cons; auto | |].
           ++ intros a o x Hin'.
              by apply (Hin [line] [Echo PREFIX_ERR
                          (Returned (Str.join " " toks) rc) "red" false]).
           ++ split; [done | by intros [= ->]].
      * exists [line; Exec toks out NotStarted].
        split_and!; [by rewrite <- app_assoc | done |].
        exists NotStarted. split_and!; [done | rewrite !elem_of_cons; auto | | done].
        intros a o x Hin'. by apply (Hin [line] []).
  - destruct dry_run; simpl.
    + exists []. by rewrite app_nil_r.
    + destruct (os_run os _ _ _ _) as [[rc|] fs']; simpl.
      * destruct (Z.eqb_spec rc 0) as [->|Hrc]; simpl.
        -- exists [Exec toks out (Exited 0)].
           split_and!; [done | done |].
           exists (Exited 0). split_and!; [done | rewrite !elem_of_cons; auto | | done].
           intros a o x Hin'. by apply (Hin [] []).
        -- exists [Exec toks out (Exited rc);
                   Echo PREFIX_ERR (Returned (Str.join " " toks) rc) "red" false].
           split_and!; [by rewrite <- !app_assoc | done |].
           exists (Exited rc). split_and!; [done | rewrite !elem_of_cons; auto | |].
           ++ intros a o x Hin'.
              by apply (Hin [] [Echo PREFIX_ERR
                          (Returned (Str.join " " toks) rc) "red" false]).
           ++ split; [done | by intros [= ->]].
      * exists [Exec toks out NotStarted].
        split_and!; [done | done |].
        exists NotStarted. split_and!; [done | rewrite !elem_of_cons; auto | | done].
        intros a o x Hin'. by apply (Hin [] []).
Qed.

(** *** Materialize *)

Lemma gz_name n pre :
  component n -> n = pre +:+ EXT_NIFTI +:+ EXT_GZIP ->
  let base := pre +:+ EXT_NIFTI in
  n = base +:+ EXT_GZIP /\ component base /\
  Path.suffix_of_name n = EXT_GZIP /\ Path.stem_of_name n = base.
Proof.
  intros [_ Hsl] -> base. subst base.
  assert (Hne : pre +:+ EXT_NIFTI <> "") by (by destruct pre).
  split; [by rewrite str_app_assoc |]. split.
  - rewrite !contains_app in Hsl.
    apply orb_false_iff in Hsl as [H1 _]. split.
    + unfold Path.is_component.
      destruct (String.eqb_spec (pre +:+ EXT_NIFTI) "") as [E|_]; [done |].
      destruct (String.eqb_spec (pre +:+ EXT_NIFTI) ".") as [E|_]; [| done].
      apply (f_equal String.length) in E. rewrite str_app_length in E.
      simpl in E. lia.
    + by rewrite contains_app, H1.
  - rewrite <- str_app_assoc.
    change EXT_GZIP with ("." +:+ "gz").
    by destruct (stem_suffix_dotted (pre +:+ EXT_NIFTI) "gz") as [-> ->].
Qed.

Lemma nii_name n pre :
  n = pre +:+ EXT_NIFTI -> Path.suffix_of_name n <> EXT_GZIP.
Proof.
  intros ->. destruct pre as [|a pre]; [by compute |].
  change EXT_NIFTI with ("." +:+ "nii").
  by destruct (stem_suffix_dotted (String a pre) "nii") as [_ ->].
Qed.

Lemma mk_eta p : Path.mk (Path.root p) (Path.tail p) = p.
Proof. by destruct p. Qed.

(** C7. For a (well-formed) input whose path ends in [.nii.gz], the
    Materialize stage runs [zcat] on it with standard output redirected to
    the artifact, a file in the workspace named like the input without its
    [.gz]; for an input ending in [.nii] it runs [ln -s] to a workspace
    path with the input's own name, extension included, and no [zcat].  In
    a dry run the one command is printed instead of executed. *)
Theorem materialize_stage (verbosity : Z) (dry_run : bool)
    (tmp nifti : Path.t) (w : World) :
  wf_path nifti ->
  let m := materialize os verbosity dry_run tmp nifti w in
  (Str.endswith (Path.str nifti) (EXT_NIFTI +:+ EXT_GZIP) = true ->
   exists base,
     Path.name nifti = base +:+ EXT_GZIP /\
     let raw := Path.joinpath tmp base in
     Path.parent raw = tmp /\ Path.name raw = base /\
     (forall p, m.1 = Return p -> p = raw) /\
     exists evs,
       w_log m.2 = (w_log w ++ evs)%list /\
       if dry_run then
         execs evs = [] /\
         printed_commands evs = ["zcat " +:+ Path.str nifti]
       else
         execs evs = [["zcat"; Path.str nifti]] /\
         forall a o x, Exec a o x ∈ evs -> o = ToFile raw) /\
  (Str.endswith (Path.str nifti) EXT_NIFTI = true ->
   let raw := Path.joinpath tmp (Path.name nifti) in
   Path.parent raw = tmp /\ Path.name raw = Path.name nifti /\
   Path.suffix raw = Path.suffix nifti /\
   (forall p, m.1 = Return p -> p = raw) /\
   exists evs,
     w_log m.2 = (w_log w ++ evs)%list /\
     if dry_run then
       execs evs = [] /\
       printed_commands evs =
         ["ln -s " +:+ Path.str nifti +:+ " " +:+ Path.str raw]
     else
       execs evs = [["ln"; "-s"; Path.str nifti; Path.str raw]]).
Proof.
  intros Hwf m. split.
  - intros Hend.
    destruct (str_endswith_name nifti (EXT_NIFTI +:+ EXT_GZIP) Hwf
                ltac:(compute; lia) eq_refl Hend) as [Hc [pre Hn]].
    destruct (gz_name _ pre Hc Hn) as (Hb & Hcb & Hs & Hst).
    exists (pre +:+ EXT_NIFTI). split; [done |].
    rewrite (joinpath_component tmp _ Hcb).
    split; [by rewrite parent_snoc, mk_eta |].
    split; [apply name_snoc |].
    subst m. unfold materialize, Path.suffix, Path.stem.
    rewrite Hs, Hst. rewrite String.eqb_refl.
    rewrite (joinpath_component tmp _ Hcb).
    set (raw := Path.mk _ _). unfold bind, open_wb.
    set (w0 := mkWorld _ _).
    destruct (run_command_events verbosity dry_run
                [AStr "zcat"; APath nifti] (Some raw) false w0)
      as (evs & Elog & Hpr & Hex).
    destruct (run_command os verbosity dry_run _ _ _ w0) as [[[]|e] w1];
      simpl in *.
    + split; [by intros p [= <-] |]. exists evs. split; [done |].
      destruct dry_run.
      * rewrite orb_true_r in Hpr. by destruct Hex as (? & _).
      * destruct Hex as (res & Hx & _ & Hall & _). split; [done |].
        intros a o x Hin. by destruct (Hall a o x Hin) as (_ & -> & _).
    + split; [done |]. exists evs. split; [done |].
      destruct dry_run.
      * rewrite orb_true_r in Hpr. by destruct Hex as (? & _).
      * destruct Hex as (res & Hx & _ & Hall & _). split; [done |].
        intros a o x Hin. by destruct (Hall a o x Hin) as (_ & -> & _).
  - intros Hend.
    destruct (str_endswith_name nifti EXT_NIFTI Hwf
                ltac:(compute; lia) eq_refl Hend) as [Hc [pre Hn]].
    pose proof (nii_name _ pre Hn) as Hs.
    rewrite (joinpath_component tmp _ Hc).
    split; [by rewrite parent_snoc, mk_eta |].
    split; [apply name_snoc |].
    split; [unfold Path.suffix; by rewrite name_snoc |].
    subst m. unfold materialize, Path.suffix.
    apply String.eqb_neq in Hs. rewrite Hs.
    rewrite (joinpath_component tmp _ Hc).
    set (raw := Path.mk _ _). unfold bind.
    destruct (run_command_events verbosity dry_run
                [AStr "ln"; AStr "-s"; APath nifti; APath raw] None false w)
      as (evs & Elog & Hpr & Hex).
    destruct (run_command os verbosity dry_run _ _ _ w) as [[[]|e] w1];
      simpl in *.
    + split; [by intros p [= <-] |]. exists evs. split; [done |].
      destruct dry_run.
      * rewrite orb_true_r in Hpr. by destruct Hex as (? & _).
      * by destruct Hex as (res & Hx & _).
    + split; [done |]. exists evs. split; [done |].
      destruct dry_run.
      * rewrite orb_true_r in Hpr. by destruct Hex as (? & _).
      * by destruct Hex as (res & Hx & _).
Qed.

End Stages.

(** *** The output subdirectory *)

Section OutputDir.

(** [make_output_dir] by cases on what is at the subdirectory's path. *)
Lemma make_output_dir_spec overwrite out raw w :
  let sub := Path.joinpath out (Path.stem raw) in
  make_output_dir overwrite out raw w =
  match w_fs w !! sub with
  | None =>
      (Return sub,
       mkWorld (makedirs (w_fs w) (Path.root sub) [] (Path.tail sub)) (w_log w))
  | Some Dir =>
      if overwrite then (Return sub, w)
      else if Nat.eqb (List.length (children (w_fs w) sub)) 0
           then (Return sub, w)
           else failed (OutputDirExists sub) w
  | Some File => (Raise (NotADirectoryError sub), w)
  end.
Proof.
  intros sub. unfold make_output_dir, try_except, bind, mkdir, iterdir, when.
  fold sub. destruct (w_fs w !! sub) as [[]|] eqn:E; simpl.
  - by rewrite E.
  - destruct overwrite; simpl; [done |]. rewrite E.
    by destruct (Nat.eqb _ 0).
  - done.
Qed.

(** What [makedirs] adds: directories at the prefixes of the path. *)
Lemma makedirs_lookup fs r pre rest q n :
  makedirs fs r pre rest !! q = Some n ->
  fs !! q = Some n \/
  (n = Dir /\ Path.root q = r /\
   exists k, (0 < k <= List.length rest)%nat /\
             Path.tail q = (pre ++ take k rest)%list).
Proof.
  revert fs pre. induction rest as [|x rest IH]; intros fs pre; simpl;
    [by left |].
  intros H. apply IH in H as [H | (-> & Hr & k & Hk & Ht)].
  - destruct (fs !! Path.mk r (pre ++ [x])) eqn:E; [by left |].
    destruct (decide (q = Path.mk r (pre ++ [x]))) as [-> | Hne].
    + rewrite lookup_insert_eq in H. injection H as <-. right.
      split_and!; [done.. |]. exists 1%nat. split; [lia | done].
    + rewrite lookup_insert_ne in H by done. by left.
  - right. split_and!; [done.. |]. exists (S k). split; [lia |].
    by rewrite Ht, <- app_assoc.
Qed.

Lemma makedirs_keeps fs r pre rest q n :
  fs !! q = Some n -> makedirs fs r pre rest !! q = Some n.
Proof.
  revert fs pre. induction rest as [|x rest IH]; intros fs pre H; simpl;
    [done |].
  apply IH. destruct (fs !! Path.mk r (pre ++ [x])) eqn:E; [done |].
  rewrite lookup_insert_ne; [done |]. intros <-. by rewrite E in H.
Qed.

Lemma makedirs_creates fs r pre rest :
  rest <> [] -> is_Some (makedirs fs r pre rest !! Path.mk r (pre ++ rest)).
Proof.
  revert fs pre. induction rest as [|x rest IH]; intros fs pre Hne; [done |].
  simpl. destruct rest as [|y rest].
  - simpl. destruct (fs !! Path.mk r (pre ++ [x])) eqn:E; [by eexists |].
    rewrite lookup_insert_eq. by eexists.
  - assert (((pre ++ x :: y :: rest) = (pre ++ [x]) ++ y :: rest)%list) as ->
      by (by rewrite <- app_assoc).
    by apply IH.
Qed.

Lemma filter_nil {A} (f : A -> bool) l :
  (forall x, x ∈ l -> f x = false) -> List.filter f l = [].
Proof.
  induction l as [|x l IH]; intros H; simpl; [done |].
  rewrite (H x) by by left. apply IH. intros y Hy. apply H. by right.
Qed.

(** A directory that [mkdir] has just created in a well-formed filesystem
    exists and is empty. *)
Lemma makedirs_fresh fs sub :
  fs_wf fs -> fs !! sub = None ->
  let fs' := makedirs fs (Path.root sub) [] (Path.tail sub) in
  fs' !! sub = Some Dir /\ children fs' sub = [].
Proof.
  intros [Hroot Hpar] Hnone fs'.
  assert (Hne : Path.tail sub <> []).
  { intros E. specialize (Hroot (Path.root sub)).
    rewrite <- E, mk_eta in Hroot. by rewrite Hroot in Hnone. }
  split.
  - destruct (makedirs_creates fs (Path.root sub) [] (Path.tail sub) Hne)
      as [n Hn]. simpl in Hn. rewrite mk_eta in Hn. fold fs' in Hn.
    destruct (makedirs_lookup _ _ _ _ _ _ Hn) as [H | (-> & _)]; [| done].
    by rewrite Hnone in H.
  - apply filter_nil. intros q Hq.
    apply list_elem_of_fmap in Hq as ([q' n] & -> & Hq). simpl.
    apply elem_of_map_to_list in Hq.
    apply andb_false_iff.
    destruct (decide (Path.tail q' = [])) as [Ht | Ht];
      [left; by rewrite bool_decide_eq_true_2 |].
    right. apply bool_decide_eq_false_2. intros Hp.
    apply makedirs_lookup in Hq as [Hq | (_ & Hr & k & Hk & Hk')].
    + specialize (Hpar q' _ Hq Ht). simpl in Hpar. rewrite Hp in Hpar.
      by rewrite Hnone in Hpar.
    + apply (f_equal Path.tail) in Hp. unfold Path.parent in Hp.
      simpl in Hp, Hk'. rewrite Hk' in Hp.
      apply (f_equal List.length) in Hp.
      assert (Hlen : List.length (take k (Path.tail sub)) = k)
        by (rewrite length_take; lia).
      destruct (take k (Path.tail sub)) as [|x l] using rev_ind;
        [simpl in Hlen; lia |].
      rewrite removelast_last in Hp. rewrite length_app in Hlen.
      simpl in Hlen. lia.
Qed.

(** C6, amended. Whenever [make_output_dir] returns, on a well-formed
    filesystem, the output subdirectory is either newly created and empty,
    or it existed before and then the overwrite flag is set or the
    directory was empty; a pre-existing non-empty subdirectory without
    the overwrite flag ends the run with exit code 1. *)
Theorem output_dir_policy (overwrite : bool) (out raw sub : Path.t)
    (w : World) :
  fs_wf (w_fs w) ->
  let m := make_output_dir overwrite out raw w in
  (m.1 = Return sub ->
   sub = Path.joinpath out (Path.stem raw) /\
   ((w_fs w !! sub = None /\ w_fs m.2 !! sub = Some Dir /\
     children (w_fs m.2) sub = []) \/
    (w_fs w !! sub = Some Dir /\ m.2 = w /\
     (overwrite = true \/ children (w_fs w) sub = [])))) /\
  (sub = Path.joinpath out (Path.stem raw) ->
   w_fs w !! sub = Some Dir -> overwrite = false ->
   children (w_fs w) sub <> [] ->
   m.1 = Raise (SystemExit 1)).
Proof.
  intros Hwf m. subst m. rewrite make_output_dir_spec. split.
  - destruct (w_fs w !! Path.joinpath out (Path.stem raw)) as [[]|] eqn:E;
      simpl.
    + done.
    + destruct overwrite; simpl.
      * intros [= <-]. split; [done |]. right. auto.
      * destruct (children (w_fs w) _) as [|x l] eqn:Ec; simpl; [| done].
        intros [= <-]. split; [done |]. right. rewrite Ec. auto.
    + intros [= <-]. split; [done |]. left. split; [done |].
      by apply makedirs_fresh.
  - intros -> E -> Hne. rewrite E.
    by destruct (children (w_fs w) _).
Qed.

End OutputDir.

Section OutputConflict.
Context (os : OS).

(** C4. Once the Materialize stage has returned, if the output
    subdirectory exists as a directory: without the overwrite flag and
    with an entry inside, the pipeline ends there with exit code 1 and the
    message of kind [OutputConflict], having added nothing but that
    message to the log and nothing to the filesystem, so no copy has
    happened; with the overwrite flag the directory is accepted as it is,
    and every copy command is a forced [cp -vfp] into it. *)
Theorem output_conflict (verbosity : Z) (dry_run : bool) (c : Config)
    (ps : Paths) (ts : Templates) (tmp raw : Path.t) (w : World) :
  let m := materialize os verbosity dry_run tmp (fpath_nifti ps) w in
  m.1 = Return raw ->
  let sub := Path.joinpath (dpath_out ps) (Path.stem raw) in
  w_fs m.2 !! sub = Some Dir ->
  let r := pipeline os verbosity dry_run c ps ts tmp w in
  (opt_overwrite c = false -> children (w_fs m.2) sub <> [] ->
   r.1 = Raise (SystemExit 1) /\
   w_log r.2 =
     (w_log m.2 ++ [Echo PREFIX_ERR (OutputDirExists sub) "red" false])%list /\
   error_kind (OutputDirExists sub) = Some OutputConflict /\
   w_fs r.2 = w_fs m.2) /\
  (opt_overwrite c = true ->
   make_output_dir true (dpath_out ps) raw m.2 = (Return sub, m.2) /\
   forall src,
     command_tokens (cp_args src sub)
     = ["cp"; "-vfp"; Path.str src; Path.str sub]).
Proof.
  intros m Hm sub Hdir r. split.
  - intros How Hne. subst r. unfold pipeline, bind. fold m.
    destruct m as [o w1]. simpl in *. subst o.
    rewrite make_output_dir_spec. fold sub. rewrite Hdir, How.
    destruct (children (w_fs w1) sub); [done |]. simpl. done.
  - intros How. split; [| done].
    rewrite make_output_dir_spec. fold sub. by rewrite Hdir.
Qed.

End OutputConflict.

(** *** The artifact paths *)

Section ArtifactPaths.
Context (os : OS).

(** The derivations of lines 186-273, read off a run of the stages that
    returned. *)
Lemma run_stages_paths verbosity dry_run template conf ps ts tmp raw_nii w a :
  (run_stages os verbosity dry_run template conf ps ts tmp raw_nii w).1
    = Return a ->
  exists raw_mnc,
    Path.with_suffix raw_nii EXT_MINC = Some raw_mnc /\
    fpath_raw a = Path.join tmp raw_mnc /\
    fpath_denoised a = add_suffix (fpath_raw a) SUFFIX_DENOISED SEP_DEFAULT /\
    fpath_norm a = add_suffix (fpath_denoised a) SUFFIX_NORM SEP_DEFAULT /\
    Path.with_suffix (fpath_norm a) EXT_TRANSFORM
      = Some (fpath_norm_transform a) /\
    fpath_mask a = add_suffix (fpath_norm a) SUFFIX_MASK SEP_DEFAULT /\
    fpath_extracted a = add_suffix (fpath_norm a) SUFFIX_EXTRACTED SEP_DEFAULT /\
    fpath_nonlinear a
      = add_suffix (fpath_extracted a) SUFFIX_NONLINEAR SEP_DEFAULT /\
    Path.with_suffix (fpath_nonlinear a) EXT_TRANSFORM
      = Some (fpath_nonlinear_transform a) /\
    fpath_dbm a = add_suffix (fpath_nonlinear a) SUFFIX_DBM SEP_DEFAULT /\
    fpath_dbm_reshaped a = add_suffix (fpath_dbm a) SUFFIX_RESHAPED SEP_DEFAULT /\
    Path.with_suffix (fpath_dbm_reshaped a) EXT_NIFTI = Some (fpath_dbm_nii a).
Proof.
  unfold run_stages, bind, lift, with_suffix.
  destruct (Path.with_suffix raw_nii EXT_MINC) as [raw_mnc|]; [| done].
  repeat
    (match goal with
     | |- context [run_command ?o ?v ?d ?args ?so ?sl ?w0] =>
         destruct (run_command o v d args so sl w0) as [[[]|?] ?]; [| done]
     | |- context [Path.with_suffix ?p ?s] =>
         destruct (Path.with_suffix p s) eqn:?; [| done]
     end).
  simpl. intros [= <-]. simpl. exists raw_mnc. by split_and!.
Qed.

(** The result of a successful [with_suffix] with an extension of two
    characters or more. *)
Lemma with_suffix_name p sfx q :
  wf_path p -> (1 < String.length sfx)%nat ->
  Path.with_suffix p sfx = Some q ->
  wf_path q /\ Path.parent q = Path.parent p /\
  Path.name q = Path.stem p +:+ sfx /\ Path.name p <> "".
Proof.
  intros Hp Hlen. unfold Path.with_suffix.
  destruct (Str.contains "/" sfx) eqn:Hsl; [done |].
  destruct (_ || _); [done |].
  destruct (String.eqb_spec (Path.name p) "") as [|Hne]; [done |].
  intros [= <-]. split_and!; [| apply parent_snoc | apply name_snoc | done].
  unfold wf_path. simpl. apply Forall_app. split.
  - apply parent_wf in Hp. exact Hp.
  - repeat constructor.
    + unfold Path.is_component.
      destruct (String.eqb_spec (Path.stem p +:+ sfx) "") as [E|_];
        [apply (f_equal String.length) in E;
         rewrite str_app_length in E; simpl in E; lia |].
      destruct (String.eqb_spec (Path.stem p +:+ sfx) ".") as [E|_]; [| done].
      apply (f_equal String.length) in E.
      rewrite str_app_length in E. simpl in E. lia.
    + pose proof (wf_name_slashfree p Hp) as H.
      rewrite (name_stem_suffix (Path.name p)), contains_app in H.
      apply orb_false_iff in H as [H _].
      rewrite contains_app. unfold Path.stem. by rewrite H, Hsl.
Qed.

(** A name [S.mnc] keeps its extension under [add_suffix]. *)
Lemma add_suffix_mnc p S sfx :
  wf_path p -> Path.name p = S +:+ EXT_MINC -> S <> "" -> good_suffix sfx ->
  let q := add_suffix p sfx SEP_DEFAULT in
  wf_path q /\ Path.parent q = Path.parent p /\
  Path.name q = (S +:+ "." +:+ sfx) +:+ EXT_MINC /\ S +:+ "." +:+ sfx <> "".
Proof.
  intros Hp Hn HS G q. subst q.
  split_and!; [by apply add_suffix_wf | by apply add_suffix_parent | |
               apply app_dot_nonempty].
  rewrite add_suffix_name, Hn by done.
  change EXT_MINC with ("." +:+ "mnc"). by apply suffixed_dotted.
Qed.

(** A name [S.mnc] trades its extension under [with_suffix]. *)
Lemma with_suffix_mnc p S ext q :
  wf_path p -> Path.name p = S +:+ EXT_MINC -> S <> "" ->
  (1 < String.length ext)%nat ->
  Path.with_suffix p ext = Some q ->
  Path.parent q = Path.parent p /\ Path.name q = S +:+ ext.
Proof.
  intros Hp Hn HS Hlen Hq.
  destruct (with_suffix_name p ext q Hp Hlen Hq) as (_ & Hpar & Hname & _).
  split; [done |]. rewrite Hname. unfold Path.stem. rewrite Hn.
  change EXT_MINC with ("." +:+ "mnc").
  by destruct (stem_suffix_dotted S "mnc") as [-> _].
Qed.

Lemma join_name p q :
  Path.tail q <> [] -> Path.name (Path.join p q) = Path.name q.
Proof.
  unfold Path.join, Path.name. intros Hne.
  destruct (Path.root q); [done |]. simpl.
  destruct (Path.tail q) as [|x l _] using rev_ind; [done |].
  by rewrite app_assoc, !last_last.
Qed.

(** The names of the artifacts, all in one directory. *)
Lemma artifact_names verbosity dry_run template conf ps ts tmp raw_nii w a :
  wf_path tmp -> wf_path raw_nii ->
  (run_stages os verbosity dry_run template conf ps ts tmp raw_nii w).1
    = Return a ->
  let B := Path.stem raw_nii in
  B <> "" /\
  Path.name <$> [fpath_raw a; fpath_denoised a; fpath_norm a;
                 fpath_norm_transform a; fpath_mask a; fpath_extracted a;
                 fpath_nonlinear a; fpath_nonlinear_transform a;
                 fpath_dbm a; fpath_dbm_reshaped a; fpath_dbm_nii a]
  = (fun x => B +:+ x) <$>
      [".mnc"; ".denoised.mnc"; ".denoised.norm.mnc"; ".denoised.norm.xfm";
       ".denoised.norm.mask.mnc"; ".denoised.norm.extracted.mnc";
       ".denoised.norm.extracted.nl.mnc"; ".denoised.norm.extracted.nl.xfm";
       ".denoised.norm.extracted.nl.dbm.mnc";
       ".denoised.norm.extracted.nl.dbm.reshaped.mnc";
       ".denoised.norm.extracted.nl.dbm.reshaped.nii"] /\
  Forall (fun p => Path.parent p = Path.parent (fpath_raw a))
    [fpath_denoised a; fpath_norm a; fpath_norm_transform a; fpath_mask a;
     fpath_extracted a; fpath_nonlinear a; fpath_nonlinear_transform a;
     fpath_dbm a; fpath_dbm_reshaped a; fpath_dbm_nii a].
Proof.
  intros Htmp Hraw Hrun B.
  destruct (run_stages_paths _ _ _ _ _ _ _ _ _ _ Hrun)
    as (raw_mnc & E0 & E1 & E2 & E3 & E4 & E5 & E6 & E7 & E8 & E9 & E10 & E11).
  destruct (with_suffix_name raw_nii EXT_MINC raw_mnc Hraw
              ltac:(compute; lia) E0) as (W0 & _ & N0 & Hne).
  assert (HB : B <> "") by (intros E; by apply stem_nil in E).
  assert (W1 : wf_path (fpath_raw a)) by (rewrite E1; by apply join_wf).
  assert (N1 : Path.name (fpath_raw a) = B +:+ EXT_MINC).
  { rewrite E1, join_name; [done |].
    intros Et. unfold Path.name in N0. rewrite Et in N0. simpl in N0.
    symmetry in N0. by apply str_app_eq_nil in N0 as [? _]. }
  assert (G : Forall good_suffix semantic_suffixes)
    by (apply Forall_forall; intros; by apply semantic_good).
  repeat (apply Forall_cons_1 in G as [? G]).
  destruct (add_suffix_mnc _ _ SUFFIX_DENOISED W1 N1 HB)
    as (W2 & P2 & N2 & K2); [done |]. rewrite <- E2 in W2, P2, N2.
  destruct (add_suffix_mnc _ _ SUFFIX_NORM W2 N2 K2)
    as (W3 & P3 & N3 & K3); [done |]. rewrite <- E3 in W3, P3, N3.
  destruct (with_suffix_mnc _ _ EXT_TRANSFORM _ W3 N3 K3
              ltac:(compute; lia) E4) as (P4 & N4).
  destruct (add_suffix_mnc _ _ SUFFIX_MASK W3 N3 K3)
    as (W5 & P5 & N5 & K5); [done |]. rewrite <- E5 in W5, P5, N5.
  destruct (add_suffix_mnc _ _ SUFFIX_EXTRACTED W3 N3 K3)
    as (W6 & P6 & N6 & K6); [done |]. rewrite <- E6 in W6, P6, N6.
  destruct (add_suffix_mnc _ _ SUFFIX_NONLINEAR W6 N6 K6)
    as (W7 & P7 & N7 & K7); [done |]. rewrite <- E7 in W7, P7, N7.
  destruct (with_suffix_mnc _ _ EXT_TRANSFORM _ W7 N7 K7
              ltac:(compute; lia) E8) as (P8 & N8).
  destruct (add_suffix_mnc _ _ SUFFIX_DBM W7 N7 K7)
    as (W9 & P9 & N9 & K9); [done |]. rewrite <- E9 in W9, P9, N9.
  destruct (add_suffix_mnc _ _ SUFFIX_RESHAPED W9 N9 K9)
    as (W10 & P10 & N10 & K10); [done |]. rewrite <- E10 in W10, P10, N10.
  destruct (with_suffix_mnc _ _ EXT_NIFTI _ W10 N10 K10
              ltac:(compute; lia) E11) as (P11 & N11).
  split; [done |]. split.
  - simpl. rewrite N1, N2, N3, N4, N5, N6, N7, N8, N9, N10, N11.
    unfold EXT_MINC, EXT_TRANSFORM, EXT_NIFTI, SUFFIX_DENOISED, SUFFIX_NORM,
      SUFFIX_MASK, SUFFIX_EXTRACTED, SUFFIX_NONLINEAR, SUFFIX_DBM,
      SUFFIX_RESHAPED.
    rewrite !str_app_assoc. reflexivity.
  - repeat constructor; congruence.
Qed.

End ArtifactPaths.

(** *** Copying the results *)

Section CopyResults.
Context (os : OS).

(** The copy loop issues one [cp -vfp] per file, in order; a dry run
    prints them, a real run executes them up to the first failure. *)
Lemma copy_loop_events verbosity dry_run sub (l : list Path.t) w :
  let m := for_each l (fun src =>
             run_command os verbosity dry_run (cp_args src sub) None false) w in
  exists evs,
    w_log m.2 = (w_log w ++ evs)%list /\
    if dry_run then
      execs evs = [] /\
      printed_commands evs = (fun src => command_line (cp_args src sub)) <$> l
    else
      execs evs `prefix_of` ((fun src => command_tokens (cp_args src sub)) <$> l)
      /\ (m.1 = Return tt ->
          execs evs = (fun src => command_tokens (cp_args src sub)) <$> l).
Proof.
  revert w. induction l as [|src l IH]; intros w; simpl.
  - exists []. rewrite app_nil_r. by destruct dry_run.
  - unfold bind.
    destruct (run_command_events os verbosity dry_run (cp_args src sub)
                None false w) as (evs1 & E1 & Hp1 & Hx1).
    destruct (run_command os verbosity dry_run (cp_args src sub) None false w)
      as [[[]|e] w1]; simpl in *.
    + destruct (IH w1) as (evs2 & E2 & H2).
      exists (evs1 ++ evs2)%list. rewrite E2, E1, app_assoc. split; [done |].
      rewrite execs_app, printed_commands_app. destruct dry_run.
      * destruct Hx1 as (-> & _). destruct H2 as (-> & ->).
        rewrite orb_true_r in Hp1. by rewrite Hp1.
      * destruct Hx1 as (res & -> & _). destruct H2 as (Hpre & Hall).
        split; [by apply prefix_cons | ].
        intros Hr. by rewrite (Hall Hr).
    + exists evs1. split; [done |]. destruct dry_run.
      * by destruct Hx1 as (_ & ? & _).
      * destruct Hx1 as (res & -> & _). split; [| done].
        apply prefix_cons, prefix_nil.
Qed.

(** C8. After the stages have returned: in save-subset mode the copy set
    is exactly the five artifacts denoised, mask, extracted, nonlinear and
    DBM NIfTI, whose names are the scan's stem followed by the chain of
    suffixes; they differ from one another, from the materialized input,
    and from the raw, normalized, DBM and reshaped MINC files and the two
    transforms; in save-all mode the copy set is the listing of the
    workspace.  [copy_results] issues one [cp -vfp] per file of the copy
    set, in order (printed in a dry run, executed in a real one, all of
    them when the step returns). *)
Theorem copy_set (verbosity : Z) (dry_run : bool) (template conf : string)
    (ps : Paths) (ts : Templates) (tmp raw_nii sub : Path.t) (w : World)
    (a : Artifacts) :
  wf_path tmp -> wf_path raw_nii ->
  (run_stages os verbosity dry_run template conf ps ts tmp raw_nii w).1
    = Return a ->
  let B := Path.stem raw_nii in
  let five := [fpath_denoised a; fpath_mask a; fpath_extracted a;
               fpath_nonlinear a; fpath_dbm_nii a] in
  let others := [raw_nii; fpath_raw a; fpath_norm a; fpath_norm_transform a;
                 fpath_nonlinear_transform a; fpath_dbm a;
                 fpath_dbm_reshaped a] in
  (forall w', fpaths_to_copy false tmp a w' = (Return five, w')) /\
  Path.name <$> five
  = (fun x => B +:+ x) <$>
      [".denoised.mnc"; ".denoised.norm.mask.mnc";
       ".denoised.norm.extracted.mnc"; ".denoised.norm.extracted.nl.mnc";
       ".denoised.norm.extracted.nl.dbm.reshaped.nii"] /\
  NoDup five /\
  (forall p, p ∈ others -> p ∉ five) /\
  (forall w', w_fs w' !! tmp = Some Dir ->
     fpaths_to_copy true tmp a w' = (Return (children (w_fs w') tmp), w')) /\
  (forall save_all w' l,
     (fpaths_to_copy save_all tmp a w').1 = Return l ->
     let m := copy_results os verbosity dry_run save_all tmp a sub w' in
     exists evs,
       w_log m.2 = (w_log w' ++ evs)%list /\
       if dry_run then
         execs evs = [] /\
         printed_commands evs
         = (fun src => command_line (cp_args src sub)) <$> l
       else
         execs evs
           `prefix_of` ((fun src => command_tokens (cp_args src sub)) <$> l) /\
         (m.1 = Return tt ->
          execs evs = (fun src => command_tokens (cp_args src sub)) <$> l)).
Proof.
  intros Htmp Hraw Hrun B five others.
  destruct (artifact_names os _ _ _ _ _ _ _ _ _ _ Htmp Hraw Hrun)
    as (HB & Hnames & _).
  fold B in HB, Hnames. simpl in Hnames.
  injection Hnames as N1 N2 N3 N4 N5 N6 N7 N8 N9 N10 N11.
  assert (Hinj : forall x y, B +:+ x = B +:+ y -> x = y)
    by (intros x y; apply str_app_inv_head).
  assert (Hneq : forall p q x y,
            Path.name p = B +:+ x -> Path.name q = B +:+ y -> x <> y -> p <> q).
  { intros p q x y Hp Hq Hxy ->. rewrite Hp in Hq. by apply Hinj in Hq. }
  assert (Hraw5 : forall q x,
            Path.name q = B +:+ x ->
            Str.contains "." (Str.drop 1 x) = true -> raw_nii <> q).
  { intros q x Hq Hx <-. unfold B, Path.stem in Hq.
    destruct (name_cases (Path.name raw_nii))
      as [[_ Est] | (st & r & En & _ & _ & Hd & Est & _)].
    - rewrite Est in Hq. rewrite <- (str_app_nil_r (Path.name raw_nii)) in Hq
        at 1. apply str_app_inv_head in Hq. by subst x.
    - rewrite Est in Hq. rewrite En in Hq at 1.
      apply str_app_inv_head in Hq. subst x. simpl in Hx.
      by rewrite Hx in Hd. }
  split_and!.
  - done.
  - simpl. by rewrite N2, N5, N6, N7, N11.
  - subst five. repeat (apply NoDup_cons; split);
      [rewrite ?elem_of_cons, elem_of_nil..| apply NoDup_nil_2];
      intros H; repeat destruct H as [H | H]; try done;
      revert H; eapply Hneq; try eassumption; done.
  - intros p Hp Hin. subst others five.
    rewrite !elem_of_cons, elem_of_nil in Hp.
    rewrite !elem_of_cons, elem_of_nil in Hin.
    repeat destruct Hp as [-> | Hp]; try done;
      repeat destruct Hin as [Hin | Hin]; try done; revert Hin;
      first [ eapply Hraw5; [eassumption | done]
            | eapply Hneq; [eassumption | eassumption | done] ].
  - intros w' Hdir. unfold fpaths_to_copy, iterdir. by rewrite Hdir.
  - intros save_all w' l Hl m. subst m. unfold copy_results, bind.
    assert (El : fpaths_to_copy save_all tmp a w' = (Return l, w')).
    { revert Hl. unfold fpaths_to_copy, iterdir, ret.
      destruct save_all; simpl; [| by intros [= <-]].
      destruct (w_fs w' !! tmp) as [[]|]; simpl; try done.
      by intros [= <-]. }
    rewrite El. apply copy_loop_events.
Qed.

End CopyResults.

(** ** Dry runs *)

Section DryRun.
Context (os : OS).

Lemma dry_step verbosity args stdout w :
  run_command os verbosity true args stdout false w =
  (Return tt, mkWorld (w_fs w) (w_log w ++ [echo_run args])).
Proof. apply run_command_dry. Qed.

Lemma materialize_dry verbosity tmp nifti w :
  exists fs',
    materialize os verbosity true tmp nifti w =
    (Return (materialized tmp nifti),
     mkWorld fs'
       (w_log w ++
        [echo_run (if String.eqb (Path.suffix nifti) EXT_GZIP
                   then [AStr "zcat"; APath nifti]
                   else [AStr "ln"; AStr "-s"; APath nifti;
                         APath (materialized tmp nifti)])])).
Proof.
  unfold materialize, materialized, bind, open_wb.
  destruct (String.eqb _ _); rewrite dry_step; by eexists.
Qed.

Lemma for_each_dry verbosity (f : Path.t -> list arg) (l : list Path.t) w :
  for_each l (fun src => run_command os verbosity true (f src) None false) w =
  (Return tt,
   mkWorld (w_fs w) (w_log w ++ ((fun src => echo_run (f src)) <$> l))).
Proof.
  revert w. induction l as [|x l IH]; intros w; simpl.
  - unfold ret. rewrite app_nil_r. by destruct w.
  - unfold bind. rewrite dry_step, IH. simpl. by rewrite <- app_assoc.
Qed.

Lemma bind_dry {B} verbosity args stdout (k : unit -> M B) w :
  bind (run_command os verbosity true args stdout false) k w =
  k tt (mkWorld (w_fs w) (w_log w ++ [echo_run args])).
Proof. unfold bind. by rewrite dry_step. Qed.

Lemma bind_lift_Return {A B} (a : A) (k : A -> M B) w :
  bind (lift (Return a)) k w = k a w.
Proof. done. Qed.

Lemma bind_lift_Raise {A B} e (k : A -> M B) w :
  bind (lift (Raise e)) k w = (Raise e, w).
Proof. done. Qed.

Lemma run_stages_dry verbosity (c : Config) ps ts tmp nifti w a w' :
  fpath_nifti ps = nifti ->
  run_stages os verbosity true (opt_template_prefix c) (opt_beast_conf c)
    ps ts tmp (materialized tmp nifti) w = (Return a, w') ->
  w' = mkWorld (w_fs w)
         (w_log w ++ (echo_run <$> tl (stage_commands c ps ts tmp a))).
Proof.
  intros <-. unfold run_stages, with_suffix.
  repeat
    (cbv beta zeta;
     match goal with
     | |- context [Path.with_suffix ?p ?s] =>
         destruct (Path.with_suffix p s);
         [rewrite bind_lift_Return | by rewrite bind_lift_Raise]
     | |- context [bind (run_command _ _ _ _ _ _) _ _] => rewrite bind_dry
     end).
  cbv beta zeta. unfold ret. intros [= <- <-].
  f_equal. unfold stage_commands. cbv beta zeta.
  cbn [tl fmap list_fmap w_log w_fs fpath_raw fpath_denoised fpath_norm
       fpath_norm_transform fpath_mask fpath_extracted fpath_nonlinear
       fpath_nonlinear_transform fpath_dbm fpath_dbm_reshaped fpath_dbm_nii].
  rewrite <- !app_assoc. reflexivity.
Qed.

Lemma make_output_dir_Return overwrite out raw w sub w' :
  make_output_dir overwrite out raw w = (Return sub, w') ->
  sub = Path.joinpath out (Path.stem raw) /\ w_log w' = w_log w.
Proof.
  rewrite make_output_dir_spec.
  destruct (w_fs w !! _) as [[]|]; [done | | by intros [= <- <-]].
  destruct overwrite; [by intros [= <- <-] |].
  destruct (Nat.eqb _ 0); [by intros [= <- <-] | done].
Qed.

Lemma fpaths_to_copy_world save_all tmp a w r w' :
  fpaths_to_copy save_all tmp a w = (r, w') -> w' = w.
Proof.
  unfold fpaths_to_copy, iterdir, ret. destruct save_all; [| by intros [= _ <-]].
  by destruct (w_fs w !! tmp) as [[]|]; intros [= _ <-].
Qed.

Lemma fpaths_to_copy_subset tmp a w l w' :
  fpaths_to_copy false tmp a w = (Return l, w') ->
  l = [fpath_denoised a; fpath_mask a; fpath_extracted a; fpath_nonlinear a;
       fpath_dbm_nii a].
Proof. by intros [= <- _]. Qed.

Lemma stage_commands_head c ps ts tmp a :
  stage_commands c ps ts tmp a =
  (if String.eqb (Path.suffix (fpath_nifti ps)) EXT_GZIP
   then [AStr "zcat"; APath (fpath_nifti ps)]
   else [AStr "ln"; AStr "-s"; APath (fpath_nifti ps);
         APath (materialized tmp (fpath_nifti ps))])
  :: tl (stage_commands c ps ts tmp a).
Proof. reflexivity. Qed.

(** A dry pipeline that returns has printed the stage commands, the
    listings and the copies, in that order, and nothing else. *)
Lemma pipeline_dry verbosity c ps ts tmp w :
  let r := pipeline os verbosity true c ps ts tmp w in
  r.1 = Return tt ->
  exists a copies,
    let sub := Path.joinpath (dpath_out ps)
                 (Path.stem (materialized tmp (fpath_nifti ps))) in
    (opt_save_all c = false ->
     copies = [fpath_denoised a; fpath_mask a; fpath_extracted a;
               fpath_nonlinear a; fpath_dbm_nii a]) /\
    w_log r.2 =
      (w_log w ++
       (echo_run <$> tl (planned_invocations c ps ts tmp sub a copies)))%list.
Proof.
  intros r. subst r.
  destruct (pipeline os verbosity true c ps ts tmp w) as [o wf] eqn:Ep.
  cbn [fst snd]. intros ->. revert Ep. unfold pipeline.
  destruct (materialize_dry verbosity tmp (fpath_nifti ps) w) as [fs1 Em].
  unfold bind at 1. rewrite Em. set (w1 := mkWorld fs1 _).
  unfold bind at 1.
  destruct (make_output_dir _ _ _ w1) as [[sub|e] w2] eqn:Emk; [| done].
  apply make_output_dir_Return in Emk as [-> Elog2].
  set (sub := Path.joinpath _ _).
  unfold bind at 1.
  destruct (run_stages _ _ _ _ _ _ _ _ _ w2) as [[a|e] w3] eqn:Est; [| done].
  apply (run_stages_dry _ c _ _ _ _ _ _ _ eq_refl) in Est. subst w3.
  rewrite bind_dry. unfold bind at 1. unfold copy_results at 1.
  unfold bind at 1.
  destruct (fpaths_to_copy _ _ _ _) as [[copies|e] w4] eqn:Ef; [| done].
  pose proof (fpaths_to_copy_world _ _ _ _ _ _ Ef) as ->.
  rewrite for_each_dry. rewrite bind_dry. rewrite timestamp_dry.
  intros [= <-]. exists a, copies. split.
  - intros Hs. rewrite Hs in Ef. by apply fpaths_to_copy_subset in Ef.
  - cbn [snd w_log w_fs]. rewrite Elog2.
    subst w1. cbn [w_log].
    unfold planned_invocations. cbn [tl].
    rewrite (stage_commands_head c ps ts tmp a).
    rewrite !fmap_app, !fmap_cons. cbn [fmap list_fmap].
    rewrite <- list_fmap_compose.
    rewrite <- !app_assoc. reflexivity.
Qed.

Lemma printed_commands_echo_run l :
  printed_commands (echo_run <$> l) = command_line <$> l.
Proof.
  induction l as [|x l IH]; [done |]. rewrite !fmap_cons, <- IH. reflexivity.
Qed.

Lemma handled_raises e w : (handled e w).1 <> Return tt.
Proof. unfold handled, failed. by destruct (is_Exception e). Qed.

(** C3, amended. In a dry run no external process is ever executed; each
    call of the command runner prints exactly the assembled command line
    of its invocation, whatever the verbosity; and a dry run that goes
    through prints the planned invocations in stage order, one line each:
    its log is the first timestamp, the creation of the workspace, the
    stage commands, listings and copies, the last timestamp, and the
    removal of the workspace. *)
Theorem dry_run_prints_plan (c : Config) (fs : FS) :
  opt_dry_run c = true ->
  let r := run_dbm_minc os c (initial fs) in
  execs (w_log r.2) = [] /\
  (forall verbosity args stdout w,
     run_command os verbosity true args stdout false w =
     (Return tt, mkWorld (w_fs w) (w_log w ++ [echo_run args]))) /\
  (r.1 = Return tt ->
   exists ps ts tmp sub a copies,
     (forall w, process_paths os c w = (Return ps, w)) /\
     sub = Path.joinpath (dpath_out ps)
             (Path.stem (materialized tmp (fpath_nifti ps))) /\
     (opt_save_all c = false ->
      copies = [fpath_denoised a; fpath_mask a; fpath_extracted a;
                fpath_nonlinear a; fpath_dbm_nii a]) /\
     w_log r.2 =
       (echo_run [AStr "date"] :: Mkdtemp tmp ::
        (echo_run <$> tl (planned_invocations c ps ts tmp sub a copies))
        ++ [Cleanup tmp])%list /\
     printed_commands (w_log r.2) =
       command_line <$> planned_invocations c ps ts tmp sub a copies).
Proof.
  intros Hdry r. split_and!.
  - destruct (run_no_exec_dry os c Hdry (initial fs)) as (evs & E & H).
    fold r in E. simpl in E. by rewrite E.
  - intros. apply dry_step.
  - subst r. rewrite run_unfold, Hdry, timestamp_dry.
    destruct (process_paths_cases os c)
      as [(ps & E & _) | [E | [(E & _ & _) | (E & _)]]]; rewrite E;
      try (intros H; by apply handled_raises in H).
    rewrite check_paths_spec.
    destruct (first_failed_check _ _ _);
      [intros H; by apply (handled_raises (SystemExit 1)) in H |].
    cbv zeta. set (ts := mkTemplates _ _).
    unfold with_TemporaryDirectory. cbn [w_fs w_log initial].
    set (tmp := Path.of_string _). set (w3 := mkWorld _ _).
    pose proof (pipeline_dry (effective_verbosity c) c ps ts tmp w3) as Hp.
    cbv zeta in Hp.
    destruct (pipeline os _ true c ps ts tmp w3) as [[[]|e] w4];
      [| intros H; by apply handled_raises in H].
    intros _. destruct (Hp eq_refl) as (a & copies & Hsub & Hlog).
    eexists ps, ts, tmp, _, a, copies.
    split; [done |]. split; [reflexivity |]. split; [done |].
    cbn [snd w_log] in *. rewrite Hlog. subst w3. cbn [w_log].
    split; [by rewrite <- !app_assoc |].
    rewrite !printed_commands_app, printed_commands_echo_run.
    change (printed_commands [Cleanup tmp]) with (@nil string).
    rewrite app_nil_r. reflexivity.
Qed.

End DryRun.

(** ** The statements at work on the example installation *)

(** The original wording of C3 lets the verbosity decide what a dry run
    prints; with [--quiet] the verbosity is 0 and the command lines are
    printed all the same. *)
Lemma quiet_dry_run_prints_counterexample :
  let c := Ex.cfg Ex.scan false false true true in
  let r := run_dbm_minc Ex.os_ok c (initial Ex.fs) in
  opt_dry_run c = true /\ opt_quiet c = true /\ effective_verbosity c = 0 /\
  r.1 = Return tt /\
  List.length (printed_commands (w_log r.2)) = 19%nat /\
  printed_commands (w_log r.2) !! 2%nat
  = Some "nii2mnc /tmp/tmpk3v9/scan001.nii /tmp/tmpk3v9/scan001.mnc".
Proof. vm_compute. by split_and!. Qed.

Lemma dry_run_prints_plan_witness :
  let c := Ex.cfg Ex.scan false false true true in
  let r := run_dbm_minc Ex.os_ok c (initial Ex.fs) in
  opt_dry_run c = true /\
  execs (w_log r.2) = [] /\
  forall verbosity args stdout w,
    run_command Ex.os_ok verbosity true args stdout false w =
    (Return tt, mkWorld (w_fs w) (w_log w ++ [echo_run args])).
Proof.
  intros c r.
  assert (Hdry : opt_dry_run c = true) by reflexivity.
  destruct (dry_run_prints_plan Ex.os_ok c Ex.fs Hdry) as (Hx & Hrun & _).
  split; [exact Hdry |]. split; [exact Hx | exact Hrun].
Defined.

Lemma output_conflict_witness :
  let c := Ex.cfg Ex.scan false false false false in
  let ps := mkPaths (Ex.P Ex.scan) (Ex.P "/out")
              (Ex.P "/share/icbm152_model_09c")
              (Ex.P "/share/beast-library-1.1") in
  let ts := mkTemplates
              (Ex.P "/share/icbm152_model_09c/mni_icbm152_t1_tal_nlin_sym_09c.mnc")
              (Ex.P "/share/icbm152_model_09c/mni_icbm152_t1_tal_nlin_sym_09c_mask.mnc") in
  let tmp := Ex.P "/tmp/tmpk3v9" in
  let raw := Ex.P "/tmp/tmpk3v9/scan001.nii" in
  let sub := Ex.P "/out/scan001" in
  let w := mkWorld (<[tmp := Dir]> (Ex.fs_with_output ["old.mnc"])) [] in
  let m := materialize Ex.os_ok 2 false tmp (fpath_nifti ps) w in
  let r := pipeline Ex.os_ok 2 false c ps ts tmp w in
  m.1 = Return raw /\
  w_fs m.2 !! Path.joinpath (dpath_out ps) (Path.stem raw) = Some Dir /\
  opt_overwrite c = false /\
  children (w_fs m.2) sub <> [] /\
  r.1 = Raise (SystemExit 1) /\
  w_log r.2 = (w_log m.2 ++ [Echo PREFIX_ERR (OutputDirExists sub) "red" false])%list /\
  error_kind (OutputDirExists sub) = Some OutputConflict /\
  w_fs r.2 = w_fs m.2.
Proof.
  intros c ps ts tmp raw sub w m r.
  assert (Hm : m.1 = Return raw) by (vm_compute; reflexivity).
  assert (Hdir : w_fs m.2 !! Path.joinpath (dpath_out ps) (Path.stem raw)
                 = Some Dir) by (vm_compute; reflexivity).
  assert (How : opt_overwrite c = false) by reflexivity.
  assert (Hne : children (w_fs m.2) sub <> [])
    by (vm_compute; intros H; discriminate H).
  split; [exact Hm |]. split; [exact Hdir |]. split; [exact How |].
  split; [exact Hne |].
  exact (proj1 (output_conflict Ex.os_ok 2 false c ps ts tmp raw w Hm Hdir)
           How Hne).
Defined.

(** The original wording of C6 fails on an output subdirectory that exists
    and is empty: without the overwrite flag the run goes on and copies
    its five files into it. *)
Lemma empty_output_dir_counterexample :
  let c := Ex.cfg Ex.scan false false false false in
  let fs := Ex.fs_with_output [] in
  let r := run_dbm_minc Ex.os_ok c (initial fs) in
  fs !! Ex.P "/out/scan001" = Some Dir /\
  children fs (Ex.P "/out/scan001") = [] /\
  opt_overwrite c = false /\
  r.1 = Return tt /\
  List.filter (fun a => bool_decide (head a = Some "cp")) (execs (w_log r.2))
  = [["cp"; "-vfp"; "/tmp/tmpk3v9/scan001.denoised.mnc"; "/out/scan001"];
     ["cp"; "-vfp"; "/tmp/tmpk3v9/scan001.denoised.norm.mask.mnc";
      "/out/scan001"];
     ["cp"; "-vfp"; "/tmp/tmpk3v9/scan001.denoised.norm.extracted.mnc";
      "/out/scan001"];
     ["cp"; "-vfp"; "/tmp/tmpk3v9/scan001.denoised.norm.extracted.nl.mnc";
      "/out/scan001"];
     ["cp"; "-vfp";
      "/tmp/tmpk3v9/scan001.denoised.norm.extracted.nl.dbm.reshaped.nii";
      "/out/scan001"]].
Proof. vm_compute. by split_and!. Qed.

Lemma output_dir_policy_witness :
  let out := Ex.P "/out" in
  let raw := Ex.P "/tmp/tmpk3v9/scan001.nii" in
  let sub := Ex.P "/out/scan001" in
  let w := initial (Ex.fs_with_output []) in
  let m := make_output_dir false out raw w in
  fs_wf (w_fs w) /\
  m.1 = Return sub /\
  sub = Path.joinpath out (Path.stem raw) /\
  ((w_fs w !! sub = None /\ w_fs m.2 !! sub = Some Dir /\
    children (w_fs m.2) sub = []) \/
   (w_fs w !! sub = Some Dir /\ m.2 = w /\
    (false = true \/ children (w_fs w) sub = []))).
Proof.
  intros out raw sub w m.
  assert (Hwf : fs_wf (w_fs w)).
  { split.
    - intros []; vm_compute; reflexivity.
    - refine (@bool_decide_unpack _ (map_Forall_dec _ _) _).
      vm_compute. exact I. }
  assert (Hm : m.1 = Return sub) by (vm_compute; reflexivity).
  split; [exact Hwf |]. split; [exact Hm |].
  exact (proj1 (output_dir_policy false out raw sub w Hwf) Hm).
Defined.

Lemma materialize_stage_witness :
  let nifti := Ex.P "/data/scan001.nii.gz" in
  let tmp := Ex.P "/tmp/tmpk3v9" in
  let w := mkWorld (<[tmp := Dir]> Ex.fs) [] in
  let m := materialize Ex.os_ok 2 false tmp nifti w in
  wf_path nifti /\
  Str.endswith (Path.str nifti) (EXT_NIFTI +:+ EXT_GZIP) = true /\
  exists base,
    Path.name nifti = base +:+ EXT_GZIP /\
    let raw := Path.joinpath tmp base in
    Path.parent raw = tmp /\ Path.name raw = base /\
    (forall p, m.1 = Return p -> p = raw) /\
    exists evs,
      w_log m.2 = (w_log w ++ evs)%list /\
      execs evs = [["zcat"; Path.str nifti]] /\
      forall a o x, Exec a o x ∈ evs -> o = ToFile raw.
Proof.
  intros nifti tmp w m.
  assert (Hwf : wf_path nifti) by apply of_string_wf.
  assert (Hend : Str.endswith (Path.str nifti) (EXT_NIFTI +:+ EXT_GZIP) = true)
    by (vm_compute; reflexivity).
  split; [exact Hwf |]. split; [exact Hend |].
  exact (proj1 (materialize_stage Ex.os_ok 2 false tmp nifti w Hwf) Hend).
Defined.

Lemma copy_set_witness :
  let c := Ex.cfg Ex.scan false false false false in
  let ps := mkPaths (Ex.P Ex.scan) (Ex.P "/out")
              (Ex.P "/share/icbm152_model_09c")
              (Ex.P "/share/beast-library-1.1") in
  let ts := mkTemplates
              (Ex.P "/share/icbm152_model_09c/mni_icbm152_t1_tal_nlin_sym_09c.mnc")
              (Ex.P "/share/icbm152_model_09c/mni_icbm152_t1_tal_nlin_sym_09c_mask.mnc") in
  let tmp := Ex.P "/tmp/tmpk3v9" in
  let raw_nii := Ex.P "/tmp/tmpk3v9/scan001.nii" in
  let sub := Ex.P "/out/scan001" in
  let w := mkWorld (<[tmp := Dir]> Ex.fs) [] in
  let a := mkArtifacts
    (Ex.P "/tmp/tmpk3v9/scan001.mnc")
    (Ex.P "/tmp/tmpk3v9/scan001.denoised.mnc")
    (Ex.P "/tmp/tmpk3v9/scan001.denoised.norm.mnc")
    (Ex.P "/tmp/tmpk3v9/scan001.denoised.norm.xfm")
    (Ex.P "/tmp/tmpk3v9/scan001.denoised.norm.mask.mnc")
    (Ex.P "/tmp/tmpk3v9/scan001.denoised.norm.extracted.mnc")
    (Ex.P "/tmp/tmpk3v9/scan001.denoised.norm.extracted.nl.mnc")
    (Ex.P "/tmp/tmpk3v9/scan001.denoised.norm.extracted.nl.xfm")
    (Ex.P "/tmp/tmpk3v9/scan001.denoised.norm.extracted.nl.dbm.mnc")
    (Ex.P "/tmp/tmpk3v9/scan001.denoised.norm.extracted.nl.dbm.reshaped.mnc")
    (Ex.P "/tmp/tmpk3v9/scan001.denoised.norm.extracted.nl.dbm.reshaped.nii") in
  let five := [fpath_denoised a; fpath_mask a; fpath_extracted a;
               fpath_nonlinear a; fpath_dbm_nii a] in
  wf_path tmp /\ wf_path raw_nii /\
  (run_stages Ex.os_ok 2 false (opt_template_prefix c) (opt_beast_conf c)
     ps ts tmp raw_nii w).1 = Return a /\
  (forall w', fpaths_to_copy false tmp a w' = (Return five, w')) /\
  NoDup five /\
  (forall p, p ∈ [raw_nii; fpath_raw a; fpath_norm a; fpath_norm_transform a;
                  fpath_nonlinear_transform a; fpath_dbm a;
                  fpath_dbm_reshaped a] -> p ∉ five).
Proof.
  intros c ps ts tmp raw_nii sub w a five.
  assert (Htmp : wf_path tmp) by apply of_string_wf.
  assert (Hraw : wf_path raw_nii) by apply of_string_wf.
  assert (Hrun : (run_stages Ex.os_ok 2 false (opt_template_prefix c)
                    (opt_beast_conf c) ps ts tmp raw_nii w).1 = Return a)
    by (vm_compute; reflexivity).
  destruct (copy_set Ex.os_ok 2 false _ _ ps ts tmp raw_nii sub w a
              Htmp Hraw Hrun) as (H1 & _ & H3 & H4 & _).
  split; [exact Htmp |]. split; [exact Hraw |]. split; [exact Hrun |].
  split; [exact H1 |]. split; [exact H3 | exact H4].
Defined.

(** The original wording of C2 fails on a real run with a missing scan:
    the run ends with a validation error, but [date] has been executed
    before the checks. *)
Lemma validation_before_any_command_counterexample :
  let c := Ex.cfg "/data/missing.nii" false false false false in
  let r := run_dbm_minc Ex.os_ok c (initial Ex.fs) in
  r.1 = Raise (SystemExit 1) /\
  errors (w_log r.2) = [NiftiNotFound (Ex.P "/data/missing.nii")] /\
  error_kind (NiftiNotFound (Ex.P "/data/missing.nii")) = Some InvalidInput /\
  execs (w_log r.2) = [["date"]] /\
  ~ execs (w_log r.2) = [].
Proof. vm_compute. by split_and!. Qed.

Lemma validation_before_stages_witness :
  let c := Ex.cfg "/data/missing.nii" false false false false in
  let stamp := timestamp Ex.os_ok (opt_verbosity c) (opt_dry_run c)
                 (initial Ex.fs) in
  let r := run_dbm_minc Ex.os_ok c (initial Ex.fs) in
  stamp.1 = Return tt /\
  ((exists ps ts,
      check_paths (opt_template_prefix c) ps stamp.2 = (Return ts, stamp.2) /\
      present (w_fs stamp.2) (fpath_nifti ps) = true) \/
   (exists msg kind,
      r.1 = Raise (SystemExit 1) /\
      errors (w_log r.2) = [msg] /\
      error_kind msg = Some kind /\
      execs (w_log r.2) = execs (w_log stamp.2) /\
      (execs (w_log stamp.2) = [] \/ execs (w_log stamp.2) = [["date"]]))).
Proof.
  intros c stamp r.
  assert (Hst : stamp.1 = Return tt) by (vm_compute; reflexivity).
  split; [exact Hst |].
  destruct (validation_before_stages Ex.os_ok c Ex.fs Hst)
    as [(ps & ts & _ & Hc & Hn & _) | H]; [left | right; exact H].
  exists ps, ts. split; [exact Hc | exact Hn].
Defined.

Lemma template_dir_from_table_witness :
  let c := mkConfig Ex.scan "/out" (Some "/share") None "no_such_template"
             None DEFAULT_BEAST_CONF false false true DEFAULT_VERBOSITY false in
  let stamp := timestamp Ex.os_ok (opt_verbosity c) (opt_dry_run c)
                 (initial Ex.fs) in
  let r := run_dbm_minc Ex.os_ok c (initial Ex.fs) in
  stamp.1 = Return tt /\
  opt_dpath_templates c = None /\
  DNAME_TEMPLATE_MAP !! opt_template_prefix c = None /\
  exists msg,
    r.1 = Raise (SystemExit 1) /\ exit_code r.1 <> 0 /\
    errors (w_log r.2) = [msg] /\
    error_kind msg = Some ConfigurationError /\
    execs (w_log r.2) = execs (w_log stamp.2).
Proof.
  intros c stamp r.
  assert (Hst : stamp.1 = Return tt) by (vm_compute; reflexivity).
  assert (Hnone : opt_dpath_templates c = None) by reflexivity.
  assert (Hkey : DNAME_TEMPLATE_MAP !! opt_template_prefix c = None)
    by (vm_compute; reflexivity).
  split; [exact Hst |]. split; [exact Hnone |]. split; [exact Hkey |].
  exact (proj2 (template_dir_from_table Ex.os_ok c Ex.fs Hst Hnone) Hkey).
Defined.

Lemma dry_run_validates_witness :
  let c := Ex.cfg "/data/missing.nii" false false true false in
  let ps := mkPaths (Ex.P "/data/missing.nii") (Ex.P "/out")
              (Ex.P "/share/icbm152_model_09c")
              (Ex.P "/share/beast-library-1.1") in
  let r := run_dbm_minc Ex.os_ok c (initial Ex.fs) in
  opt_dry_run c = true /\
  (process_paths Ex.os_ok c (initial Ex.fs)).1 = Return ps /\
  present Ex.fs (fpath_nifti ps) = false /\
  exists msg,
    first_failed_check Ex.fs (opt_template_prefix c) ps = Some msg /\
    (present Ex.fs (fpath_nifti ps) = false ->
     msg = NiftiNotFound (fpath_nifti ps)) /\
    r.1 = Raise (SystemExit 1) /\ exit_code r.1 <> 0 /\
    errors (w_log r.2) = [msg] /\
    execs (w_log r.2) = [] /\
    forall w1,
      timestamp Ex.os_ok (opt_verbosity c) false (initial Ex.fs)
        = (Return tt, w1) ->
      w_fs w1 = Ex.fs ->
      let r' := run_dbm_minc Ex.os_ok (with_dry_run false c) (initial Ex.fs) in
      r'.1 = r.1 /\ errors (w_log r'.2) = errors (w_log r.2) /\
      execs (w_log r'.2) = [["date"]].
Proof.
  intros c ps r.
  assert (Hdry : opt_dry_run c = true) by reflexivity.
  assert (Hps : (process_paths Ex.os_ok c (initial Ex.fs)).1 = Return ps)
    by (vm_compute; reflexivity).
  assert (Habs : present Ex.fs (fpath_nifti ps) = false)
    by (vm_compute; reflexivity).
  split; [exact Hdry |]. split; [exact Hps |]. split; [exact Habs |].
  exact (dry_run_validates Ex.os_ok c Ex.fs ps Hdry Hps (or_introl Habs)).
Defined.

(** ** Reasoning about what is printed *)

Section CompLogs.
Context {P : list event -> option exn -> Prop} `{!Composable P}.

Lemma clogs_ret {A} (a : A) : logs P (ret a).
Proof.
  intros w. exists []. simpl. rewrite app_nil_r.
  split; [done | apply comp_silent].
Qed.

Lemma clogs_lift {A} (r : outcome A) : no_exit r -> logs P (lift r).
Proof.
  intros H w. exists []. simpl. rewrite app_nil_r. split; [done |].
  destruct r; simpl; [apply comp_silent | by apply comp_raise].
Qed.

Lemma clogs_bind {A B} (m : M A) (k : A -> M B) :
  logs P m -> (forall a, logs P (k a)) -> logs P (bind m k).
Proof.
  intros Hm Hk w. unfold bind. destruct (Hm w) as (evs1 & E1 & P1).
  destruct (m w) as [[a|e] w1]; simpl in *.
  - destruct (Hk a w1) as (evs2 & E2 & P2).
    exists (evs1 ++ evs2)%list. rewrite E2, E1, app_assoc.
    split; [done | by apply comp_app].
  - by exists evs1.
Qed.

Lemma clogs_when b m : logs P m -> logs P (when b m).
Proof. destruct b; [done | intros _; apply clogs_ret]. Qed.

Lemma clogs_for_each {A} (l : list A) f :
  (forall x, logs P (f x)) -> logs P (for_each l f).
Proof.
  intros Hf. induction l as [|x l IH]; simpl; [apply clogs_ret |].
  apply clogs_bind; [apply Hf | intros _; apply IH].
Qed.

Lemma clogs_try_except {A} (m : M A) catches h :
  (forall e, catches e = true -> is_Exception e = true) ->
  logs P m -> (forall e, logs P (h e)) -> logs P (try_except m catches h).
Proof.
  intros Hc Hm Hh w. unfold try_except. destruct (Hm w) as (evs1 & E1 & P1).
  destruct (m w) as [[a|e] w1]; simpl in *; [by exists evs1 |].
  destruct (catches e) eqn:Ec; [| by exists evs1].
  destruct (Hh e w1) as (evs2 & E2 & P2).
  exists (evs1 ++ evs2)%list. rewrite E2, E1, app_assoc.
  split; [done |]. apply comp_app; [| done].
  eapply comp_caught; [by apply Hc | done].
Qed.

Lemma clogs_print_error_and_exit {A} msg :
  is_report msg = true -> logs P (print_error_and_exit (A := A) msg 1).
Proof. intros H w. eexists. split; [done |]. by apply comp_exit. Qed.

Lemma clogs_path_exists p : logs P (path_exists p).
Proof.
  intros w. exists []. simpl. rewrite app_nil_r.
  split; [done | apply comp_silent].
Qed.

Lemma clogs_iterdir p : logs P (iterdir p).
Proof.
  intros w. exists []. unfold iterdir.
  destruct (w_fs w !! p) as [[]|]; simpl; rewrite app_nil_r;
    (split; [done |]); first [apply comp_silent | by apply comp_raise].
Qed.

Lemma clogs_mkdir p b : logs P (mkdir p b).
Proof.
  intros w. exists []. unfold mkdir.
  destruct (w_fs w !! p) as [[]|]; [| destruct b |]; simpl; rewrite app_nil_r;
    (split; [done |]); first [apply comp_silent | by apply comp_raise].
Qed.

Lemma clogs_open_wb p : logs P (open_wb p).
Proof.
  intros w. exists []. simpl. rewrite app_nil_r.
  split; [done | apply comp_silent].
Qed.

End CompLogs.

(** The pure steps of the script raise no [SystemExit]. *)
Lemma process_path_no_exit os s : no_exit (process_path os s).
Proof.
  unfold process_path, expanduser.
  destruct (Path.root _); [done |]. destruct (Path.tail _); [done |].
  destruct (Str.startswith "~" _); [| done].
  by destruct (Str.startswith "~" _).
Qed.

Lemma template_dname_no_exit key : no_exit (template_dname key).
Proof. unfold template_dname. by destruct (_ !! _). Qed.

Lemma truediv_no_exit d s : no_exit (truediv d s).
Proof. by destruct d. Qed.

Lemma with_suffix_no_exit p sfx : no_exit (with_suffix p sfx).
Proof. unfold with_suffix. by destruct (Path.with_suffix _ _). Qed.

(** *** The script, phase by phase *)

Section ProgramCompLogs.
Context (os : OS) {P : list event -> option exn -> Prop} `{!Composable P}.

Ltac clogs_step :=
  lazy zeta;
  match goal with
  | |- logs _ (ret _) => apply clogs_ret
  | |- logs _ (print_error_and_exit _ _) =>
      apply clogs_print_error_and_exit; reflexivity
  | |- logs _ (path_exists _) => apply clogs_path_exists
  | |- logs _ (iterdir _) => apply clogs_iterdir
  | |- logs _ (mkdir _ _) => apply clogs_mkdir
  | |- logs _ (open_wb _) => apply clogs_open_wb
  | |- logs _ (when _ _) => apply clogs_when
  | |- logs _ (for_each _ _) => apply clogs_for_each; intros ?
  | |- logs _ (bind _ _) => apply clogs_bind; [| intros ?]
  | |- logs _ (lift _) =>
      apply clogs_lift;
      match goal with
      | |- no_exit (process_path _ _) => apply process_path_no_exit
      | |- no_exit (template_dname _) => apply template_dname_no_exit
      | |- no_exit (truediv _ _) => apply truediv_no_exit
      | |- no_exit (with_suffix _ _) => apply with_suffix_no_exit
      end
  end.

Lemma clogs_process_paths c : logs P (process_paths os c).
Proof.
  unfold process_paths.
  destruct (opt_dpath_share c), (opt_dpath_templates c),
    (opt_dpath_beast_lib c); repeat clogs_step.
Qed.

Lemma clogs_check_paths template ps : logs P (check_paths template ps).
Proof. unfold check_paths. repeat clogs_step. Qed.

Ltac script_call_tac :=
  unfold script_call; first [congruence | intros _; reflexivity].

Section Body.
Context (verbosity : Z) (dry_run : bool).
Hypothesis Hrun : forall args stdout,
  script_call args stdout ->
  logs P (run_command os verbosity dry_run args stdout false).

Ltac cbody_step :=
  match goal with
  | |- logs _ (run_command _ _ _ _ _ _) => apply Hrun; script_call_tac
  | _ => clogs_step
  end.

Lemma clogs_materialize tmp nifti :
  logs P (materialize os verbosity dry_run tmp nifti).
Proof.
  unfold materialize. destruct (String.eqb _ _); repeat cbody_step.
Qed.

Lemma clogs_make_output_dir overwrite out raw_nii :
  logs P (make_output_dir overwrite out raw_nii).
Proof.
  unfold make_output_dir. lazy zeta.
  apply clogs_bind; [| intros; apply clogs_ret].
  apply clogs_try_except; [by intros [] | apply clogs_mkdir |].
  intros _. repeat clogs_step.
Qed.

Lemma clogs_run_stages template conf ps ts tmp raw_nii :
  logs P (run_stages os verbosity dry_run template conf ps ts tmp raw_nii).
Proof. unfold run_stages. repeat cbody_step. Qed.

Lemma clogs_copy_results save_all tmp a sub :
  logs P (copy_results os verbosity dry_run save_all tmp a sub).
Proof.
  unfold copy_results, fpaths_to_copy.
  destruct save_all; repeat cbody_step.
Qed.

Lemma clogs_pipeline c ps ts tmp :
  logs P (pipeline os verbosity dry_run c ps ts tmp).
Proof.
  unfold pipeline.
  apply clogs_bind; [apply clogs_materialize | intros ?].
  apply clogs_bind; [apply clogs_make_output_dir | intros ?].
  apply clogs_bind; [apply clogs_run_stages | intros ?].
  apply clogs_bind; [apply Hrun; script_call_tac | intros ?].
  apply clogs_bind; [apply clogs_copy_results | intros ?].
  apply clogs_bind; [apply Hrun; script_call_tac | intros ?].
  apply Hrun; script_call_tac.
Qed.

End Body.

Lemma clogs_with_TemporaryDirectory {A} (body : Path.t -> M A) :
  (forall d evs s, P evs s -> P (Mkdtemp d :: evs ++ [Cleanup d])%list s) ->
  (forall d, logs P (body d)) -> logs P (with_TemporaryDirectory os body).
Proof.
  intros Htmp Hbody w. unfold with_TemporaryDirectory.
  set (d := Path.of_string _). set (w1 := mkWorld _ _).
  destruct (Hbody d w1) as (evs & E & HP).
  destruct (body d w1) as [r w2]. simpl in *.
  exists (Mkdtemp d :: evs ++ [Cleanup d])%list. split; [| by apply Htmp].
  rewrite E. simpl. by rewrite <- !app_assoc.
Qed.

Lemma clogs_after_timestamp c :
  (forall d evs s, P evs s -> P (Mkdtemp d :: evs ++ [Cleanup d])%list s) ->
  (forall args stdout,
     script_call args stdout ->
     logs P (run_command os (effective_verbosity c) (opt_dry_run c)
               args stdout false)) ->
  logs P (after_timestamp os c).
Proof.
  intros Htmp Hrun. unfold after_timestamp.
  apply clogs_bind; [apply clogs_process_paths | intros ps].
  apply clogs_bind; [apply clogs_check_paths | intros ts].
  apply clogs_with_TemporaryDirectory; [done |].
  intros d. by apply clogs_pipeline.
Qed.

Lemma clogs_handled c :
  (forall d evs s, P evs s -> P (Mkdtemp d :: evs ++ [Cleanup d])%list s) ->
  (forall e, P [traceback_event e] (Some (SystemExit 1))) ->
  (forall args stdout,
     script_call args stdout ->
     logs P (run_command os (effective_verbosity c) (opt_dry_run c)
               args stdout false)) ->
  logs P (try_except (after_timestamp os c) is_Exception on_exception).
Proof.
  intros Htmp Htb Hrun.
  apply clogs_try_except; [done | by apply clogs_after_timestamp |].
  intros e w. eexists. split; [done | apply Htb].
Qed.

Lemma clogs_run_dbm_minc c :
  (forall d evs s, P evs s -> P (Mkdtemp d :: evs ++ [Cleanup d])%list s) ->
  (forall e, P [traceback_event e] (Some (SystemExit 1))) ->
  (forall v args stdout,
     v = opt_verbosity c \/ v = effective_verbosity c ->
     script_call args stdout ->
     logs P (run_command os v (opt_dry_run c) args stdout false)) ->
  logs P (run_dbm_minc os c).
Proof.
  intros Htmp Htb Hrun. unfold run_dbm_minc.
  apply clogs_try_except; [done | |].
  - apply clogs_bind; [apply Hrun; [by left | script_call_tac] | intros _].
    apply clogs_after_timestamp; [done |]. intros. apply Hrun; [by right | done].
  - intros e w. eexists. split; [done | apply Htb].
Qed.

End ProgramCompLogs.

(** The run is the first timestamp followed by the rest of the [try]
    block, each under the handler. *)
Lemma run_after_timestamp os c w :
  run_dbm_minc os c w =
  match timestamp os (opt_verbosity c) (opt_dry_run c) w with
  | (Raise e, w1) => handled e w1
  | (Return _, w1) =>
      try_except (after_timestamp os c) is_Exception on_exception w1
  end.
Proof.
  unfold run_dbm_minc, try_except at 1, bind at 1, after_timestamp.
  destruct (timestamp os _ _ w) as [[[]|e] w1]; [done |].
  unfold handled, failed, on_exception.
  by destruct (is_Exception e).
Qed.

(** *** What [run_command] does, in closed form *)

Lemma run_command_unfold os verbosity dry_run args stdout silent w :
  run_command os verbosity dry_run args stdout silent w =
  let toks := command_tokens args in
  let out := stdout_of verbosity stdout in
  let w0 := mkWorld (w_fs w)
              (w_log w ++ announcement verbosity dry_run silent args) in
  if dry_run then (Return tt, w0)
  else
    let '(res, fs') := os_run os (w_log w0) toks out (w_fs w0) in
    let w1 := mkWorld fs' (w_log w0 ++ [Exec toks out res]) in
    match res with
    | Exited rc =>
        if (rc =? 0)%Z then (Return tt, w1)
        else (Raise (SystemExit rc),
              mkWorld fs'
                (w_log w1 ++
                 [Echo PREFIX_ERR (Returned (command_line args) rc)
                    "red" false]))
    | NotStarted => (Raise (OSError toks), w1)
    end.
Proof.
  unfold run_command, announcement. lazy zeta.
  fold (command_line args). fold (stdout_of verbosity stdout).
  destruct w as [fs log].
  destruct (negb silent && ((0 <? verbosity)%Z || dry_run)) eqn:Eb;
    destruct dry_run; unfold when, bind, ret, echo, emit, subprocess_run;
    cbn [w_fs w_log negb andb String.eqb]; rewrite ?app_nil_r;
    try reflexivity.
  all: destruct (os_run os _ _ _ fs) as [[rc|] fs']; [| reflexivity].
  all: by destruct (rc =? 0)%Z.
Qed.

(** *** Four properties of what is printed and started *)

Lemma errors_report msg :
  is_report msg = true -> errors [Echo PREFIX_ERR msg "red" false] = [msg].
Proof. by destruct msg. Qed.

Lemma printed_commands_report msg :
  is_report msg = true ->
  printed_commands [Echo PREFIX_ERR msg "red" false] = [].
Proof. by destruct msg. Qed.

#[global] Instance disciplined_composable : Composable disciplined.
Proof.
  split.
  - done.
  - by intros [].
  - intros msg H. split; [done |]. exists msg.
    split; [by apply errors_report | by destruct msg].
  - intros evs1 evs2 s H1 H2. simpl in H1.
    destruct s as [[rc| | | | | | | |]|]; simpl in *;
      rewrite ?errors_app, ?H1; try done.
    destruct H2 as (Hrc & msg & E & Hmsg). split; [done |].
    exists msg. split; [done |].
    destruct msg; try done.
    destruct Hmsg as (-> & args & out & -> & Hin).
    split; [done |]. exists args, out. split; [done |].
    apply elem_of_app. by right.
  - by intros evs [].
Qed.

#[global] Instance announced_composable : Composable announced.
Proof.
  split; unfold announced; try done.
  - intros msg H. by rewrite printed_commands_report.
  - intros evs1 evs2 _ H1 H2.
    by rewrite printed_commands_app, execs_app, fmap_app, H1, H2.
Qed.

#[global] Instance unannounced_composable : Composable unannounced.
Proof.
  split; unfold unannounced; try done.
  - intros msg H. by rewrite printed_commands_report.
  - intros evs1 evs2 _ H1 H2. by rewrite printed_commands_app, H1, H2.
Qed.

#[global] Instance routed_composable v : Composable (routed v).
Proof.
  split; unfold routed.
  - intros a o x H. by apply elem_of_nil in H.
  - intros e _ a o x H. by apply elem_of_nil in H.
  - intros msg _ a o x H. by apply list_elem_of_singleton in H.
  - intros evs1 evs2 _ H1 H2 a o x H.
    apply elem_of_app in H as [H|H]; eauto.
  - done.
Qed.

#[global] Instance and_composable P Q `{!Composable P} `{!Composable Q} :
  Composable (fun evs s => P evs s /\ Q evs s).
Proof.
  split.
  - split; apply comp_silent.
  - intros e H. split; by apply comp_raise.
  - intros msg H. split; by apply comp_exit.
  - intros evs1 evs2 s [] []. split; by apply comp_app.
  - intros evs e H []. split; by eapply comp_caught.
Qed.

Section RunCommandProps.
Context (os : OS).

Lemma run_command_disciplined verbosity dry_run args stdout silent :
  logs disciplined (run_command os verbosity dry_run args stdout silent).
Proof.
  intros w. rewrite run_command_unfold. lazy zeta.
  assert (Ha : errors (announcement verbosity dry_run silent args) = []).
  { unfold announcement. by destruct (_ && _). }
  destruct dry_run; [by eexists |]. cbn [w_fs w_log].
  destruct (os_run os _ _ _ _) as [[rc|] fs'].
  - destruct (Z.eqb_spec rc 0) as [->|Hrc]; cbn [fst snd w_log status].
    + eexists. rewrite <- app_assoc. split; [done |]. simpl.
      by rewrite errors_app, Ha.
    + eexists. rewrite <- !app_assoc. split; [done |].
      split; [done |]. eexists. rewrite errors_app, Ha.
      split; [done |]. split; [done |].
      eexists _, _. split; [done |].
      rewrite elem_of_app. right. by left.
  - eexists. cbn [fst snd w_log status]. rewrite <- app_assoc.
    split; [done |]. simpl. by rewrite errors_app, Ha.
Qed.

Lemma run_command_announced verbosity args stdout :
  0 < verbosity ->
  logs announced (run_command os verbosity false args stdout false).
Proof.
  intros Hv w. rewrite run_command_unfold. lazy zeta.
  unfold announcement. cbn [negb andb orb w_fs w_log].
  rewrite orb_false_r.
  destruct (Z.ltb_spec 0 verbosity) as [_|?]; [| lia].
  destruct (os_run os _ _ _ _) as [[rc|] fs'].
  - destruct (rc =? 0)%Z; cbn [fst snd w_log];
      (eexists; rewrite <- !app_assoc; split; [done |]); done.
  - eexists. cbn [fst snd w_log]. rewrite <- app_assoc. split; done.
Qed.

Lemma run_command_unannounced verbosity args stdout :
  verbosity <= 0 ->
  logs unannounced (run_command os verbosity false args stdout false).
Proof.
  intros Hv w. rewrite run_command_unfold. lazy zeta.
  unfold announcement. cbn [negb andb orb w_fs w_log].
  rewrite orb_false_r.
  destruct (Z.ltb_spec 0 verbosity) as [?|_]; [lia |].
  destruct (os_run os _ _ _ _) as [[rc|] fs'].
  - destruct (rc =? 0)%Z; cbn [fst snd w_log];
      (eexists; rewrite <- !app_assoc; split; [done |]); done.
  - eexists. cbn [fst snd w_log]. rewrite <- app_assoc. split; done.
Qed.

Lemma announcement_no_exec verbosity dry_run silent args a o x :
  Exec a o x ∉ announcement verbosity dry_run silent args.
Proof.
  unfold announcement. destruct (_ && _).
  - by intros ?%list_elem_of_singleton.
  - apply not_elem_of_nil.
Qed.

Lemma run_command_routed verbosity dry_run args stdout silent :
  script_call args stdout ->
  logs (routed verbosity)
    (run_command os verbosity dry_run args stdout silent).
Proof.
  intros Hcall w. rewrite run_command_unfold. lazy zeta.
  assert (Hout : stdout_of verbosity stdout = stdout_of verbosity None \/
                 (exists p, stdout_of verbosity stdout = ToFile p) /\
                 head (command_tokens args) = Some "zcat").
  { destruct stdout as [f|]; [right | by left].
    split; [by eexists | by apply Hcall]. }
  destruct dry_run.
  { eexists. split; [done |]. intros a o x H.
    by apply announcement_no_exec in H. }
  cbn [w_fs w_log].
  destruct (os_run os _ _ _ _) as [[rc|] fs'].
  - destruct (rc =? 0)%Z; cbn [fst snd w_log];
      (eexists; rewrite <- !app_assoc; split; [done |]);
      intros a o x; rewrite elem_of_app;
      (intros [H|H]; [by apply announcement_no_exec in H |]);
      repeat (apply elem_of_cons in H as [H|H];
              [first [by injection H as -> -> _ | done] |]);
      by apply elem_of_nil in H.
  - eexists. cbn [fst snd w_log]. rewrite <- app_assoc. split; [done |].
    intros a o x. rewrite elem_of_app.
    intros [H|H]; [by apply announcement_no_exec in H |].
    apply list_elem_of_singleton in H. by injection H as -> -> _.
Qed.

End RunCommandProps.

(** ** How a run ends, what it prints, where the tools write *)

Lemma tmp_bracket_errors d evs :
  errors (Mkdtemp d :: evs ++ [Cleanup d]) = errors evs.
Proof.
  change (Mkdtemp d :: evs ++ [Cleanup d])%list
    with ([Mkdtemp d] ++ evs ++ [Cleanup d])%list.
  rewrite !errors_app. simpl. by rewrite app_nil_r.
Qed.

Lemma tmp_bracket_printed d evs :
  printed_commands (Mkdtemp d :: evs ++ [Cleanup d]) = printed_commands evs.
Proof.
  change (Mkdtemp d :: evs ++ [Cleanup d])%list
    with ([Mkdtemp d] ++ evs ++ [Cleanup d])%list.
  rewrite !printed_commands_app. simpl. by rewrite app_nil_r.
Qed.

Lemma tmp_bracket_execs d evs :
  execs (Mkdtemp d :: evs ++ [Cleanup d]) = execs evs.
Proof.
  change (Mkdtemp d :: evs ++ [Cleanup d])%list
    with ([Mkdtemp d] ++ evs ++ [Cleanup d])%list.
  rewrite !execs_app. simpl. by rewrite app_nil_r.
Qed.

Lemma tmp_bracket_exec d evs a o x :
  Exec a o x ∈ (Mkdtemp d :: evs ++ [Cleanup d])%list <-> Exec a o x ∈ evs.
Proof.
  rewrite elem_of_cons, elem_of_app, list_elem_of_singleton.
  split; [| intros H; right; by left].
  intros [H|[H|H]]; [discriminate | done | discriminate].
Qed.

Lemma tmp_bracket_disciplined d evs s :
  disciplined evs s -> disciplined (Mkdtemp d :: evs ++ [Cleanup d])%list s.
Proof.
  unfold disciplined. rewrite tmp_bracket_errors.
  destruct s as [[rc| | | | | | | |]|]; try done.
  intros (Hrc & msg & E & Hmsg). split; [done |]. exists msg.
  split; [done |]. destruct msg; try done.
  destruct Hmsg as (-> & args & out & -> & Hin).
  split; [done |]. exists args, out. split; [done |].
  by apply tmp_bracket_exec.
Qed.

Lemma tmp_bracket_routed v d evs s :
  routed v evs s -> routed v (Mkdtemp d :: evs ++ [Cleanup d])%list s.
Proof. intros H a o x Hin. apply tmp_bracket_exec in Hin. eauto. Qed.

Lemma traceback_disciplined e :
  disciplined [traceback_event e] (Some (SystemExit 1)).
Proof. split; [done |]. by eexists. Qed.

Lemma traceback_routed v e s : routed v [traceback_event e] s.
Proof. intros a o x H. by apply list_elem_of_singleton in H. Qed.

(** No [Exception] leaves [run_dbm_minc]. *)
Lemma run_raises os c w e :
  (run_dbm_minc os c w).1 = Raise e -> exists rc, e = SystemExit rc.
Proof.
  unfold run_dbm_minc, try_except.
  match goal with |- context [let (_, _) := ?m w in _] =>
    destruct (m w) as [[[]|e'] w'] end; [done |].
  destruct e'; simpl; intros [= <-]; by eexists.
Qed.

(** X1. Every run ends in one of two ways.  Either the function returns,
    the exit code is 0 and no error message was printed; or [SystemExit]
    leaves it with a nonzero code, of which the process keeps the low
    eight bits as its status, and exactly one error message was
    printed: the report of a command that returned this very code, or
    else a message of the script and the code is 1.  No other exception
    leaves the function. *)
Theorem exit_discipline (os : OS) (c : Config) (fs : FS) :
  let r := run_dbm_minc os c (initial fs) in
  (r.1 = Return tt /\ exit_code r.1 = 0 /\ errors (w_log r.2) = []) \/
  (exists rc msg,
     r.1 = Raise (SystemExit rc) /\ exit_code r.1 = rc mod 256 /\
     rc <> 0 /\
     errors (w_log r.2) = [msg] /\
     match msg with
     | Returned line rc' =>
         rc' = rc /\
         exists args out,
           line = Str.join " " args /\
           Exec args out (Exited rc) ∈ w_log r.2
     | CommandLine _ => False
     | _ => rc = 1
     end).
Proof.
  intros r.
  destruct (clogs_run_dbm_minc os (P := disciplined) c
              tmp_bracket_disciplined traceback_disciplined
              (fun v a o _ _ => run_command_disciplined os v _ a o false)
              (initial fs)) as (evs & E & D).
  fold r in E, D. simpl in E. rewrite <- E in D. clear E evs.
  pose proof (run_raises os c (initial fs)) as Hr. fold r in Hr.
  destruct r.1 as [[]|e].
  - left. done.
  - right. destruct (Hr e eq_refl) as [rc ->].
    destruct D as (Hrc & msg & E & Hmsg). by exists rc, msg.
Qed.

(** X2. A real run without [--quiet] prints, from verbosity 1 on, the
    command line of every process it starts, just before starting it and
    also when the process then fails or cannot be started: the printed
    command lines are the token lists of the started processes joined by
    spaces, in order.  At verbosity 0 or below it prints none. *)
Theorem real_run_announces (os : OS) (c : Config) (fs : FS) :
  opt_dry_run c = false -> opt_quiet c = false ->
  let r := run_dbm_minc os c (initial fs) in
  printed_commands (w_log r.2) =
  if (0 <? opt_verbosity c)%Z then Str.join " " <$> execs (w_log r.2)
  else [].
Proof.
  intros Hdry Hq r.
  assert (Hv : effective_verbosity c = opt_verbosity c).
  { unfold effective_verbosity. by rewrite Hq. }
  destruct (Z.ltb_spec 0 (opt_verbosity c)) as [Hpos|Hneg].
  - destruct (clogs_run_dbm_minc os (P := announced) c) with (w := initial fs)
      as (evs & E & D).
    + unfold announced. intros d evs _ H.
      by rewrite tmp_bracket_printed, tmp_bracket_execs.
    + done.
    + intros v a o [->| ->] _; rewrite Hdry, ?Hv;
        by apply run_command_announced.
    + fold r in E. simpl in E. by rewrite E.
  - destruct (clogs_run_dbm_minc os (P := unannounced) c) with (w := initial fs)
      as (evs & E & D).
    + unfold unannounced. intros d evs _ H. by rewrite tmp_bracket_printed.
    + done.
    + intros v a o [->| ->] _; rewrite Hdry, ?Hv;
        by apply run_command_unannounced.
    + fold r in E. simpl in E. by rewrite E.
Qed.

Lemma real_run_announces_witness :
  let c := Ex.cfg Ex.scan false false false false in
  let r := run_dbm_minc (Ex.os_failing "mincbeast" 2) c (initial Ex.fs) in
  opt_dry_run c = false /\ opt_quiet c = false /\
  (0 <? opt_verbosity c)%Z = true /\
  List.length (execs (w_log r.2)) = 6%nat /\
  printed_commands (w_log r.2) = Str.join " " <$> execs (w_log r.2).
Proof.
  intros c r.
  assert (Hdry : opt_dry_run c = false) by reflexivity.
  assert (Hq : opt_quiet c = false) by reflexivity.
  split; [exact Hdry |]. split; [exact Hq |]. split; [reflexivity |].
  split; [vm_compute; reflexivity |].
  exact (real_run_announces (Ex.os_failing "mincbeast" 2) c Ex.fs Hdry Hq).
Defined.

(** X3. Without [--quiet], every process of a run writes to the terminal
    of the script when the verbosity is 2 or more and to [DEVNULL] when
    it is less; the only exception is [zcat], whose output goes to a
    file. *)
Theorem output_routing (os : OS) (c : Config) (fs : FS)
    (a : list string) (o : stream) (x : proc_result) :
  opt_quiet c = false ->
  let r := run_dbm_minc os c (initial fs) in
  Exec a o x ∈ w_log r.2 ->
  o = (if (opt_verbosity c <? 2)%Z then DEVNULL else Inherit) \/
  (exists p, o = ToFile p) /\ head a = Some "zcat".
Proof.
  intros Hq r Hin.
  assert (Hv : effective_verbosity c = opt_verbosity c).
  { unfold effective_verbosity. by rewrite Hq. }
  destruct (clogs_run_dbm_minc os (P := routed (opt_verbosity c)) c)
    with (w := initial fs) as (evs & E & D).
  - apply tmp_bracket_routed.
  - intros e. apply traceback_routed.
  - intros v args out [->| ->] Hcall; rewrite ?Hv;
      by apply run_command_routed.
  - fold r in E. simpl in E. rewrite E in Hin. exact (D a o x Hin).
Qed.

Lemma output_routing_witness :
  let c := Ex.cfg Ex.scan false false false false in
  let r := run_dbm_minc Ex.os_ok c (initial Ex.fs) in
  let raw := Ex.P "/tmp/tmpk3v9/scan001.nii" in
  opt_quiet c = false /\
  Exec ["zcat"; Ex.scan] (ToFile raw) (Exited 0) ∈ w_log r.2 /\
  (ToFile raw = (if (opt_verbosity c <? 2)%Z then DEVNULL else Inherit) \/
   (exists p, ToFile raw = ToFile p) /\
   head ["zcat"; Ex.scan] = Some "zcat").
Proof.
  intros c r raw.
  assert (Hq : opt_quiet c = false) by reflexivity.
  assert (Hin : Exec ["zcat"; Ex.scan] (ToFile raw) (Exited 0) ∈ w_log r.2).
  { apply list_elem_of_lookup. exists 4%nat. vm_compute. reflexivity. }
  split; [exact Hq |]. split; [exact Hin |].
  exact (output_routing Ex.os_ok c Ex.fs _ _ _ Hq Hin).
Defined.

(** X4. With [--quiet], a real run prints no command line and shows no
    tool output once the first timestamp is taken: every later process
    writes to [DEVNULL], except [zcat], which writes to its file.  The
    first [date] alone still follows the verbosity given on the command
    line. *)
Theorem quiet_run_is_silent (os : OS) (c : Config) (fs : FS) :
  opt_quiet c = true -> opt_dry_run c = false ->
  let stamp := timestamp os (opt_verbosity c) false (initial fs) in
  let r := run_dbm_minc os c (initial fs) in
  exists rest,
    w_log r.2 = (w_log stamp.2 ++ rest)%list /\
    printed_commands rest = [] /\
    (forall a o x,
       Exec a o x ∈ rest ->
       o = DEVNULL \/ (exists p, o = ToFile p) /\ head a = Some "zcat") /\
    printed_commands (w_log stamp.2) =
      (if (0 <? opt_verbosity c)%Z then ["date"] else []).
Proof.
  intros Hq Hdry stamp r. subst r. rewrite run_after_timestamp, Hdry.
  fold stamp.
  assert (Hst : printed_commands (w_log stamp.2) =
                (if (0 <? opt_verbosity c)%Z then ["date"] else [])).
  { subst stamp. unfold timestamp. rewrite run_command_unfold. lazy zeta.
    unfold announcement. cbn [negb andb w_fs w_log initial app].
    rewrite orb_false_r.
    destruct (os_run os _ _ _ _) as [[rc|] fs'];
      [destruct (rc =? 0)%Z |]; cbn [fst snd w_log];
      rewrite !printed_commands_app; destruct (0 <? _)%Z; done. }
  destruct stamp as [[[]|e] w1]; cbn [fst snd] in *.
  - destruct (clogs_handled os
                (P := fun evs s => unannounced evs s /\ routed 0 evs s) c)
      with (w := w1) as (rest & E & D1 & D2).
    + intros d evs s [H1 H2]. split; [| by apply tmp_bracket_routed].
      unfold unannounced. by rewrite tmp_bracket_printed.
    + intros e. split; [done | apply traceback_routed].
    + intros args out Hcall. unfold effective_verbosity.
      rewrite Hq, Hdry. intros w.
      destruct (run_command_unannounced os 0 args out ltac:(lia) w)
        as (evs1 & E1 & D1).
      destruct (run_command_routed os 0 false args out false Hcall w)
        as (evs2 & E2 & D2).
      exists evs1. split; [done |]. split; [done |].
      rewrite E1 in E2. by apply app_inv_head in E2 as ->.
    + exists rest. split; [done |]. split; [done |]. split; [| done].
      intros a o x Hin. exact (D2 a o x Hin).
  - unfold handled, failed. destruct (is_Exception e); cbn [fst snd w_log].
    + eexists. split; [done |]. split; [done |]. split; [| done].
      intros a o x Hin. by apply list_elem_of_singleton in Hin.
    + exists []. rewrite app_nil_r. split; [done |]. split; [done |].
      split; [| done]. intros a o x Hin. by apply elem_of_nil in Hin.
Qed.

Lemma quiet_run_is_silent_witness :
  let c := Ex.cfg Ex.scan false false false true in
  let stamp := timestamp Ex.os_ok (opt_verbosity c) false (initial Ex.fs) in
  let r := run_dbm_minc Ex.os_ok c (initial Ex.fs) in
  opt_quiet c = true /\ opt_dry_run c = false /\
  printed_commands (w_log r.2) = ["date"] /\
  exists rest,
    w_log r.2 = (w_log stamp.2 ++ rest)%list /\
    printed_commands rest = [] /\
    (forall a o x,
       Exec a o x ∈ rest ->
       o = DEVNULL \/ (exists p, o = ToFile p) /\ head a = Some "zcat") /\
    printed_commands (w_log stamp.2) =
      (if (0 <? opt_verbosity c)%Z then ["date"] else []).
Proof.
  intros c stamp r.
  assert (Hq : opt_quiet c = true) by reflexivity.
  assert (Hdry : opt_dry_run c = false) by reflexivity.
  split; [exact Hq |]. split; [exact Hdry |].
  split; [vm_compute; reflexivity |].
  exact (quiet_run_is_silent Ex.os_ok c Ex.fs Hq Hdry).
Defined.

(** ** The life of the workspace *)

#[global] Instance no_tmp_composable : Composable no_tmp.
Proof.
  split; unfold no_tmp; try done.
  - intros. by repeat constructor.
  - intros evs1 evs2 _ H1 H2. by apply Forall_app.
Qed.

Lemma of_string_root s : Path.root (Path.of_string ("/" +:+ s)) = true.
Proof. done. Qed.

(** X5. A run creates at most one workspace, creates it only after the
    path validation has passed without an error message, and always
    removes it, whatever happens inside the block: the log is either free
    of workspace events, or it has exactly one creation and one removal,
    in this order; after the removal no process is started, and the final
    filesystem has no entry at or below the workspace, whose path is
    absolute. *)
Theorem workspace_lifecycle (os : OS) (c : Config) (fs : FS) :
  let r := run_dbm_minc os c (initial fs) in
  Forall (fun e => is_tmp_event e = false) (w_log r.2) \/
  exists d L0 L1 L2,
    w_log r.2 = (L0 ++ Mkdtemp d :: L1 ++ Cleanup d :: L2)%list /\
    Forall (fun e => is_tmp_event e = false) (L0 ++ L1 ++ L2) /\
    errors L0 = [] /\ execs L2 = [] /\
    Path.root d = true /\
    forall q, Path.is_under d q = true -> w_fs r.2 !! q = None.
Proof.
  intros r. subst r. rewrite run_unfold.
  set (PQ := fun evs s => no_tmp evs s /\ disciplined evs s).
  assert (Hh : forall e w evs,
             w_log w = evs -> Forall (fun e => is_tmp_event e = false) evs ->
             Forall (fun e => is_tmp_event e = false) (w_log (handled e w).2)).
  { intros e w evs <- H. unfold handled, failed.
    destruct (is_Exception e); simpl; [| done].
    apply Forall_app. split; [done | by repeat constructor]. }
  destruct (run_command_no_tmp os (opt_verbosity c) (opt_dry_run c)
              [AStr "date"] None false (initial fs)) as (evs1 & E1 & N1).
  destruct (run_command_disciplined os (opt_verbosity c) (opt_dry_run c)
              [AStr "date"] None false (initial fs)) as (evs1' & E1' & D1).
  rewrite E1 in E1'. apply app_inv_head in E1' as <-.
  fold (timestamp os (opt_verbosity c) (opt_dry_run c)) in *.
  simpl in E1.
  destruct (timestamp os _ _ (initial fs)) as [[[]|e1] w1]; cbn [fst snd] in *.
  2: { left. eapply Hh; [reflexivity |]. by rewrite E1. }
  destruct (clogs_process_paths os (P := PQ) c w1) as (evs2 & E2 & N2 & D2).
  destruct (process_paths os c w1) as [[ps|e2] w2]; cbn [fst snd] in *.
  2: { left. eapply Hh; [reflexivity |]. rewrite E2, E1. by apply Forall_app. }
  destruct (clogs_check_paths (P := PQ) (opt_template_prefix c) ps w2)
    as (evs3 & E3 & N3 & D3).
  destruct (check_paths _ ps w2) as [[ts|e3] w3]; cbn [fst snd] in *.
  2: { left. eapply Hh; [reflexivity |]. rewrite E3, E2, E1.
       rewrite !Forall_app. done. }
  right. unfold with_TemporaryDirectory.
  set (d := Path.of_string _). set (w4 := mkWorld _ _).
  destruct (clogs_pipeline os (P := no_tmp) (effective_verbosity c)
              (opt_dry_run c)
              (fun a o _ => run_command_no_tmp os _ _ a o false)
              c ps ts d w4) as (evs4 & E4 & N4).
  destruct (pipeline os _ _ c ps ts d w4) as [r5 w5]. cbn [fst snd] in *.
  assert (EL : (w_log w5 ++ [Cleanup d] =
               (evs1 ++ evs2 ++ evs3) ++ Mkdtemp d :: evs4 ++ [Cleanup d])%list).
  { rewrite E4. unfold w4. cbn [w_log]. rewrite E3, E2, E1.
    by rewrite <- !app_assoc. }
  assert (E0 : errors (evs1 ++ evs2 ++ evs3) = []).
  { rewrite !errors_app. simpl in D1, D2, D3. by rewrite D1, D2, D3. }
  assert (N0 : Forall (fun e => is_tmp_event e = false) (evs1 ++ evs2 ++ evs3)).
  { rewrite !Forall_app. done. }
  assert (Hgone : forall fs' q,
            Path.is_under d q = true -> rmtree d fs' !! q = None).
  { intros. by apply rmtree_lookup. }
  assert (N04 : Forall (fun e => is_tmp_event e = false)
                  ((evs1 ++ evs2 ++ evs3) ++ evs4 ++ [])).
  { rewrite app_nil_r. apply Forall_app. split; [exact N0 | exact N4]. }
  exists d, (evs1 ++ evs2 ++ evs3)%list, evs4.
  destruct r5 as [[]|e5]; [| unfold handled, failed; destruct (is_Exception e5)];
    cbn [fst snd w_log w_fs].
  - exists []. rewrite EL.
    split; [done |]. split; [exact N04 |]. split; [exact E0 |].
    split; [done |]. split; [apply of_string_root | apply Hgone].
  - exists [Echo PREFIX_ERR (Traceback e5) "red" false].
    split.
    { rewrite EL. rewrite <- !app_assoc. simpl. by rewrite <- !app_assoc. }
    split.
    { apply Forall_app. split; [exact N0 |]. apply Forall_app.
      split; [exact N4 | by repeat constructor]. }
    split; [exact E0 |].
    split; [done |]. split; [apply of_string_root | apply Hgone].
  - exists []. rewrite EL.
    split; [done |]. split; [exact N04 |]. split; [exact E0 |].
    split; [done |]. split; [apply of_string_root | apply Hgone].
Qed.

(** ** Real runs that go through *)

Section RealRun.
Context (os : OS).

Lemma runs_more_refl w : runs_more w w [].
Proof. exists []. by rewrite app_nil_r. Qed.

Lemma runs_more_trans w w1 w2 l1 l2 :
  runs_more w w1 l1 -> runs_more w1 w2 l2 -> runs_more w w2 (l1 ++ l2).
Proof.
  intros (e1 & E1 & X1 & F1) (e2 & E2 & X2 & F2). exists (e1 ++ e2)%list.
  rewrite E2, E1, execs_app, X1, X2, app_assoc.
  split; [done |]. split; [done | by apply Forall_app].
Qed.

Lemma runs_more_cons w w1 w2 t l :
  runs_more w w1 [t] -> runs_more w1 w2 l -> runs_more w w2 (t :: l).
Proof. apply (runs_more_trans w w1 w2 [t] l). Qed.

Lemma runs_more_skip w w1 w2 l :
  w_log w1 = w_log w -> runs_more w1 w2 l -> runs_more w w2 l.
Proof. intros E (evs & E2 & H). exists evs. by rewrite <- E. Qed.

Lemma real_step verbosity args stdout w w' :
  run_command os verbosity false args stdout false w = (Return tt, w') ->
  runs_more w w' [command_tokens args].
Proof.
  rewrite run_command_unfold. lazy zeta. cbn [w_fs w_log].
  destruct (os_run os _ _ _ _) as [[rc|] fs']; [| done].
  destruct (Z.eqb_spec rc 0) as [->|]; [| done].
  intros [= <-]. eexists. cbn [w_log]. rewrite <- app_assoc.
  split; [done |]. unfold announcement. cbn [negb andb].
  destruct (_ || _); split; by repeat constructor.
Qed.

Lemma bind_real_inv {B} verbosity args stdout (k : unit -> M B) w b w' :
  bind (run_command os verbosity false args stdout false) k w
    = (Return b, w') ->
  exists w1, runs_more w w1 [command_tokens args] /\ k tt w1 = (Return b, w').
Proof.
  unfold bind.
  destruct (run_command _ _ _ _ _ _ w) as [[[]|e] w1] eqn:E; [| done].
  intros H. exists w1. split; [by eapply real_step | done].
Qed.

Lemma for_each_real verbosity (f : Path.t -> list arg) (l : list Path.t)
    w w' :
  for_each l (fun src => run_command os verbosity false (f src) None false) w
    = (Return tt, w') ->
  runs_more w w' ((fun src => command_tokens (f src)) <$> l).
Proof.
  revert w. induction l as [|x l IH]; intros w; simpl.
  - intros [= <-]. apply runs_more_refl.
  - intros H. apply bind_real_inv in H as (w1 & H1 & H).
    eapply runs_more_cons; [done | by apply IH].
Qed.

Lemma materialize_real verbosity tmp nifti w raw w' :
  materialize os verbosity false tmp nifti w = (Return raw, w') ->
  raw = materialized tmp nifti /\
  runs_more w w'
    [command_tokens
       (if String.eqb (Path.suffix nifti) EXT_GZIP
        then [AStr "zcat"; APath nifti]
        else [AStr "ln"; AStr "-s"; APath nifti;
              APath (materialized tmp nifti)])].
Proof.
  unfold materialize, materialized.
  destruct (String.eqb _ _).
  - unfold bind at 1, open_wb at 1. intros H.
    apply bind_real_inv in H as (w1 & H1 & H). injection H as <- <-.
    split; [done |]. destruct H1 as (evs & E & X & F). by exists evs.
  - intros H. apply bind_real_inv in H as (w1 & H1 & H).
    injection H as <- <-. done.
Qed.

Lemma run_stages_real verbosity (c : Config) ps ts tmp w a w' :
  run_stages os verbosity false (opt_template_prefix c) (opt_beast_conf c)
    ps ts tmp (materialized tmp (fpath_nifti ps)) w = (Return a, w') ->
  runs_more w w' (command_tokens <$> tl (stage_commands c ps ts tmp a)).
Proof.
  unfold run_stages, with_suffix. intros H.
  repeat
    (cbv beta zeta in H;
     match type of H with
     | context [Path.with_suffix ?p ?s] =>
         destruct (Path.with_suffix p s);
         [rewrite bind_lift_Return in H | by rewrite bind_lift_Raise in H]
     | bind (run_command _ _ _ _ _ _) _ _ = _ =>
         let w1 := fresh "w" in
         let Hs := fresh "Hs" in
         apply bind_real_inv in H as (w1 & Hs & H)
     end).
  cbv beta zeta in H. unfold ret in H. injection H as <- <-.
  unfold stage_commands. cbv beta zeta.
  cbn [tl fmap list_fmap fpath_raw fpath_denoised fpath_norm
       fpath_norm_transform fpath_mask fpath_extracted fpath_nonlinear
       fpath_nonlinear_transform fpath_dbm fpath_dbm_reshaped fpath_dbm_nii].
  repeat (eapply runs_more_cons; [eassumption |]).
  apply runs_more_refl.
Qed.

(** A real pipeline that returns has started the stage commands, the
    listings and the copies, in that order, and nothing else; each
    returned 0. *)
Lemma pipeline_real verbosity c ps ts tmp w w' :
  pipeline os verbosity false c ps ts tmp w = (Return tt, w') ->
  exists a copies,
    let sub := Path.joinpath (dpath_out ps)
                 (Path.stem (materialized tmp (fpath_nifti ps))) in
    (exists w1 w2,
       run_stages os verbosity false (opt_template_prefix c)
         (opt_beast_conf c) ps ts tmp (materialized tmp (fpath_nifti ps)) w1
       = (Return a, w2)) /\
    (opt_save_all c = false ->
     copies = [fpath_denoised a; fpath_mask a; fpath_extracted a;
               fpath_nonlinear a; fpath_dbm_nii a]) /\
    runs_more w w'
      (command_tokens <$> tl (planned_invocations c ps ts tmp sub a copies)).
Proof.
  unfold pipeline. unfold bind at 1.
  destruct (materialize _ _ _ _ _ w) as [[raw|e] w1] eqn:Em; [| done].
  apply materialize_real in Em as [-> R1].
  unfold bind at 1.
  destruct (make_output_dir _ _ _ w1) as [[sub|e] w2] eqn:Emk; [| done].
  apply make_output_dir_Return in Emk as [-> Elog2].
  set (sub := Path.joinpath _ _).
  unfold bind at 1.
  destruct (run_stages _ _ _ _ _ _ _ _ _ w2) as [[a|e] w3] eqn:Est; [| done].
  pose proof (run_stages_real _ c _ _ _ _ _ _ Est) as R3.
  intros H. apply bind_real_inv in H as (w4 & R4 & H).
  unfold bind at 1, copy_results at 1 in H. unfold bind at 1 in H.
  destruct (fpaths_to_copy _ _ _ w4) as [[copies|e] w5] eqn:Ef; [| done].
  pose proof (fpaths_to_copy_world _ _ _ _ _ _ Ef) as ->.
  destruct (for_each copies _ w4) as [[[]|e] w6] eqn:Ec; [| done].
  apply for_each_real in Ec.
  apply bind_real_inv in H as (w7 & R7 & H).
  apply real_step in H.
  exists a, copies. split; [by eexists _, _ |]. split.
  - intros Hs. rewrite Hs in Ef. by apply fpaths_to_copy_subset in Ef.
  - unfold planned_invocations. cbn [tl].
    rewrite (stage_commands_head c ps ts tmp a).
    rewrite !fmap_app, !fmap_cons. cbn [fmap list_fmap].
    rewrite <- list_fmap_compose.
    eapply runs_more_cons; [exact R1 |].
    eapply runs_more_skip; [exact Elog2 |].
    eapply runs_more_trans; [exact R3 |].
    eapply runs_more_cons; [exact R4 |].
    eapply runs_more_trans; [exact Ec |].
    eapply runs_more_cons; [exact R7 |]. exact H.
Qed.

End RealRun.

(** ** Dry runs that go through, in full *)

Section DryRunExact.
Context (os : OS).

Lemma materialize_dry_exact verbosity tmp nifti w :
  materialize os verbosity true tmp nifti w =
  (Return (materialized tmp nifti),
   mkWorld (dry_materialized_fs tmp nifti (w_fs w))
     (w_log w ++
      [echo_run (if String.eqb (Path.suffix nifti) EXT_GZIP
                 then [AStr "zcat"; APath nifti]
                 else [AStr "ln"; AStr "-s"; APath nifti;
                       APath (materialized tmp nifti)])])).
Proof.
  unfold materialize, dry_materialized_fs, materialized, bind, open_wb.
  destruct (String.eqb _ _); by rewrite dry_step.
Qed.

Lemma make_output_dir_Return_fs overwrite out raw w sub w' :
  make_output_dir overwrite out raw w = (Return sub, w') ->
  sub = Path.joinpath out (Path.stem raw) /\
  w' = mkWorld (with_output_dir sub (w_fs w)) (w_log w) /\
  (w_fs w !! sub = None \/ w_fs w !! sub = Some Dir).
Proof.
  rewrite make_output_dir_spec. unfold with_output_dir.
  destruct (w_fs w !! _) as [[]|] eqn:E; [done | |].
  - destruct overwrite; [| destruct (Nat.eqb _ 0); [| done]];
      intros [= <- <-]; rewrite E;
      (split; [done |]; split; [by destruct w | by right]).
  - intros [= <- <-]. rewrite E. split; [done |]. split; [done | by left].
Qed.

Lemma run_stages_dry_fs verbosity template conf ps ts tmp raw w a w' :
  run_stages os verbosity true template conf ps ts tmp raw w = (Return a, w') ->
  w_fs w' = w_fs w.
Proof.
  unfold run_stages, with_suffix.
  repeat
    (cbv beta zeta;
     match goal with
     | |- context [Path.with_suffix ?p ?s] =>
         destruct (Path.with_suffix p s);
         [rewrite bind_lift_Return | by rewrite bind_lift_Raise]
     | |- context [bind (run_command _ _ _ _ _ _) _ _] => rewrite bind_dry
     end).
  cbv beta zeta. unfold ret. by intros [= _ <-].
Qed.

(** A dry pipeline that returns, in closed form. *)
Lemma pipeline_dry_exact verbosity c ps ts tmp w w' :
  pipeline os verbosity true c ps ts tmp w = (Return tt, w') ->
  let raw := materialized tmp (fpath_nifti ps) in
  let sub := Path.joinpath (dpath_out ps) (Path.stem raw) in
  let fs1 := dry_materialized_fs tmp (fpath_nifti ps) (w_fs w) in
  let fs2 := with_output_dir sub fs1 in
  exists a,
    (exists w1 w2,
       run_stages os verbosity true (opt_template_prefix c)
         (opt_beast_conf c) ps ts tmp raw w1 = (Return a, w2)) /\
    (fs1 !! sub = None \/ fs1 !! sub = Some Dir) /\
    (opt_save_all c = true -> fs2 !! tmp = Some Dir) /\
    w' = mkWorld fs2
           (w_log w ++
            (echo_run <$>
             tl (planned_invocations c ps ts tmp sub a
                   (dry_copies (opt_save_all c) tmp a fs2)))).
Proof.
  unfold pipeline. unfold bind at 1. rewrite materialize_dry_exact.
  set (w1 := mkWorld _ _). unfold bind at 1.
  destruct (make_output_dir _ _ _ w1) as [[sub|e] w2] eqn:Emk; [| done].
  apply make_output_dir_Return_fs in Emk as (-> & -> & Hsub).
  set (sub := Path.joinpath _ _) in *. set (w2 := mkWorld _ _).
  unfold bind at 1.
  destruct (run_stages _ _ _ _ _ _ _ _ _ w2) as [[a|e] w3] eqn:Est; [| done].
  pose proof (run_stages_dry_fs _ _ _ _ _ _ _ _ _ _ Est) as Efs.
  pose proof (run_stages_dry os _ c _ _ _ _ _ _ _ eq_refl Est) as ->.
  rewrite bind_dry. unfold bind at 1. unfold copy_results at 1.
  unfold bind at 1.
  destruct (fpaths_to_copy _ _ _ _) as [[copies|e] w4] eqn:Ef; [| done].
  pose proof (fpaths_to_copy_world _ _ _ _ _ _ Ef) as ->.
  rewrite for_each_dry. rewrite bind_dry. rewrite timestamp_dry.
  intros [= <-]. exists a.
  assert (Hc : copies = dry_copies (opt_save_all c) tmp a (w_fs w2) /\
               (opt_save_all c = true -> w_fs w2 !! tmp = Some Dir)).
  { revert Ef. unfold fpaths_to_copy, dry_copies, iterdir.
    destruct (opt_save_all c); [| by intros [= <-]].
    cbn [w_fs].
    destruct (w_fs w2 !! tmp) as [[]|] eqn:Et; try done.
    by intros [= <-]. }
  destruct Hc as [-> Htmp].
  split; [by eexists _, _ |]. split; [exact Hsub |]. split; [exact Htmp |].
  cbn [w_log w_fs w1 w2]. f_equal.
  unfold planned_invocations. cbn [tl].
  rewrite (stage_commands_head c ps ts tmp a).
  rewrite !fmap_app, !fmap_cons. cbn [fmap list_fmap].
  rewrite <- list_fmap_compose.
  rewrite <- !app_assoc. reflexivity.
Qed.

End DryRunExact.

(** ** Runs that go through *)

Section Plans.
Context (os : OS).

(** A run that returns has taken its first timestamp, resolved and
    checked its paths, and gone through the pipeline in one workspace. *)
Lemma run_Return_inv c fs :
  (run_dbm_minc os c (initial fs)).1 = Return tt ->
  exists w1 ps w5,
    timestamp os (opt_verbosity c) (opt_dry_run c) (initial fs)
      = (Return tt, w1) /\
    (forall w, process_paths os c w = (Return ps, w)) /\
    wf_path (fpath_nifti ps) /\ wf_path (dpath_out ps) /\
    first_failed_check (w_fs w1) (opt_template_prefix c) ps = None /\
    let t := Path.joinpath (dpath_templates ps)
               (opt_template_prefix c +:+ EXT_MINC) in
    let ts := mkTemplates t (add_suffix t SUFFIX_TEMPLATE_MASK None) in
    let tmp := Path.of_string ("/" +:+ os_mkdtemp os (w_log w1) (w_fs w1)) in
    pipeline os (effective_verbosity c) (opt_dry_run c) c ps ts tmp
      (mkWorld (<[tmp := Dir]> (w_fs w1)) (w_log w1 ++ [Mkdtemp tmp]))
      = (Return tt, w5) /\
    run_dbm_minc os c (initial fs)
      = (Return tt, mkWorld (rmtree tmp (w_fs w5)) (w_log w5 ++ [Cleanup tmp])).
Proof.
  rewrite run_unfold.
  destruct (timestamp os _ _ (initial fs)) as [[[]|e] w1] eqn:Et;
    [| intros H; by apply handled_raises in H].
  destruct (process_paths_cases os c)
    as [(ps & E & (Hn & Ho & _) & _) | [E | [(E & _ & _) | (E & _)]]];
    rewrite E; try (intros H; by apply handled_raises in H).
  rewrite check_paths_spec.
  destruct (first_failed_check _ _ _) eqn:Ec;
    [intros H; by apply (handled_raises (SystemExit 1)) in H |].
  cbv zeta. unfold with_TemporaryDirectory.
  set (ts := mkTemplates _ _). set (tmp := Path.of_string _).
  set (w3 := mkWorld _ _).
  destruct (pipeline os _ _ c ps ts tmp w3) as [[[]|e] w5] eqn:Ep;
    [| intros H; by apply handled_raises in H].
  intros _. exists w1, ps, w5. done.
Qed.

(** A dry run that returns, in closed form. *)
Lemma dry_run_exact c fs :
  opt_dry_run c = true ->
  (run_dbm_minc os c (initial fs)).1 = Return tt ->
  exists ps a,
    (forall w, process_paths os c w = (Return ps, w)) /\
    wf_path (fpath_nifti ps) /\ wf_path (dpath_out ps) /\
    first_failed_check fs (opt_template_prefix c) ps = None /\
    let t := Path.joinpath (dpath_templates ps)
               (opt_template_prefix c +:+ EXT_MINC) in
    let ts := mkTemplates t (add_suffix t SUFFIX_TEMPLATE_MASK None) in
    let tmp := Path.of_string
                 ("/" +:+ os_mkdtemp os [echo_run [AStr "date"]] fs) in
    let raw := materialized tmp (fpath_nifti ps) in
    let sub := Path.joinpath (dpath_out ps) (Path.stem raw) in
    let fs1 := dry_materialized_fs tmp (fpath_nifti ps) (<[tmp := Dir]> fs) in
    let fs2 := with_output_dir sub fs1 in
    (exists w1 w2,
       run_stages os (effective_verbosity c) true (opt_template_prefix c)
         (opt_beast_conf c) ps ts tmp raw w1 = (Return a, w2)) /\
    (fs1 !! sub = None \/ fs1 !! sub = Some Dir) /\
    (opt_save_all c = true -> fs2 !! tmp = Some Dir) /\
    run_dbm_minc os c (initial fs) =
    (Return tt,
     mkWorld (rmtree tmp fs2)
       (echo_run [AStr "date"] :: Mkdtemp tmp ::
        (echo_run <$>
         tl (planned_invocations c ps ts tmp sub a
               (dry_copies (opt_save_all c) tmp a fs2)))
        ++ [Cleanup tmp])).
Proof.
  intros Hdry H.
  destruct (run_Return_inv c fs H)
    as (w1 & ps & w5 & Et & Eps & Hn & Ho & Ec & Ep & Er).
  rewrite Hdry, timestamp_dry in Et. injection Et as <-.
  cbn [w_fs w_log initial app] in *. rewrite Hdry in Ep.
  apply pipeline_dry_exact in Ep as (a & Hst & Hsub & Htmp & ->).
  exists ps, a. cbn [w_fs w_log] in *.
  split; [done |]. split; [done |]. split; [done |]. split; [done |].
  split; [done |]. split; [done |]. split; [done |].
  rewrite Er. by rewrite <- !app_assoc.
Qed.

(** A real run that returns has started the planned invocations, and
    each returned 0. *)
Lemma real_run_exact c fs :
  opt_dry_run c = false ->
  (run_dbm_minc os c (initial fs)).1 = Return tt ->
  exists ps tmp a copies,
    (forall w, process_paths os c w = (Return ps, w)) /\
    Mkdtemp tmp ∈ w_log (run_dbm_minc os c (initial fs)).2 /\
    let t := Path.joinpath (dpath_templates ps)
               (opt_template_prefix c +:+ EXT_MINC) in
    let ts := mkTemplates t (add_suffix t SUFFIX_TEMPLATE_MASK None) in
    let raw := materialized tmp (fpath_nifti ps) in
    let sub := Path.joinpath (dpath_out ps) (Path.stem raw) in
    (exists w1 w2,
       run_stages os (effective_verbosity c) false (opt_template_prefix c)
         (opt_beast_conf c) ps ts tmp raw w1 = (Return a, w2)) /\
    (opt_save_all c = false ->
     copies = [fpath_denoised a; fpath_mask a; fpath_extracted a;
               fpath_nonlinear a; fpath_dbm_nii a]) /\
    execs (w_log (run_dbm_minc os c (initial fs)).2) =
      command_tokens <$> planned_invocations c ps ts tmp sub a copies /\
    Forall succeeded (w_log (run_dbm_minc os c (initial fs)).2).
Proof.
  intros Hdry H.
  destruct (run_Return_inv c fs H)
    as (w1 & ps & w5 & Et & Eps & Hn & Ho & Ec & Ep & Er).
  rewrite Hdry in Et, Ep. cbv zeta in Ep.
  set (ts := mkTemplates _ _) in *. set (tmp := Path.of_string _) in *.
  apply real_step in Et as (evs1 & E1 & X1 & F1). simpl in E1.
  apply pipeline_real in Ep as (a & copies & Hst & Hc & evs2 & E2 & X2 & F2).
  cbn [w_log] in E2.
  exists ps, tmp, a, copies. rewrite Er. cbn [snd w_log].
  rewrite E2, E1.
  split; [done |]. split.
  { rewrite !elem_of_app. left. left. right. by left. }
  split; [done |]. split; [done |]. split.
  - rewrite !execs_app, X1, X2. simpl. by rewrite app_nil_r.
  - rewrite !Forall_app. split_and!; [done | by repeat constructor | done |].
    by repeat constructor.
Qed.

End Plans.

(** The artifact paths depend on the workspace and the materialized scan
    alone. *)
Lemma artifacts_determined os os' v v' d d' t t' cf cf' ps ps' ts ts'
    tmp raw w w' a a' :
  (run_stages os v d t cf ps ts tmp raw w).1 = Return a ->
  (run_stages os' v' d' t' cf' ps' ts' tmp raw w').1 = Return a' ->
  a = a'.
Proof.
  intros H H'.
  apply run_stages_paths in H
    as (m & Hm & H1 & H2 & H3 & H4 & H5 & H6 & H7 & H8 & H9 & H10 & H11).
  apply run_stages_paths in H'
    as (m' & Hm' & K1 & K2 & K3 & K4 & K5 & K6 & K7 & K8 & K9 & K10 & K11).
  rewrite Hm in Hm'. injection Hm' as <-.
  destruct a as [a1 a2 a3 a4 a5 a6 a7 a8 a9 a10 a11],
    a' as [b1 b2 b3 b4 b5 b6 b7 b8 b9 b10 b11]. cbn [fpath_raw fpath_denoised fpath_norm
    fpath_norm_transform fpath_mask fpath_extracted fpath_nonlinear
    fpath_nonlinear_transform fpath_dbm fpath_dbm_reshaped fpath_dbm_nii] in *.
  subst. rewrite H4 in K4. injection K4 as <-.
  rewrite H8 in K8. injection K8 as <-.
  rewrite H11 in K11. by injection K11 as <-.
Qed.

Lemma join_command_tokens (l : list (list arg)) :
  Str.join " " <$> (command_tokens <$> l) = command_line <$> l.
Proof. by rewrite <- list_fmap_compose. Qed.

Lemma elem_of_workspaces t log : t ∈ workspaces log <-> Mkdtemp t ∈ log.
Proof.
  unfold workspaces. rewrite list_elem_of_omap. split.
  - intros ([] & Hin & [= ->]). done.
  - intros Hin. by exists (Mkdtemp t).
Qed.

Section PlanTheorems.
Context (os : OS).

(** X6. A real run that returns has started exactly the planned
    invocations, each once and in stage order: the first timestamp, the
    ten stage commands, the listing of the workspace, one [cp] per file
    to copy, the listing of the output subdirectory and the last
    timestamp; and every one of these processes returned 0. *)
Theorem real_run_executes_plan (c : Config) (fs : FS) :
  opt_dry_run c = false ->
  let r := run_dbm_minc os c (initial fs) in
  r.1 = Return tt ->
  exists ps ts tmp sub a copies,
    (forall w, process_paths os c w = (Return ps, w)) /\
    sub = Path.joinpath (dpath_out ps)
            (Path.stem (materialized tmp (fpath_nifti ps))) /\
    (opt_save_all c = false ->
     copies = [fpath_denoised a; fpath_mask a; fpath_extracted a;
               fpath_nonlinear a; fpath_dbm_nii a]) /\
    execs (w_log r.2) =
      command_tokens <$> planned_invocations c ps ts tmp sub a copies /\
    Forall succeeded (w_log r.2).
Proof.
  intros Hdry r Hr.
  destruct (real_run_exact os c fs Hdry Hr)
    as (ps & tmp & a & copies & Eps & _ & _ & Hc & Hx & Hok).
  by eexists ps, _, tmp, _, a, copies.
Qed.

(** X7. In save-subset mode a dry run predicts the real run: when both
    return and use the same workspace name, the command lines the dry
    run prints are, line by line, the token lists of the processes the
    real run starts, joined by spaces. *)
Theorem dry_run_predicts_real (c : Config) (fs : FS) :
  opt_save_all c = false ->
  let d := run_dbm_minc os (with_dry_run true c) (initial fs) in
  let r := run_dbm_minc os (with_dry_run false c) (initial fs) in
  d.1 = Return tt -> r.1 = Return tt ->
  workspaces (w_log d.2) = workspaces (w_log r.2) ->
  printed_commands (w_log d.2) = Str.join " " <$> execs (w_log r.2).
Proof.
  intros Hs d r Hd Hr Hsame.
  destruct (dry_run_exact os (with_dry_run true c) fs eq_refl Hd)
    as (ps & a & Eps & _ & _ & _ & Hst & _ & _ & Ed).
  destruct (real_run_exact os (with_dry_run false c) fs eq_refl Hr)
    as (ps' & tmp' & a' & copies' & Eps' & Htmp' & Hst' & Hc' & Hx & _).
  fold d in Ed. fold r in Htmp', Hx.
  (* the same paths *)
  pose proof (Eps (initial fs)) as E1. pose proof (Eps' (initial fs)) as E2.
  change (process_paths os (with_dry_run true c))
    with (process_paths os c) in E1.
  change (process_paths os (with_dry_run false c))
    with (process_paths os c) in E2.
  rewrite E1 in E2. injection E2 as <-. clear E1 Eps Eps'.
  (* the same workspace *)
  cbv zeta in Ed. set (tmp := Path.of_string _) in *.
  assert (Etmp : tmp' = tmp).
  { assert (Hin : Mkdtemp tmp ∈ w_log r.2).
    { apply elem_of_workspaces. rewrite <- Hsame.
      apply elem_of_workspaces. rewrite Ed. cbn [snd w_log]. right. by left. }
    destruct (run_shape os (with_dry_run false c) (initial fs))
      as [(evs & E & N) | (t & L1 & L2 & E & H1 & N2 & _)];
      fold r in E; simpl in E; rewrite E in Hin, Htmp'.
    - eapply Forall_forall in N; [| exact Hin]. done.
    - assert (Hany : forall x, Mkdtemp x ∈ (L1 ++ Cleanup t :: L2)%list ->
                               x = t).
      { intros x. rewrite elem_of_app, elem_of_cons.
        intros [Hx1 | [Hx1 | Hx1]]; [by apply H1 | done |].
        eapply Forall_forall in N2; [| exact Hx1]. done. }
      by rewrite (Hany _ Hin), (Hany _ Htmp'). }
  subst tmp'.
  (* the same artifacts and copies *)
  cbv zeta in Hst'. destruct Hst as (w1 & w2 & Hst).
  destruct Hst' as (w1' & w2' & Hst').
  assert (Ea : a' = a).
  { eapply artifacts_determined; [by rewrite Hst' | by rewrite Hst]. }
  subst a'. rewrite (Hc' Hs) in Hx.
  rewrite Hx, Ed. cbn [snd w_log].
  change (opt_save_all (with_dry_run true c)) with (opt_save_all c).
  rewrite Hs. unfold dry_copies.
  rewrite join_command_tokens.
  change (echo_run [AStr "date"] :: Mkdtemp tmp :: ?l)
    with ([echo_run [AStr "date"]; Mkdtemp tmp] ++ l)%list.
  rewrite !printed_commands_app, printed_commands_echo_run.
  reflexivity.
Qed.

End PlanTheorems.

Lemma real_run_executes_plan_witness :
  let c := Ex.cfg Ex.scan false false false false in
  let r := run_dbm_minc Ex.os_ok c (initial Ex.fs) in
  opt_dry_run c = false /\ r.1 = Return tt /\
  List.length (execs (w_log r.2)) = 19%nat /\
  Forall succeeded (w_log r.2).
Proof.
  intros c r.
  assert (Hdry : opt_dry_run c = false) by reflexivity.
  assert (Hr : r.1 = Return tt) by (vm_compute; reflexivity).
  destruct (real_run_executes_plan Ex.os_ok c Ex.fs Hdry Hr)
    as (ps & ts & tmp & sub & a & copies & _ & _ & _ & _ & Hok).
  split; [exact Hdry |]. split; [exact Hr |].
  split; [vm_compute; reflexivity | exact Hok].
Defined.

Lemma dry_run_predicts_real_witness :
  let c := Ex.cfg Ex.scan false false false false in
  let d := run_dbm_minc Ex.os_ok (with_dry_run true c) (initial Ex.fs) in
  let r := run_dbm_minc Ex.os_ok (with_dry_run false c) (initial Ex.fs) in
  opt_save_all c = false /\ d.1 = Return tt /\ r.1 = Return tt /\
  workspaces (w_log d.2) = workspaces (w_log r.2) /\
  List.length (printed_commands (w_log d.2)) = 19%nat /\
  printed_commands (w_log d.2) = Str.join " " <$> execs (w_log r.2).
Proof.
  intros c d r.
  assert (Hs : opt_save_all c = false) by reflexivity.
  assert (Hd : d.1 = Return tt) by (vm_compute; reflexivity).
  assert (Hr : r.1 = Return tt) by (vm_compute; reflexivity).
  assert (Hsame : workspaces (w_log d.2) = workspaces (w_log r.2))
    by (vm_compute; reflexivity).
  split; [exact Hs |]. split; [exact Hd |]. split; [exact Hr |].
  split; [exact Hsame |]. split; [vm_compute; reflexivity |].
  exact (dry_run_predicts_real Ex.os_ok c Ex.fs Hs Hd Hr Hsame).
Defined.

(** ** What a dry run does to the filesystem *)

Lemma rmtree_lookup_ne d q fs :
  Path.is_under d q = false -> rmtree d fs !! q = fs !! q.
Proof.
  intros H. unfold rmtree. destruct (fs !! q) as [n|] eqn:E.
  - by apply map_lookup_filter_Some.
  - apply map_lookup_filter_None. by left.
Qed.

Lemma rmtree_lookup_Some d q n fs :
  rmtree d fs !! q = Some n -> Path.is_under d q = false /\ fs !! q = Some n.
Proof.
  unfold rmtree. intros [H1 H2]%map_lookup_filter_Some. done.
Qed.

Lemma slashfree_startswith x :
  Str.contains "/" x = false -> Str.startswith "/" x = false.
Proof.
  destruct x as [|a x]; [done |]. cbn [Str.contains Str.startswith].
  destruct (Ascii.eqb_spec a "/") as [->|Hne]; [done |]. intros _.
  destruct (Ascii.eqb_spec "/" a) as [<-|]; done.
Qed.

Lemma is_under_joinpath d x :
  Str.contains "/" x = false -> Path.is_under d (Path.joinpath d x) = true.
Proof.
  intros H. unfold Path.joinpath, Path.join, Path.of_string.
  cbn [Path.root Path.tail]. rewrite (slashfree_startswith _ H).
  unfold Path.is_under. cbn [Path.root Path.tail].
  rewrite !bool_decide_eq_true_2; [done | by apply prefix_app_r | done].
Qed.

Lemma stem_slashfree n :
  Str.contains "/" n = false -> Str.contains "/" (Path.stem_of_name n) = false.
Proof.
  intros H. rewrite (name_stem_suffix n), contains_app in H.
  by apply orb_false_iff in H as [H _].
Qed.

Lemma materialized_under tmp nifti :
  wf_path nifti -> Path.is_under tmp (materialized tmp nifti) = true.
Proof.
  intros Hwf. pose proof (wf_name_slashfree _ Hwf) as H.
  unfold materialized. destruct (String.eqb _ _); apply is_under_joinpath;
    [by apply stem_slashfree | done].
Qed.

Lemma dry_materialized_fs_lookup tmp nifti fs q :
  wf_path nifti -> Path.is_under tmp q = false ->
  dry_materialized_fs tmp nifti (<[tmp := Dir]> fs) !! q = fs !! q.
Proof.
  intros Hwf Hq.
  assert (q <> tmp) by (intros ->; by rewrite is_under_refl in Hq).
  assert (q <> materialized tmp nifti).
  { intros ->. by rewrite materialized_under in Hq. }
  unfold dry_materialized_fs. destruct (String.eqb _ _);
    by rewrite ?lookup_insert_ne.
Qed.

Lemma makedirs_on_path fs sub q n :
  makedirs fs (Path.root sub) [] (Path.tail sub) !! q = Some n ->
  fs !! q = Some n \/ (fs !! q = None /\ n = Dir /\ Path.is_under q sub = true).
Proof.
  intros H. destruct (fs !! q) as [m|] eqn:E.
  - left. apply (makedirs_keeps _ (Path.root sub) [] (Path.tail sub)) in E.
    congruence.
  - apply makedirs_lookup in H as [H | (-> & Hr & k & _ & Ht)]; [congruence |].
    right. split; [done |]. split; [done |].
    unfold Path.is_under. rewrite !bool_decide_eq_true_2; [done | | done].
    simpl in Ht. rewrite Ht. exists (drop k (Path.tail sub)).
    by rewrite take_drop.
Qed.

Lemma with_output_dir_lookup sub fs q n :
  with_output_dir sub fs !! q = Some n ->
  fs !! q = Some n \/ (fs !! q = None /\ n = Dir /\ Path.is_under q sub = true).
Proof.
  unfold with_output_dir. destruct (fs !! sub); [by left |].
  apply makedirs_on_path.
Qed.

Lemma with_output_dir_keeps sub fs q n :
  fs !! q = Some n -> with_output_dir sub fs !! q = Some n.
Proof.
  unfold with_output_dir. destruct (fs !! sub); [done |].
  apply makedirs_keeps.
Qed.

Lemma with_output_dir_sub sub fs :
  fs !! sub = None \/ fs !! sub = Some Dir ->
  Path.tail sub <> [] \/ is_Some (fs !! sub) ->
  with_output_dir sub fs !! sub = Some Dir.
Proof.
  unfold with_output_dir. intros [E|E] Hg; rewrite E; [| done].
  destruct Hg as [Hg | [x Hx]]; [| congruence].
  destruct (makedirs_creates fs (Path.root sub) [] (Path.tail sub) Hg)
    as [n Hn].
  simpl in Hn. rewrite mk_eta in Hn.
  destruct (makedirs_on_path _ _ _ _ Hn) as [? | (_ & -> & _)]; congruence.
Qed.

Lemma workspaces_app l1 l2 :
  workspaces (l1 ++ l2) = (workspaces l1 ++ workspaces l2)%list.
Proof. apply omap_app. Qed.

Lemma workspaces_echo_run l : workspaces (echo_run <$> l) = [].
Proof. induction l as [|x l IH]; [done |]. by rewrite fmap_cons. Qed.

Section DryRunFilesystem.
Context (os : OS).

(** The workspace and the paths of a dry run that returns are the ones
    its log and [process_paths] tell. *)
Lemma dry_run_exact_at c fs ps tmp :
  opt_dry_run c = true ->
  let r := run_dbm_minc os c (initial fs) in
  r.1 = Return tt ->
  (process_paths os c (initial fs)).1 = Return ps ->
  workspaces (w_log r.2) = [tmp] ->
  let sub := Path.joinpath (dpath_out ps)
               (Path.stem (materialized tmp (fpath_nifti ps))) in
  let fs1 := dry_materialized_fs tmp (fpath_nifti ps) (<[tmp := Dir]> fs) in
  let fs2 := with_output_dir sub fs1 in
  wf_path (fpath_nifti ps) /\
  existsb (Str.endswith (Path.str (fpath_nifti ps))) valid_file_formats
    = true /\
  (fs1 !! sub = None \/ fs1 !! sub = Some Dir) /\
  (opt_save_all c = true -> fs2 !! tmp = Some Dir) /\
  w_fs r.2 = rmtree tmp fs2 /\
  exists ts a,
    printed_commands (w_log r.2) =
    command_line <$>
      planned_invocations c ps ts tmp sub a
        (dry_copies (opt_save_all c) tmp a fs2).
Proof.
  intros Hdry r Hr Hps Hw.
  destruct (dry_run_exact os c fs Hdry Hr)
    as (ps' & a & Eps & Hn & Ho & Hc & _ & Hsub & Htmp & Er).
  apply first_failed_check_None in Hc as (_ & Hext & _).
  rewrite Eps in Hps. injection Hps as ->.
  fold r in Er. cbv zeta in Hsub, Htmp, Er.
  set (tmp' := Path.of_string _) in *. clearbody tmp'.
  assert (Hw' : workspaces (w_log r.2) = [tmp']).
  { rewrite Er. cbn [snd w_log].
    change (echo_run [AStr "date"] :: Mkdtemp tmp' :: ?l)
      with ([echo_run [AStr "date"]; Mkdtemp tmp'] ++ l)%list.
    by rewrite !workspaces_app, workspaces_echo_run. }
  rewrite Hw' in Hw. injection Hw as ->.
  split; [done |]. split; [done |]. split; [done |]. split; [done |].
  split; [by rewrite Er |].
  set (ts := mkTemplates _ _) in Er.
  exists ts, a. rewrite Er. cbn [snd w_log].
  change (echo_run [AStr "date"] :: Mkdtemp tmp :: ?l)
    with ([echo_run [AStr "date"]; Mkdtemp tmp] ++ l)%list.
  rewrite !printed_commands_app, printed_commands_echo_run.
  change (printed_commands [Cleanup tmp]) with (@nil string).
  rewrite app_nil_r. reflexivity.
Qed.

(** X8. A dry run is not free of effects on the filesystem, but they are
    confined.  When it returns, with workspace [tmp] and output
    subdirectory [sub], and no regular file lies on the path to [sub]:
    every entry outside the workspace is kept as it was; every entry of
    the final filesystem is an old one or a new directory on the path to
    [sub]; and [sub] exists as a directory, created with its missing
    parents although no command was run. *)
Theorem dry_run_filesystem (c : Config) (fs : FS) (ps : Paths)
    (tmp sub : Path.t) :
  opt_dry_run c = true ->
  let r := run_dbm_minc os c (initial fs) in
  r.1 = Return tt ->
  (process_paths os c (initial fs)).1 = Return ps ->
  workspaces (w_log r.2) = [tmp] ->
  sub = Path.joinpath (dpath_out ps)
          (Path.stem (materialized tmp (fpath_nifti ps))) ->
  (forall q, Path.is_under q sub = true -> fs !! q <> Some File) ->
  (forall q n,
     Path.is_under tmp q = false -> fs !! q = Some n ->
     w_fs r.2 !! q = Some n) /\
  (forall q n,
     w_fs r.2 !! q = Some n ->
     fs !! q = Some n \/
     (fs !! q = None /\ n = Dir /\ Path.is_under q sub = true)) /\
  (Path.is_under tmp sub = false ->
   Path.tail sub <> [] \/ is_Some (fs !! sub) ->
   w_fs r.2 !! sub = Some Dir).
Proof.
  intros Hdry r Hr Hps Hw -> Hfile.
  destruct (dry_run_exact_at c fs ps tmp Hdry Hr Hps Hw)
    as (Hn & _ & Hsub & _ & Er & _).
  fold r in Er. set (sub := Path.joinpath _ _) in *.
  set (fs1 := dry_materialized_fs _ _ _) in *.
  assert (Hout : forall q, Path.is_under tmp q = false -> fs1 !! q = fs !! q).
  { intros q Hq. by apply dry_materialized_fs_lookup. }
  rewrite Er. split; [| split].
  - intros q n Hq E. rewrite rmtree_lookup_ne by done.
    apply with_output_dir_keeps. by rewrite Hout.
  - intros q n [Hq E]%rmtree_lookup_Some.
    apply with_output_dir_lookup in E as [E | (E & -> & Hu)].
    + left. by rewrite <- Hout.
    + right. by rewrite <- Hout.
  - intros Hq Hg. rewrite rmtree_lookup_ne by done.
    apply with_output_dir_sub; [done |]. by rewrite Hout.
Qed.

End DryRunFilesystem.

Lemma dry_run_filesystem_witness :
  let c := Ex.cfg Ex.scan false false true false in
  let r := run_dbm_minc Ex.os_ok c (initial Ex.fs) in
  let ps := mkPaths (Ex.P Ex.scan) (Ex.P "/out")
              (Ex.P "/share/icbm152_model_09c")
              (Ex.P "/share/beast-library-1.1") in
  let tmp := Ex.P "/tmp/tmpk3v9" in
  let sub := Ex.P "/out/scan001" in
  opt_dry_run c = true /\ r.1 = Return tt /\
  (process_paths Ex.os_ok c (initial Ex.fs)).1 = Return ps /\
  workspaces (w_log r.2) = [tmp] /\
  (forall q, Path.is_under q sub = true -> Ex.fs !! q <> Some File) /\
  Ex.fs !! sub = None /\ Ex.fs !! Ex.P "/out" = None /\
  w_fs r.2 !! sub = Some Dir /\
  w_fs r.2 !! Ex.P "/data/scan001.nii.gz" = Some File.
Proof.
  intros c r ps tmp sub.
  assert (Hdry : opt_dry_run c = true) by reflexivity.
  assert (Hr : r.1 = Return tt) by (vm_compute; reflexivity).
  assert (Hps : (process_paths Ex.os_ok c (initial Ex.fs)).1 = Return ps)
    by (vm_compute; reflexivity).
  assert (Hw : workspaces (w_log r.2) = [tmp]) by (vm_compute; reflexivity).
  assert (Hsub : sub = Path.joinpath (dpath_out ps)
                         (Path.stem (materialized tmp (fpath_nifti ps))))
    by (vm_compute; reflexivity).
  assert (Hfile : forall q, Path.is_under q sub = true ->
                            Ex.fs !! q <> Some File).
  { intros [rt t] Hq. unfold Path.is_under in Hq.
    apply andb_true_iff in Hq as [H1 H2].
    apply bool_decide_eq_true in H1. apply bool_decide_eq_true in H2.
    cbn [Path.root Path.tail] in H1, H2. subst rt.
    destruct H2 as [k Hk]. change (Path.tail sub) with ["out"; "scan001"] in Hk.
    destruct t as [|x [|y [|z t]]]; cbn [app] in Hk.
    - vm_compute. discriminate.
    - injection Hk as Hx _. subst x. vm_compute. discriminate.
    - injection Hk as Hx Hy _. subst x y. vm_compute. discriminate.
    - injection Hk as _ _ Hk. discriminate Hk. }
  destruct (dry_run_filesystem Ex.os_ok c Ex.fs ps tmp sub
              Hdry Hr Hps Hw Hsub Hfile) as (Hkeep & _ & Hdir).
  split; [exact Hdry |]. split; [exact Hr |]. split; [exact Hps |].
  split; [exact Hw |]. split; [exact Hfile |].
  split; [vm_compute; reflexivity |]. split; [vm_compute; reflexivity |].
  split.
  - apply Hdir; [vm_compute; reflexivity | left; vm_compute; discriminate].
  - apply Hkeep; vm_compute; reflexivity.
Defined.

(** ** The listing of the workspace *)

Lemma elem_of_children fs d q :
  q ∈ children fs d <->
  is_Some (fs !! q) /\ Path.tail q <> [] /\ Path.parent q = d.
Proof.
  unfold children. rewrite list_elem_of_In, filter_In, <- list_elem_of_In.
  rewrite list_elem_of_fmap, andb_true_iff, negb_true_iff.
  rewrite bool_decide_eq_false, bool_decide_eq_true.
  split.
  - intros [([q' n] & -> & Hin) [H1 H2]].
    apply elem_of_map_to_list in Hin. simpl in *. eauto.
  - intros [[n Hn] [H1 H2]]. split; [| done].
    exists (q, n). split; [done |]. by apply elem_of_map_to_list.
Qed.

Lemma NoDup_children fs d : NoDup (children fs d).
Proof.
  unfold children. apply NoDup_ListNoDup, List.NoDup_filter.
  apply NoDup_ListNoDup, NoDup_fst_map_to_list.
Qed.

Lemma NoDup_only {A} (l : list A) a :
  NoDup l -> (forall x, x ∈ l <-> x = a) -> l = [a].
Proof.
  intros Hnd H. destruct l as [|x [|y l]].
  - assert (Ha : a ∈ @nil A) by by apply H. by apply elem_of_nil in Ha.
  - f_equal. apply H. by left.
  - assert (x = a) as -> by (apply H; by left).
    assert (y = a) as -> by (apply H; right; by left).
    apply NoDup_cons in Hnd as [Hnd _]. exfalso. apply Hnd. by left.
Qed.

Lemma none_nil {A} (l : list A) : (forall x, x ∉ l) -> l = [].
Proof. destruct l as [|x l]; [done |]. intros H. destruct (H x). by left. Qed.

Lemma is_under_trans a b c :
  Path.is_under a b = true -> Path.is_under b c = true ->
  Path.is_under a c = true.
Proof.
  unfold Path.is_under. rewrite !andb_true_iff, !bool_decide_eq_true.
  intros [-> H1] [-> H2]. split; [done | by etrans].
Qed.

Lemma child_is_under d q :
  Path.tail q <> [] -> Path.parent q = d -> Path.is_under d q = true.
Proof.
  intros Ht <-. unfold Path.is_under, Path.parent. cbn [Path.root Path.tail].
  rewrite !bool_decide_eq_true_2; [done | | done].
  exists [List.last (Path.tail q) ""]. by apply app_removelast_last.
Qed.

Lemma child_neq d q : Path.tail q <> [] -> Path.parent q = d -> q <> d.
Proof.
  intros Ht <- E. apply (f_equal (fun p => List.length (Path.tail p))) in E.
  unfold Path.parent in E. cbn [Path.tail] in E.
  rewrite (app_removelast_last "" Ht) in E at 1.
  rewrite length_app in E. simpl in E. lia.
Qed.

(** The name of the file a validated zipped scan is unzipped to. *)
Lemma materialized_gz tmp nifti :
  wf_path nifti ->
  existsb (Str.endswith (Path.str nifti)) valid_file_formats = true ->
  String.eqb (Path.suffix nifti) EXT_GZIP = true ->
  let raw := materialized tmp nifti in
  Path.tail raw <> [] /\ Path.parent raw = tmp.
Proof.
  intros Hwf Hext Hgz. unfold materialized. rewrite Hgz.
  apply String.eqb_eq in Hgz.
  assert (Hc : component (Path.stem nifti)).
  { unfold valid_file_formats in Hext. cbn [existsb] in Hext.
    rewrite orb_false_r in Hext. apply orb_true_iff in Hext as [H|H].
    - destruct (str_endswith_name nifti EXT_NIFTI Hwf) as (_ & pre & E);
        [compute; lia | done | done |].
      by apply nii_name in E.
    - destruct (str_endswith_name nifti (EXT_NIFTI +:+ EXT_GZIP) Hwf)
        as (Hcn & pre & E); [compute; lia | done | done |].
      destruct (gz_name (Path.name nifti) pre Hcn E) as (_ & Hb & _ & Hst).
      unfold Path.stem. by rewrite Hst. }
  rewrite (joinpath_component _ _ Hc).
  split; [by destruct (Path.tail tmp) | by rewrite parent_snoc, mk_eta].
Qed.

Section SaveAllDry.
Context (os : OS).

(** X9. With [--save-all], a dry run plans the copies from what its own
    workspace holds, not from what a real run would produce.  When it
    returns, with a workspace [tmp] that was free before and does not
    contain the output subdirectory, the printed plan has one [cp], for
    the empty file opened for the output of [zcat], when the scan is
    zipped, and no [cp] at all when it is not. *)
Theorem dry_run_save_all (c : Config) (fs : FS) (ps : Paths)
    (tmp sub : Path.t) :
  opt_dry_run c = true -> opt_save_all c = true ->
  let r := run_dbm_minc os c (initial fs) in
  r.1 = Return tt ->
  (process_paths os c (initial fs)).1 = Return ps ->
  workspaces (w_log r.2) = [tmp] ->
  sub = Path.joinpath (dpath_out ps)
          (Path.stem (materialized tmp (fpath_nifti ps))) ->
  (forall q, Path.is_under tmp q = true -> fs !! q = None) ->
  Path.is_under tmp sub = false ->
  (forall q, Path.is_under q sub = true -> fs !! q <> Some File) ->
  exists ts a,
    printed_commands (w_log r.2) =
    command_line <$>
      planned_invocations c ps ts tmp sub a
        (if String.eqb (Path.suffix (fpath_nifti ps)) EXT_GZIP
         then [materialized tmp (fpath_nifti ps)] else []).
Proof.
  intros Hdry Hall r Hr Hps Hw -> Hfresh Hsep _.
  destruct (dry_run_exact_at os c fs ps tmp Hdry Hr Hps Hw)
    as (Hn & Hext & Hsub & _ & _ & ts & a & Hp).
  fold r in Hp. exists ts, a. rewrite Hp, Hall. unfold dry_copies.
  set (sub := Path.joinpath _ _) in *.
  set (fs1 := dry_materialized_fs _ _ _) in *.
  set (raw := materialized tmp (fpath_nifti ps)).
  f_equal. f_equal.
  assert (Hin : forall q,
            q ∈ children (with_output_dir sub fs1) tmp ->
            is_Some (fs1 !! q) /\ Path.is_under tmp q = true /\ q <> tmp).
  { intros q ([n Hq] & Ht & Hpar)%elem_of_children.
    pose proof (child_is_under _ _ Ht Hpar) as Hu.
    split; [| split; [done | by apply child_neq]].
    apply with_output_dir_lookup in Hq as [Hq | (_ & _ & Hq)]; [by eexists |].
    by rewrite (is_under_trans _ _ _ Hu Hq) in Hsep. }
  subst fs1. unfold dry_materialized_fs in *.
  destruct (String.eqb (Path.suffix (fpath_nifti ps)) EXT_GZIP) eqn:Hgz.
  - destruct (materialized_gz tmp _ Hn Hext Hgz) as [Ht Hpar]. fold raw in Ht, Hpar.
    apply NoDup_only; [apply NoDup_children |].
    intros q. split.
    + intros (Hq & Hu & Hne)%Hin.
      destruct (decide (q = raw)) as [|Hr']; [done |].
      rewrite !lookup_insert_ne in Hq by done.
      rewrite (Hfresh q Hu) in Hq. by destruct Hq.
    + intros ->. apply elem_of_children. split; [| done].
      eexists. apply with_output_dir_keeps. apply lookup_insert_eq.
  - apply none_nil. intros q (Hq & Hu & Hne)%Hin.
    rewrite lookup_insert_ne in Hq by done.
    rewrite (Hfresh q Hu) in Hq. by destruct Hq.
Qed.

End SaveAllDry.

Lemma dry_run_save_all_witness :
  let c := Ex.cfg Ex.scan true false true false in
  let r := run_dbm_minc Ex.os_ok c (initial Ex.fs) in
  let ps := mkPaths (Ex.P Ex.scan) (Ex.P "/out")
              (Ex.P "/share/icbm152_model_09c")
              (Ex.P "/share/beast-library-1.1") in
  let tmp := Ex.P "/tmp/tmpk3v9" in
  let sub := Ex.P "/out/scan001" in
  opt_dry_run c = true /\ opt_save_all c = true /\ r.1 = Return tt /\
  (process_paths Ex.os_ok c (initial Ex.fs)).1 = Return ps /\
  workspaces (w_log r.2) = [tmp] /\
  (forall q, Path.is_under tmp q = true -> Ex.fs !! q = None) /\
  Path.is_under tmp sub = false /\
  (forall q, Path.is_under q sub = true -> Ex.fs !! q <> Some File) /\
  filter (Str.startswith "cp ") (printed_commands (w_log r.2))
  = ["cp -vfp /tmp/tmpk3v9/scan001.nii /out/scan001"] /\
  exists ts a,
    printed_commands (w_log r.2) =
    command_line <$>
      planned_invocations c ps ts tmp sub a
        [materialized tmp (fpath_nifti ps)].
Proof.
  intros c r ps tmp sub.
  assert (Hdry : opt_dry_run c = true) by reflexivity.
  assert (Hall : opt_save_all c = true) by reflexivity.
  assert (Hr : r.1 = Return tt) by (vm_compute; reflexivity).
  assert (Hps : (process_paths Ex.os_ok c (initial Ex.fs)).1 = Return ps)
    by (vm_compute; reflexivity).
  assert (Hw : workspaces (w_log r.2) = [tmp]) by (vm_compute; reflexivity).
  assert (Hsub : sub = Path.joinpath (dpath_out ps)
                         (Path.stem (materialized tmp (fpath_nifti ps))))
    by (vm_compute; reflexivity).
  assert (Hfresh : forall q, Path.is_under tmp q = true -> Ex.fs !! q = None).
  { intros q Hq. destruct (Ex.fs !! q) as [n|] eqn:E; [| done].
    assert (H : map_Forall (fun q _ => Path.is_under tmp q = false) Ex.fs).
    { apply map_Forall_to_list.
      match goal with
      | |- Forall _ (map_to_list ?m) =>
          let l := eval vm_compute in (map_to_list m) in
          replace (map_to_list m) with l by (vm_compute; reflexivity)
      end.
      repeat (constructor; [vm_compute; reflexivity |]). constructor. }
    specialize (H q n E). simpl in H. congruence. }
  assert (Hsep : Path.is_under tmp sub = false) by (vm_compute; reflexivity).
  assert (Hfile : forall q, Path.is_under q sub = true ->
                            Ex.fs !! q <> Some File).
  { intros q Hq E.
    assert (H : map_Forall (fun q n => Path.is_under q sub = true -> n <> File)
                  Ex.fs).
    { apply map_Forall_to_list.
      match goal with
      | |- Forall _ (map_to_list ?m) =>
          let l := eval vm_compute in (map_to_list m) in
          replace (map_to_list m) with l by (vm_compute; reflexivity)
      end.
      repeat (constructor; [vm_compute; intros; discriminate |]).
      constructor. }
    exact (H q File E Hq eq_refl). }
  split; [exact Hdry |]. split; [exact Hall |]. split; [exact Hr |].
  split; [exact Hps |]. split; [exact Hw |]. split; [exact Hfresh |].
  split; [exact Hsep |]. split; [exact Hfile |].
  split; [vm_compute; reflexivity |].
  exact (dry_run_save_all Ex.os_ok c Ex.fs ps tmp sub Hdry Hall Hr Hps Hw
           Hsub Hfresh Hsep Hfile).
Defined.

(** ** Where the artifacts lie *)

Lemma with_suffix_root p sfx q :
  Path.with_suffix p sfx = Some q -> Path.root q = Path.root p.
Proof.
  unfold Path.with_suffix.
  repeat (match goal with |- context [if ?b then _ else _] => destruct b end;
          [done |]).
  by intros [= <-].
Qed.

Lemma NoDup_suffix_chain :
  NoDup [".nii"; ".mnc"; ".denoised.mnc"; ".denoised.norm.mnc";
         ".denoised.norm.xfm"; ".denoised.norm.mask.mnc";
         ".denoised.norm.extracted.mnc"; ".denoised.norm.extracted.nl.mnc";
         ".denoised.norm.extracted.nl.xfm";
         ".denoised.norm.extracted.nl.dbm.mnc";
         ".denoised.norm.extracted.nl.dbm.reshaped.mnc";
         ".denoised.norm.extracted.nl.dbm.reshaped.nii"].
Proof.
  repeat (apply NoDup_cons; split);
    [rewrite ?elem_of_cons, elem_of_nil..| apply NoDup_nil_2];
    intros H; repeat destruct H as [H | H]; discriminate || done.
Qed.

Section ArtifactsInWorkspace.
Context (os : OS).

(** X10. Once the stages have returned on a materialized scan [raw_nii]
    that lies directly in an absolute workspace and has the extension
    [.nii], every path a stage was told to write lies directly in the
    workspace too, and the twelve paths are pairwise distinct: no tool
    is given its input, or another tool's output, as its output. *)
Theorem artifacts_in_workspace (verbosity : Z) (dry_run : bool)
    (template conf : string) (ps : Paths) (ts : Templates)
    (tmp raw_nii : Path.t) (w : World) (a : Artifacts) :
  wf_path tmp -> wf_path raw_nii ->
  Path.root raw_nii = true -> Path.parent raw_nii = tmp ->
  Path.suffix raw_nii = EXT_NIFTI ->
  (run_stages os verbosity dry_run template conf ps ts tmp raw_nii w).1
    = Return a ->
  let all := [raw_nii; fpath_raw a; fpath_denoised a; fpath_norm a;
              fpath_norm_transform a; fpath_mask a; fpath_extracted a;
              fpath_nonlinear a; fpath_nonlinear_transform a;
              fpath_dbm a; fpath_dbm_reshaped a; fpath_dbm_nii a] in
  Forall (fun p => Path.parent p = tmp /\ Path.root p = true) all /\
  NoDup all.
Proof.
  intros Htmp Hraw Hroot Hpar Hsfx Hrun all.
  destruct (artifact_names os _ _ _ _ _ _ _ _ _ _ Htmp Hraw Hrun)
    as (HB & Hnames & Hpars).
  destruct (run_stages_paths os _ _ _ _ _ _ _ _ _ _ Hrun)
    as (raw_mnc & E0 & E1 & E2 & E3 & E4 & E5 & E6 & E7 & E8 & E9 & E10 & E11).
  destruct (with_suffix_name raw_nii EXT_MINC raw_mnc Hraw
              ltac:(compute; lia) E0) as (W0 & P0 & _ & _).
  pose proof (with_suffix_root _ _ _ E0) as R0. rewrite Hroot in R0.
  assert (E1' : fpath_raw a = raw_mnc).
  { rewrite E1. unfold Path.join. by rewrite R0. }
  assert (P1 : Path.parent (fpath_raw a) = tmp) by (by rewrite E1', P0).
  split.
  - assert (Hall : Forall (fun p => Path.parent p = tmp) all).
    { subst all. constructor; [done |]. constructor; [done |].
      eapply Forall_impl; [exact Hpars |]. simpl. intros p ->. done. }
    eapply Forall_impl; [exact Hall |]. simpl. intros p Hp.
    split; [done |]. apply (f_equal Path.root) in Hp.
    rewrite <- Hpar in Hp. simpl in Hp. by rewrite Hroot in Hp.
  - apply (NoDup_fmap_1 Path.name). subst all. rewrite fmap_cons, Hnames.
    assert (Hn : Path.name raw_nii = Path.stem raw_nii +:+ ".nii").
    { rewrite (name_stem_suffix (Path.name raw_nii)) at 1.
      fold (Path.stem raw_nii). fold (Path.suffix raw_nii). by rewrite Hsfx. }
    rewrite Hn.
    assert (Hinj : Inj (=) (=) (fun x => Path.stem raw_nii +:+ x))
      by (intros x y; apply str_app_inv_head).
    exact (NoDup_fmap_2 (fun x => Path.stem raw_nii +:+ x) _
             NoDup_suffix_chain).
Qed.

End ArtifactsInWorkspace.

Lemma artifacts_in_workspace_witness :
  let c := Ex.cfg Ex.scan false false true false in
  let ps := mkPaths (Ex.P Ex.scan) (Ex.P "/out")
              (Ex.P "/share/icbm152_model_09c")
              (Ex.P "/share/beast-library-1.1") in
  let ts := mkTemplates
              (Ex.P "/share/icbm152_model_09c/mni_icbm152_t1_tal_nlin_sym_09c.mnc")
              (Ex.P "/share/icbm152_model_09c/mni_icbm152_t1_tal_nlin_sym_09c_mask.mnc") in
  let tmp := Ex.P "/tmp/tmpk3v9" in
  let raw_nii := Ex.P "/tmp/tmpk3v9/scan001.nii" in
  let w := mkWorld (<[tmp := Dir]> Ex.fs) [] in
  let a := mkArtifacts
    (Ex.P "/tmp/tmpk3v9/scan001.mnc")
    (Ex.P "/tmp/tmpk3v9/scan001.denoised.mnc")
    (Ex.P "/tmp/tmpk3v9/scan001.denoised.norm.mnc")
    (Ex.P "/tmp/tmpk3v9/scan001.denoised.norm.xfm")
    (Ex.P "/tmp/tmpk3v9/scan001.denoised.norm.mask.mnc")
    (Ex.P "/tmp/tmpk3v9/scan001.denoised.norm.extracted.mnc")
    (Ex.P "/tmp/tmpk3v9/scan001.denoised.norm.extracted.nl.mnc")
    (Ex.P "/tmp/tmpk3v9/scan001.denoised.norm.extracted.nl.xfm")
    (Ex.P "/tmp/tmpk3v9/scan001.denoised.norm.extracted.nl.dbm.mnc")
    (Ex.P "/tmp/tmpk3v9/scan001.denoised.norm.extracted.nl.dbm.reshaped.mnc")
    (Ex.P "/tmp/tmpk3v9/scan001.denoised.norm.extracted.nl.dbm.reshaped.nii") in
  let all := [raw_nii; fpath_raw a; fpath_denoised a; fpath_norm a;
              fpath_norm_transform a; fpath_mask a; fpath_extracted a;
              fpath_nonlinear a; fpath_nonlinear_transform a;
              fpath_dbm a; fpath_dbm_reshaped a; fpath_dbm_nii a] in
  wf_path tmp /\ wf_path raw_nii /\
  Path.root raw_nii = true /\ Path.parent raw_nii = tmp /\
  Path.suffix raw_nii = EXT_NIFTI /\
  (run_stages Ex.os_ok 2 true (opt_template_prefix c) (opt_beast_conf c)
     ps ts tmp raw_nii w).1 = Return a /\
  Forall (fun p => Path.parent p = tmp /\ Path.root p = true) all /\
  NoDup all.
Proof.
  intros c ps ts tmp raw_nii w a all.
  assert (Htmp : wf_path tmp) by apply of_string_wf.
  assert (Hraw : wf_path raw_nii) by apply of_string_wf.
  assert (Hroot : Path.root raw_nii = true) by reflexivity.
  assert (Hpar : Path.parent raw_nii = tmp) by (vm_compute; reflexivity).
  assert (Hsfx : Path.suffix raw_nii = EXT_NIFTI) by (vm_compute; reflexivity).
  assert (Hrun : (run_stages Ex.os_ok 2 true (opt_template_prefix c)
                    (opt_beast_conf c) ps ts tmp raw_nii w).1 = Return a)
    by (vm_compute; reflexivity).
  split; [exact Htmp |]. split; [exact Hraw |]. split; [exact Hroot |].
  split; [exact Hpar |]. split; [exact Hsfx |]. split; [exact Hrun |].
  exact (artifacts_in_workspace Ex.os_ok 2 true _ _ ps ts tmp raw_nii w a
           Htmp Hraw Hroot Hpar Hsfx Hrun).
Defined.

(** ** [add_suffix] with other separators *)

Lemma startswith_app pre s : Str.startswith pre (pre +:+ s) = true.
Proof. apply startswith_spec. by exists s. Qed.

Lemma drop_app pre s : Str.drop (String.length pre) (pre +:+ s) = s.
Proof. induction pre as [|a pre IH]; [done | exact IH]. Qed.

(** X11. [add_suffix] takes a suffix with or without its leading
    separator: one leading separator is stripped before the name is
    assembled, so that [add_suffix p ".denoised"] is
    [add_suffix p "denoised"].  No more than one is stripped. *)
Theorem add_suffix_strips_separator (p : Path.t) (sep s : string) :
  add_suffix p (sep +:+ s) (Some sep) =
    Path.joinpath (Path.parent p)
      (Path.stem p +:+ sep +:+ s +:+ Path.suffix p) /\
  (Str.startswith sep s = false ->
   add_suffix p s (Some sep) = add_suffix p (sep +:+ s) (Some sep)).
Proof.
  unfold add_suffix. rewrite startswith_app, drop_app.
  split; [done |]. by intros ->.
Qed.

(** ** The template files *)

Lemma stem_suffix_mnc S :
  S <> "" ->
  Path.stem_of_name (S +:+ EXT_MINC) = S /\
  Path.suffix_of_name (S +:+ EXT_MINC) = EXT_MINC.
Proof.
  intros HS. change EXT_MINC with ("." +:+ "mnc").
  by apply stem_suffix_dotted.
Qed.

Lemma component_app_ext S ext :
  S <> "" -> Str.contains "/" S = false -> Str.contains "/" ext = false ->
  ext <> "" -> component (S +:+ ext).
Proof.
  intros HS Hs He Hne. split; [| by rewrite contains_app, Hs, He].
  unfold Path.is_component.
  destruct (String.eqb_spec (S +:+ ext) "") as [E|_];
    [by apply str_app_eq_nil in E as [? _] |].
  destruct (String.eqb_spec (S +:+ ext) ".") as [E|_]; [| done].
  apply (f_equal String.length) in E. rewrite str_app_length in E.
  destruct S; [done |]. destruct ext; [done |]. simpl in E. lia.
Qed.

(** X12. The two template files the validation looks for: for a template
    identifier that is not empty and has no slash, they are
    [<id>.mnc] and [<id>_mask.mnc], both directly in the template
    directory; [check_paths] returns these two paths, and only when both
    exist. *)
Theorem template_files (template : string) (ps : Paths) (w : World)
    (ts : Templates) :
  template <> "" -> Str.contains "/" template = false ->
  (check_paths template ps w).1 = Return ts ->
  let dir := dpath_templates ps in
  fpath_template ts = Path.joinpath dir (template +:+ ".mnc") /\
  fpath_template_mask ts = Path.joinpath dir (template +:+ "_mask.mnc") /\
  Path.name (fpath_template ts) = template +:+ ".mnc" /\
  Path.name (fpath_template_mask ts) = template +:+ "_mask.mnc" /\
  Path.parent (fpath_template ts) = dir /\
  Path.parent (fpath_template_mask ts) = Path.parent (fpath_template ts) /\
  present (w_fs w) (fpath_template ts) = true /\
  present (w_fs w) (fpath_template_mask ts) = true.
Proof.
  intros Hne Hsl. rewrite check_paths_spec.
  destruct (first_failed_check _ _ _) eqn:Ec; [done |].
  cbv zeta. intros [= <-]. cbn [fpath_template fpath_template_mask].
  apply first_failed_check_None in Ec as (_ & _ & Ht & Hm & _).
  cbv zeta in Ht, Hm.
  assert (Hc : component (template +:+ EXT_MINC))
    by (by apply component_app_ext).
  assert (Hc' : component (template +:+ "_mask.mnc"))
    by (by apply component_app_ext).
  destruct (stem_suffix_mnc template Hne) as [Est Esf].
  assert (Em : add_suffix
                 (Path.joinpath (dpath_templates ps) (template +:+ EXT_MINC))
                 SUFFIX_TEMPLATE_MASK None
               = Path.joinpath (dpath_templates ps) (template +:+ "_mask.mnc")).
  { unfold add_suffix. rewrite (joinpath_component _ _ Hc).
    unfold Path.stem, Path.suffix. rewrite name_snoc, parent_snoc, Est, Esf.
    by rewrite mk_eta. }
  rewrite Em in *.
  rewrite !(joinpath_component _ _ Hc), !(joinpath_component _ _ Hc') in *.
  rewrite !name_snoc, !parent_snoc, mk_eta. done.
Qed.

Lemma template_files_witness :
  let ps := mkPaths (Ex.P Ex.scan) (Ex.P "/out")
              (Ex.P "/share/icbm152_model_09c")
              (Ex.P "/share/beast-library-1.1") in
  let ts := mkTemplates
              (Ex.P "/share/icbm152_model_09c/mni_icbm152_t1_tal_nlin_sym_09c.mnc")
              (Ex.P "/share/icbm152_model_09c/mni_icbm152_t1_tal_nlin_sym_09c_mask.mnc") in
  DEFAULT_TEMPLATE <> "" /\ Str.contains "/" DEFAULT_TEMPLATE = false /\
  (check_paths DEFAULT_TEMPLATE ps (initial Ex.fs)).1 = Return ts /\
  Path.name (fpath_template_mask ts) = DEFAULT_TEMPLATE +:+ "_mask.mnc" /\
  present Ex.fs (fpath_template_mask ts) = true.
Proof.
  intros ps ts.
  assert (Hne : DEFAULT_TEMPLATE <> "") by discriminate.
  assert (Hsl : Str.contains "/" DEFAULT_TEMPLATE = false)
    by (vm_compute; reflexivity).
  assert (Hc : (check_paths DEFAULT_TEMPLATE ps (initial Ex.fs)).1 = Return ts)
    by (vm_compute; reflexivity).
  destruct (template_files DEFAULT_TEMPLATE ps (initial Ex.fs) ts Hne Hsl Hc)
    as (_ & _ & _ & Hn & _ & _ & _ & Hp).
  split; [exact Hne |]. split; [exact Hsl |]. split; [exact Hc |].
  split; [exact Hn | exact Hp].
Defined.

(** ** More on the validation *)

Section MoreValidation.
Context (os : OS).

(** X13. The checks of [check_paths] test existence only, never the kind
    of an entry: on two filesystems that have the same paths, whatever
    is a file or a directory in each, [check_paths] ends the same way
    and prints the same.  A directory named like a scan passes as the
    input file, a regular file passes as the BEaST library. *)
Theorem check_paths_existence_only (template : string) (ps : Paths)
    (fs fs' : FS) (log : list event) :
  (forall p, is_Some (fs !! p) <-> is_Some (fs' !! p)) ->
  let m := check_paths template ps (mkWorld fs log) in
  let m' := check_paths template ps (mkWorld fs' log) in
  m.1 = m'.1 /\ w_log m.2 = w_log m'.2.
Proof.
  intros H m m'. subst m m'. rewrite !check_paths_spec. cbn [w_fs].
  assert (Hp : forall p, present fs p = present fs' p).
  { intros p. unfold present. apply bool_decide_ext, H. }
  assert (Hf : first_failed_check fs template ps
               = first_failed_check fs' template ps).
  { unfold first_failed_check. by rewrite !Hp. }
  rewrite Hf. by destruct (first_failed_check fs' template ps).
Qed.

(** X14. With an explicit template directory the table of template names
    is never consulted: [process_paths] raises no [KeyError], whatever
    the template identifier, and the template directory is the processed
    [--template-dir].  It can only fail on a home directory that cannot
    be determined, or on the missing [--share-dir] when the BEaST library
    directory is not given either. *)
Theorem explicit_template_dir (c : Config) (t : string) (w : World) :
  opt_dpath_templates c = Some t ->
  let m := process_paths os c w in
  (forall ps, m.1 = Return ps ->
     process_path os t = Return (dpath_templates ps)) /\
  (forall e, m.1 = Raise e ->
     e = RuntimeError \/
     (e = SystemExit 1 /\ opt_dpath_share c = None /\
      opt_dpath_beast_lib c = None)).
Proof.
  intros Ht m. subst m. unfold process_paths. rewrite Ht.
  unfold bind, lift, when, print_error_and_exit, echo, emit, raise, ret,
    truediv.
  destruct (process_path_cases os (opt_fpath_nifti c)) as [[p1 ->] | ->];
    [| split; [done | intros e [= <-]; by left]].
  destruct (process_path_cases os (opt_dpath_out c)) as [[p2 ->] | ->];
    [| split; [done | intros e [= <-]; by left]].
  destruct (opt_dpath_share c) as [s|].
  - destruct (process_path_cases os s) as [[p3 ->] | ->];
      [| split; [done | intros e [= <-]; by left]].
    destruct (process_path_cases os t) as [[p4 ->] | ->];
      [| split; [done | intros e [= <-]; by left]].
    destruct (opt_dpath_beast_lib c) as [b|].
    + destruct (process_path_cases os b) as [[p5 ->] | ->];
        [| split; [done | intros e [= <-]; by left]].
      split; [by intros ps [= <-] | done].
    + split; [by intros ps [= <-] | done].
  - destruct (opt_dpath_beast_lib c) as [b|]; cbn [bool_decide orb fst snd].
    + rewrite bool_decide_eq_false_2 by done.
      rewrite bool_decide_eq_false_2 by done. cbn [orb fst snd].
      destruct (process_path_cases os t) as [[p4 ->] | ->];
        [| split; [done | intros e [= <-]; by left]].
      destruct (process_path_cases os b) as [[p5 ->] | ->];
        [| split; [done | intros e [= <-]; by left]].
      split; [by intros ps [= <-] | done].
    + rewrite bool_decide_eq_false_2 by done.
      rewrite bool_decide_eq_true_2 by done. cbn [orb fst snd].
      split; [done |]. intros e [= <-]. by right.
Qed.

End MoreValidation.

Lemma check_paths_existence_only_witness :
  let ps := mkPaths (Ex.P Ex.scan) (Ex.P "/out")
              (Ex.P "/share/icbm152_model_09c")
              (Ex.P "/share/beast-library-1.1") in
  let fs' : FS := (fun _ => Dir) <$> Ex.fs in
  let m := check_paths DEFAULT_TEMPLATE ps (mkWorld Ex.fs []) in
  let m' := check_paths DEFAULT_TEMPLATE ps (mkWorld fs' []) in
  (forall p, is_Some (Ex.fs !! p) <-> is_Some (fs' !! p)) /\
  Ex.fs !! Ex.P Ex.scan = Some File /\ fs' !! Ex.P Ex.scan = Some Dir /\
  m.1 = m'.1 /\ w_log m.2 = w_log m'.2.
Proof.
  intros ps fs' m m'.
  assert (H : forall p, is_Some (Ex.fs !! p) <-> is_Some (fs' !! p)).
  { intros p. subst fs'. rewrite lookup_fmap. by rewrite fmap_is_Some. }
  split; [exact H |]. split; [vm_compute; reflexivity |].
  split; [vm_compute; reflexivity |].
  exact (check_paths_existence_only DEFAULT_TEMPLATE ps Ex.fs fs' [] H).
Defined.

Lemma explicit_template_dir_witness :
  let c := mkConfig Ex.scan "/out" (Some "/share")
             (Some "/share/icbm152_model_09c") "my_own_template" None
             DEFAULT_BEAST_CONF false false true DEFAULT_VERBOSITY false in
  let m := process_paths Ex.os_ok c (initial Ex.fs) in
  opt_dpath_templates c = Some "/share/icbm152_model_09c" /\
  DNAME_TEMPLATE_MAP !! opt_template_prefix c = None /\
  (exists ps, m.1 = Return ps) /\
  forall ps, m.1 = Return ps ->
    process_path Ex.os_ok "/share/icbm152_model_09c"
    = Return (dpath_templates ps).
Proof.
  intros c m.
  assert (Ht : opt_dpath_templates c = Some "/share/icbm152_model_09c")
    by reflexivity.
  split; [exact Ht |]. split; [vm_compute; reflexivity |].
  split; [eexists; vm_compute; reflexivity |].
  exact (proj1 (explicit_template_dir Ex.os_ok c _ (initial Ex.fs) Ht)).
Defined.

(** ** An output path that is taken by a file *)

Section OutputIsFile.
Context (os : OS).

(** X15. When the path of the output subdirectory is taken by a regular
    file, the run cannot go on, with or without [--overwrite]: [mkdir]
    raises [FileExistsError], the handler lists the path and gets
    [NotADirectoryError], which leaves the pipeline before any stage
    command; the handler of the script turns it into a traceback and
    exit code 1. *)
Theorem output_path_is_file (verbosity : Z) (dry_run : bool) (c : Config)
    (ps : Paths) (ts : Templates) (tmp raw : Path.t) (w : World) :
  let m := materialize os verbosity dry_run tmp (fpath_nifti ps) w in
  m.1 = Return raw ->
  let sub := Path.joinpath (dpath_out ps) (Path.stem raw) in
  w_fs m.2 !! sub = Some File ->
  let r := pipeline os verbosity dry_run c ps ts tmp w in
  r = (Raise (NotADirectoryError sub), m.2) /\
  (handled (NotADirectoryError sub) r.2).1 = Raise (SystemExit 1) /\
  w_log (handled (NotADirectoryError sub) r.2).2 =
    (w_log m.2 ++
     [Echo PREFIX_ERR (Traceback (NotADirectoryError sub)) "red" false])%list.
Proof.
  intros m Hm sub Hsub r.
  assert (Hr : r = (Raise (NotADirectoryError sub), m.2)).
  { subst r. unfold pipeline. unfold bind at 1. fold m.
    destruct m as [o w1]. cbn [fst snd] in *. subst o.
    unfold bind at 1. rewrite make_output_dir_spec. fold sub.
    by rewrite Hsub. }
  rewrite Hr. done.
Qed.

End OutputIsFile.

Lemma output_path_is_file_witness :
  let c := Ex.cfg Ex.scan false true true false in
  let ps := mkPaths (Ex.P Ex.scan) (Ex.P "/out")
              (Ex.P "/share/icbm152_model_09c")
              (Ex.P "/share/beast-library-1.1") in
  let ts := mkTemplates
              (Ex.P "/share/icbm152_model_09c/mni_icbm152_t1_tal_nlin_sym_09c.mnc")
              (Ex.P "/share/icbm152_model_09c/mni_icbm152_t1_tal_nlin_sym_09c_mask.mnc") in
  let tmp := Ex.P "/tmp/tmpk3v9" in
  let raw := Ex.P "/tmp/tmpk3v9/scan001.nii" in
  let sub := Ex.P "/out/scan001" in
  let w := mkWorld
             (<[tmp := Dir]> (<[sub := File]> (<[Ex.P "/out" := Dir]> Ex.fs)))
             [] in
  let m := materialize Ex.os_ok 2 true tmp (fpath_nifti ps) w in
  let r := pipeline Ex.os_ok 2 true c ps ts tmp w in
  opt_overwrite c = true /\
  m.1 = Return raw /\
  w_fs m.2 !! Path.joinpath (dpath_out ps) (Path.stem raw) = Some File /\
  r.1 = Raise (NotADirectoryError sub) /\
  (handled (NotADirectoryError sub) r.2).1 = Raise (SystemExit 1).
Proof.
  intros c ps ts tmp raw sub w m r.
  assert (Hm : m.1 = Return raw) by (vm_compute; reflexivity).
  assert (Hf : w_fs m.2 !! Path.joinpath (dpath_out ps) (Path.stem raw)
               = Some File) by (vm_compute; reflexivity).
  destruct (output_path_is_file Ex.os_ok 2 true c ps ts tmp raw w Hm Hf)
    as (Hr & Hh & _).
  split; [reflexivity |]. split; [exact Hm |]. split; [exact Hf |].
  split; [| exact Hh].
  change (r.1 = Raise (NotADirectoryError
                         (Path.joinpath (dpath_out ps) (Path.stem raw)))).
  fold r in Hr. by rewrite Hr.
Defined.

(** ** [process_path] *)

Lemma split_app_sep c x rest :
  Str.contains c x = false ->
  Str.split c (x +:+ String c rest) = x :: Str.split c rest.
Proof.
  induction x as [|a x IH]; cbn [Str.contains Str.split String.append].
  - intros _. by rewrite Ascii.eqb_refl.
  - intros [Ha Hx]%orb_false_iff. rewrite Ha, (IH Hx). done.
Qed.

Lemma split_join l :
  l <> [] -> Forall (fun x => Str.contains "/" x = false) l ->
  Str.split "/" (Str.join "/" l) = l.
Proof.
  unfold Str.join. induction l as [|x [|y l] IH]; [done | |].
  - intros _ [Hx _]%Forall_cons_1. simpl. by apply split_no_sep.
  - intros _ [Hx Hl]%Forall_cons_1.
    change (String.concat "/" (x :: y :: l))
      with (x +:+ String "/" (String.concat "/" (y :: l))).
    rewrite split_app_sep by done. f_equal. by apply IH.
Qed.

Lemma parse_tail_join l :
  Forall component l -> Path.parse_tail (Str.join "/" l) = l.
Proof.
  intros Hl. unfold Path.parse_tail. destruct l as [|x l]; [done |].
  rewrite split_join; [| done |].
  - induction Hl as [|y l' [Hy _] _ IH]; [done |].
    cbn [List.filter]. by rewrite Hy, IH.
  - eapply Forall_impl; [exact Hl |]. by intros y [_ Hy].
Qed.

(** The string of a path reads back as the path. *)
Lemma of_string_str p : wf_path p -> Path.of_string (Path.str p) = p.
Proof.
  destruct p as [r l]. unfold wf_path, Path.of_string, Path.str.
  cbn [Path.root Path.tail]. intros Hl. destruct r.
  - cbn [Str.startswith String.append]. rewrite Ascii.eqb_refl.
    cbn [andb]. f_equal.
    change (Path.parse_tail (String "/" (Str.join "/" l)))
      with (List.filter Path.is_component
              (Str.split "/" (String "/" (Str.join "/" l)))).
    cbn [Str.split]. rewrite Ascii.eqb_refl. cbn [List.filter].
    change (Path.is_component "") with false. cbv iota.
    by apply parse_tail_join.
  - destruct l as [|x l]; [done |].
    rewrite parse_tail_join by done. f_equal.
    apply Forall_cons_1 in Hl as [Hx _].
    unfold Str.join. destruct l as [|y l].
    + by apply component_startswith_slash.
    + destruct Hx as [Hc Hs]. destruct x as [|a x]; [done |].
      cbn [Str.contains] in Hs. apply orb_false_iff in Hs as [Ha _].
      change (String.concat "/" (String a x :: y :: l))
        with (String a (x +:+ String "/" (String.concat "/" (y :: l)))).
      cbn [Str.startswith]. rewrite Ascii.eqb_sym, Ha. done.
Qed.

Section ProcessPath.
Context (os : OS).

(** X16. [process_path] leaves an absolute path as it was given: no
    symbolic link is resolved and no component is dropped but ["."] and
    empty ones.  It is idempotent: with an absolute working directory,
    the processed path is absolute, and processing its string again
    gives the same path. *)
Theorem process_path_idempotent (s : string) :
  (Str.startswith "/" s = true ->
   process_path os s = Return (Path.of_string s)) /\
  (Str.startswith "/" (os_getcwd os) = true ->
   forall p, process_path os s = Return p ->
     Path.root p = true /\ Path.of_string (Path.str p) = p /\
     process_path os (Path.str p) = Return p).
Proof.
  split.
  - intros H. unfold process_path, expanduser, absolute, Path.of_string.
    cbn [Path.root Path.tail]. by rewrite H.
  - intros Hcwd p Hp.
    destruct (process_path_wf os s p Hp) as [Hwf Hroot].
    specialize (Hroot Hcwd). split; [done |].
    pose proof (of_string_str p Hwf) as Hrt. split; [done |].
    unfold process_path. rewrite Hrt. unfold expanduser, absolute.
    rewrite Hroot. by rewrite Hroot.
Qed.

End ProcessPath.

Lemma process_path_idempotent_witness :
  let s := "out/../scan.d/./x" in
  let p := Ex.P "/home/user/out/../scan.d/x" in
  Str.startswith "/" (os_getcwd Ex.os_ok) = true /\
  process_path Ex.os_ok s = Return p /\
  Path.str p = "/home/user/out/../scan.d/x" /\
  process_path Ex.os_ok (Path.str p) = Return p.
Proof.
  intros s p.
  assert (Hcwd : Str.startswith "/" (os_getcwd Ex.os_ok) = true)
    by reflexivity.
  assert (Hp : process_path Ex.os_ok s = Return p) by (vm_compute; reflexivity).
  destruct (proj2 (process_path_idempotent Ex.os_ok s) Hcwd p Hp)
    as (_ & _ & H).
  split; [exact Hcwd |]. split; [exact Hp |].
  split; [vm_compute; reflexivity | exact H].
Defined.

(** ** The style of the printed lines *)

#[global] Instance styled_composable dry : Composable (styled dry).
Proof.
  split; unfold styled.
  - intros p m col b H. by apply elem_of_nil in H.
  - intros e _ p m col b H. by apply elem_of_nil in H.
  - intros msg Hm p m col b H. apply list_elem_of_singleton in H.
    injection H as -> -> -> ->. by destruct msg.
  - intros evs1 evs2 _ H1 H2 p m col b H.
    apply elem_of_app in H as [H|H]; [by apply H1 | by apply H2].
  - done.
Qed.

Lemma run_command_styled os verbosity dry_run args stdout :
  logs (styled dry_run)
    (run_command os verbosity dry_run args stdout false).
Proof.
  intros w. rewrite run_command_unfold. lazy zeta.
  assert (Ha : forall p m col b,
            Echo p m col b ∈ announcement verbosity dry_run false args ->
            match m with
            | CommandLine _ => p = PREFIX_RUN /\ col = "yellow" /\ b = dry_run
            | _ => p = PREFIX_ERR /\ col = "red" /\ b = false
            end).
  { intros p m col b. unfold announcement. destruct (_ && _).
    - intros H%list_elem_of_singleton. by injection H as -> -> -> ->.
    - by intros H%elem_of_nil. }
  destruct dry_run; [by eexists |]. cbn [w_fs w_log].
  destruct (os_run os _ _ _ _) as [[rc|] fs'].
  - destruct (rc =? 0)%Z; cbn [fst snd w_log];
      (eexists; rewrite <- !app_assoc; split; [done |]);
      intros p m col b; rewrite elem_of_app;
      (intros [H|H]; [by apply Ha |]);
      repeat (apply elem_of_cons in H as [H|H];
              [first [by injection H as -> -> -> -> | done] |]);
      by apply elem_of_nil in H.
  - eexists. cbn [fst snd w_log]. rewrite <- app_assoc. split; [done |].
    intros p m col b. rewrite elem_of_app.
    intros [H|H]; [by apply Ha |].
    by apply list_elem_of_singleton in H.
Qed.

(** X17. Whatever a run prints is a command line or an error message,
    never anything else: a command line carries the prefix [[RUN] ] and
    the colour yellow, on the prefix alone exactly in a dry run; every
    other message carries the prefix [[ERROR] ] and is red as a whole. *)
Theorem printed_lines_style (os : OS) (c : Config) (fs : FS)
    (p : string) (m : message) (col : string) (b : bool) :
  let r := run_dbm_minc os c (initial fs) in
  Echo p m col b ∈ w_log r.2 ->
  match m with
  | CommandLine _ => p = "[RUN] " /\ col = "yellow" /\ b = opt_dry_run c
  | _ => p = "[ERROR] " /\ col = "red" /\ b = false
  end.
Proof.
  intros r Hin.
  destruct (clogs_run_dbm_minc os (P := styled (opt_dry_run c)) c)
    with (w := initial fs) as (evs & E & D).
  - intros d evs s H q m' col' b' Hq.
    rewrite elem_of_cons, elem_of_app, list_elem_of_singleton in Hq.
    destruct Hq as [Hq | [Hq | Hq]]; [done | by apply H | done].
  - intros e q m' col' b' Hq. apply list_elem_of_singleton in Hq.
    by injection Hq as -> -> -> ->.
  - intros. apply run_command_styled.
  - fold r in E. simpl in E. rewrite E in Hin. exact (D p m col b Hin).
Qed.

Lemma printed_lines_style_witness :
  let c := Ex.cfg "/data/missing.nii" false false true false in
  let r := run_dbm_minc Ex.os_ok c (initial Ex.fs) in
  let msg := NiftiNotFound (Ex.P "/data/missing.nii") in
  Echo "[ERROR] " msg "red" false ∈ w_log r.2 /\
  Echo "[RUN] " (CommandLine "date") "yellow" true ∈ w_log r.2 /\
  ("[ERROR] " = "[ERROR] " /\ "red" = "red" /\ false = false).
Proof.
  intros c r msg.
  assert (H1 : Echo "[ERROR] " msg "red" false ∈ w_log r.2).
  { apply list_elem_of_lookup. exists 1%nat. vm_compute. reflexivity. }
  assert (H2 : Echo "[RUN] " (CommandLine "date") "yellow" true ∈ w_log r.2).
  { apply list_elem_of_lookup. exists 0%nat. vm_compute. reflexivity. }
  split; [exact H1 |]. split; [exact H2 |].
  exact (printed_lines_style Ex.os_ok c Ex.fs _ msg _ _ H1).
Defined.

(** ** What is behind a traceback *)

#[global] Instance no_traceback_composable : Composable no_traceback.
Proof.
  split; unfold no_traceback.
  - intros p e col b H. by apply elem_of_nil in H.
  - intros e' _ p e col b H. by apply elem_of_nil in H.
  - intros msg Hm p e col b H. apply list_elem_of_singleton in H.
    injection H as _ <- _ _. done.
  - intros evs1 evs2 _ H1 H2 p e col b H.
    apply elem_of_app in H as [H|H]; [by eapply H1 | by eapply H2].
  - done.
Qed.

Lemma run_command_no_traceback os verbosity dry_run args stdout :
  logs no_traceback (run_command os verbosity dry_run args stdout false).
Proof.
  intros w. rewrite run_command_unfold. lazy zeta.
  assert (Ha : forall p e col b,
            Echo p (Traceback e) col b ∉
              announcement verbosity dry_run false args).
  { intros p e col b. unfold announcement. destruct (_ && _).
    - by intros H%list_elem_of_singleton.
    - by intros H%elem_of_nil. }
  destruct dry_run; [by eexists |]. cbn [w_fs w_log].
  destruct (os_run os _ _ _ _) as [[rc|] fs'].
  - destruct (rc =? 0)%Z; cbn [fst snd w_log];
      (eexists; rewrite <- !app_assoc; split; [done |]);
      intros p e col b; rewrite elem_of_app;
      (intros [H|H]; [by apply Ha in H |]);
      repeat (apply elem_of_cons in H as [H|H]; [done |]);
      by apply elem_of_nil in H.
  - eexists. cbn [fst snd w_log]. rewrite <- app_assoc. split; [done |].
    intros p e col b. rewrite elem_of_app.
    intros [H|H]; [by apply Ha in H |].
    by apply list_elem_of_singleton in H.
Qed.

Lemma elem_of_errors m log :
  m ∈ errors log -> exists p col b, Echo p m col b ∈ log.
Proof.
  unfold errors. intros (ev & Hin & Hev)%list_elem_of_omap.
  destruct ev as [p m' col b| | |]; [| done..].
  exists p, col, b. by destruct m'; simplify_eq.
Qed.

Section Raising.
Context (os : OS).

Lemma raising_ret {A} E (a : A) : raising E (ret a).
Proof. by intros w e. Qed.

Lemma raising_bind_with {A B} E (Q : A -> Prop) (m : M A) (k : A -> M B) :
  (forall w a, (m w).1 = Return a -> Q a) ->
  raising E m -> (forall a, Q a -> raising E (k a)) -> raising E (bind m k).
Proof.
  intros HQ Hm Hk w e. unfold bind.
  pose proof (HQ w) as HQw. pose proof (Hm w) as Hmw.
  destruct (m w) as [[a|e'] w1]; cbn [fst snd] in *.
  - apply Hk. by apply HQw.
  - intros [= ->]. by apply Hmw.
Qed.

Lemma raising_bind {A B} E (m : M A) (k : A -> M B) :
  raising E m -> (forall a, raising E (k a)) -> raising E (bind m k).
Proof.
  intros Hm Hk. apply (raising_bind_with E (fun _ => True)); auto.
Qed.

Lemma raising_for_each {A} E (l : list A) f :
  (forall x, raising E (f x)) -> raising E (for_each l f).
Proof.
  intros Hf. induction l as [|x l IH]; simpl; [apply raising_ret |].
  apply raising_bind; [apply Hf | intros _; apply IH].
Qed.

Lemma raising_run_command E verbosity dry_run args stdout silent :
  (dry_run = false -> forall a, E (OSError a)) ->
  raising E (run_command os verbosity dry_run args stdout silent).
Proof.
  intros HE w e. rewrite run_command_unfold. lazy zeta.
  destruct dry_run; [done |]. cbn [w_fs w_log].
  destruct (os_run os _ _ _ _) as [[rc|] fs'].
  - destruct (rc =? 0)%Z; [done |]. by intros [= <-].
  - intros [= <-] _. by apply HE.
Qed.

Lemma with_suffix_ok p ext :
  Path.name p <> "" -> ext ∈ [EXT_MINC; EXT_TRANSFORM; EXT_NIFTI] ->
  exists q, Path.with_suffix p ext = Some q.
Proof.
  intros Hn Hext. unfold Path.with_suffix.
  destruct (String.eqb_spec (Path.name p) "") as [|_]; [done |].
  rewrite !elem_of_cons, elem_of_nil in Hext.
  destruct Hext as [-> | [-> | [-> | []]]]; by eexists.
Qed.

Lemma raising_with_suffix E p ext :
  Path.name p <> "" -> ext ∈ [EXT_MINC; EXT_TRANSFORM; EXT_NIFTI] ->
  raising E (lift (with_suffix p ext)).
Proof.
  intros Hn Hext w e. unfold lift, with_suffix.
  by destruct (with_suffix_ok p ext Hn Hext) as [q ->].
Qed.

Section Body.
Context (c : Config) (verbosity : Z).


Lemma raising_step args stdout :
  raising (crash_cause c)
    (run_command os verbosity (opt_dry_run c) args stdout false).
Proof. apply raising_run_command. by intros H a. Qed.

Lemma raising_run_stages template conf ps ts tmp raw_nii :
  wf_path tmp -> wf_path raw_nii -> Path.name raw_nii <> "" ->
  raising (crash_cause c)
    (run_stages os verbosity (opt_dry_run c) template conf ps ts tmp
       raw_nii).
Proof.
  intros Htmp Hraw Hne. unfold run_stages.
  apply (raising_bind_with (crash_cause c)
           (fun m => Path.with_suffix raw_nii EXT_MINC = Some m)).
  { intros w a. unfold lift, with_suffix.
    destruct (Path.with_suffix raw_nii EXT_MINC); simpl; congruence. }
  { apply raising_with_suffix; [done | by left]. }
  intros raw_mnc E0. lazy zeta.
  destruct (with_suffix_name raw_nii EXT_MINC raw_mnc Hraw
              ltac:(compute; lia) E0) as (W0 & _ & N0 & _).
  set (B := Path.stem raw_nii) in *.
  assert (HB : B <> "") by (intros Eb; by apply stem_nil in Eb).
  set (fpath_raw := Path.join tmp raw_mnc).
  assert (W1 : wf_path fpath_raw) by (by apply join_wf).
  assert (N1 : Path.name fpath_raw = B +:+ EXT_MINC).
  { unfold fpath_raw. rewrite join_name; [done |].
    intros Et. unfold Path.name in N0. rewrite Et in N0. simpl in N0.
    symmetry in N0. by apply str_app_eq_nil in N0 as [? _]. }
  assert (G : Forall good_suffix semantic_suffixes)
    by (apply Forall_forall; intros; by apply semantic_good).
  repeat (apply Forall_cons_1 in G as [? G]).
  set (fpath_denoised := add_suffix fpath_raw SUFFIX_DENOISED SEP_DEFAULT).
  destruct (add_suffix_mnc _ _ SUFFIX_DENOISED W1 N1 HB)
    as (W2 & _ & N2 & K2); [done |]. fold fpath_denoised in W2, N2.
  set (fpath_norm := add_suffix fpath_denoised SUFFIX_NORM SEP_DEFAULT).
  destruct (add_suffix_mnc _ _ SUFFIX_NORM W2 N2 K2)
    as (W3 & _ & N3 & K3); [done |]. fold fpath_norm in W3, N3.
  set (fpath_extracted := add_suffix fpath_norm SUFFIX_EXTRACTED SEP_DEFAULT).
  destruct (add_suffix_mnc _ _ SUFFIX_EXTRACTED W3 N3 K3)
    as (W6 & _ & N6 & K6); [done |]. fold fpath_extracted in W6, N6.
  set (fpath_nonlinear :=
         add_suffix fpath_extracted SUFFIX_NONLINEAR SEP_DEFAULT).
  destruct (add_suffix_mnc _ _ SUFFIX_NONLINEAR W6 N6 K6)
    as (W7 & _ & N7 & K7); [done |]. fold fpath_nonlinear in W7, N7.
  set (fpath_dbm := add_suffix fpath_nonlinear SUFFIX_DBM SEP_DEFAULT).
  destruct (add_suffix_mnc _ _ SUFFIX_DBM W7 N7 K7)
    as (W9 & _ & N9 & K9); [done |]. fold fpath_dbm in W9, N9.
  set (fpath_dbm_reshaped := add_suffix fpath_dbm SUFFIX_RESHAPED SEP_DEFAULT).
  destruct (add_suffix_mnc _ _ SUFFIX_RESHAPED W9 N9 K9)
    as (W10 & _ & N10 & K10); [done |]. fold fpath_dbm_reshaped in W10, N10.
  assert (Hmnc : forall p S, Path.name p = S +:+ EXT_MINC -> Path.name p <> "").
  { intros p S -> Hn. by apply str_app_eq_nil in Hn as [_ ?]. }
  do 2 (apply raising_bind; [apply raising_step | intros _]).
  apply raising_bind;
    [apply raising_with_suffix; [by eapply Hmnc | right; by left] | intros ?].
  do 3 (apply raising_bind; [apply raising_step | intros _]).
  apply raising_bind;
    [apply raising_with_suffix; [by eapply Hmnc | right; by left] | intros ?].
  do 3 (apply raising_bind; [apply raising_step | intros _]).
  apply raising_bind;
    [apply raising_with_suffix; [by eapply Hmnc | right; right; by left]
    | intros ?].
  apply raising_bind; [apply raising_step | intros _]. apply raising_ret.
Qed.

Lemma materialize_Return tmp nifti w raw :
  (materialize os verbosity (opt_dry_run c) tmp nifti w).1 = Return raw ->
  raw = materialized tmp nifti.
Proof.
  unfold materialize, materialized.
  destruct (String.eqb _ _); unfold bind, open_wb, ret.
  - destruct (run_command _ _ _ _ _ _ _) as [[[]|?] ?]; [| done].
    by intros [= <-].
  - destruct (run_command _ _ _ _ _ _ _) as [[[]|?] ?]; [| done].
    by intros [= <-].
Qed.

Lemma raising_materialize tmp nifti :
  raising (crash_cause c) (materialize os verbosity (opt_dry_run c) tmp nifti).
Proof.
  unfold materialize. destruct (String.eqb _ _).
  - apply raising_bind; [by intros w e | intros _].
    apply raising_bind; [apply raising_step | intros _; apply raising_ret].
  - apply raising_bind; [apply raising_step | intros _; apply raising_ret].
Qed.

Lemma raising_make_output_dir overwrite out raw :
  raising (crash_cause c) (make_output_dir overwrite out raw).
Proof.
  intros w e. rewrite make_output_dir_spec.
  lazy zeta. destruct (w_fs w !! _) as [[]|]; [| | done].
  - intros [= <-] _. exact I.
  - destruct overwrite; [done |]. destruct (Nat.eqb _ 0); [done |].
    unfold failed. cbn [fst]. by intros [= <-].
Qed.

(** The name of the materialized scan of a validated input. *)
Lemma materialized_name tmp nifti :
  wf_path tmp -> wf_path nifti ->
  existsb (Str.endswith (Path.str nifti)) valid_file_formats = true ->
  let raw := materialized tmp nifti in
  wf_path raw /\ Path.name raw <> "" /\ raw <> tmp.
Proof.
  intros Htmp Hwf Hext raw. subst raw.
  assert (Hjoin : forall x, component x ->
            wf_path (Path.joinpath tmp x) /\
            Path.name (Path.joinpath tmp x) <> "" /\
            Path.joinpath tmp x <> tmp).
  { intros x Hx. split; [by apply joinpath_wf |].
    rewrite (joinpath_component _ _ Hx), name_snoc. split.
    - destruct Hx as [Hc _]. unfold Path.is_component in Hc.
      intros ->. done.
    - intros Heq. apply (f_equal Path.tail) in Heq. simpl in Heq.
      apply (f_equal List.length) in Heq. rewrite length_app in Heq.
      simpl in Heq. lia. }
  unfold valid_file_formats in Hext. cbn [existsb] in Hext.
  rewrite orb_false_r in Hext. unfold materialized.
  destruct (String.eqb_spec (Path.suffix nifti) EXT_GZIP) as [Hgz|Hgz].
  - apply Hjoin. apply orb_true_iff in Hext as [H|H].
    + destruct (str_endswith_name nifti EXT_NIFTI Hwf) as (_ & pre & En);
        [compute; lia | done | done |].
      by apply nii_name in En.
    + destruct (str_endswith_name nifti (EXT_NIFTI +:+ EXT_GZIP) Hwf)
        as (Hcn & pre & En); [compute; lia | done | done |].
      destruct (gz_name (Path.name nifti) pre Hcn En) as (_ & Hb & _ & Hst).
      unfold Path.stem. by rewrite Hst.
  - apply Hjoin. apply orb_true_iff in Hext as [H|H].
    + by destruct (str_endswith_name nifti EXT_NIFTI Hwf) as (Hcn & _);
        [compute; lia | done | done |].
    + by destruct (str_endswith_name nifti (EXT_NIFTI +:+ EXT_GZIP) Hwf)
        as (Hcn & _); [compute; lia | done | done |].
Qed.

Lemma raising_copy_results tmp a sub :
  opt_dry_run c = false ->
  raising (crash_cause c)
    (copy_results os verbosity (opt_dry_run c) (opt_save_all c) tmp a sub).
Proof.
  intros Hreal. unfold copy_results, fpaths_to_copy.
  apply raising_bind.
  - destruct (opt_save_all c) eqn:Hs; [| apply raising_ret].
    intros w e. unfold iterdir.
    destruct (w_fs w !! tmp) as [[]|]; [by intros [= <-] | done |].
    intros [= <-] _. done.
  - intros l. apply raising_for_each. intros x. apply raising_step.
Qed.

Lemma raising_pipeline_real ps ts tmp :
  opt_dry_run c = false -> wf_path tmp -> wf_path (fpath_nifti ps) ->
  existsb (Str.endswith (Path.str (fpath_nifti ps))) valid_file_formats
  = true ->
  raising (crash_cause c) (pipeline os verbosity (opt_dry_run c) c ps ts tmp).
Proof.
  intros Hreal Htmp Hwf Hext. unfold pipeline, timestamp.
  apply (raising_bind_with (crash_cause c)
           (fun raw => raw = materialized tmp (fpath_nifti ps))).
  { intros w a. apply materialize_Return. }
  { apply raising_materialize. }
  intros raw ->.
  destruct (materialized_name tmp _ Htmp Hwf Hext) as (Wr & Nr & _).
  apply raising_bind; [apply raising_make_output_dir | intros sub].
  apply raising_bind; [by apply raising_run_stages | intros a].
  apply raising_bind; [apply raising_step | intros _].
  apply raising_bind; [by apply raising_copy_results | intros _].
  apply raising_bind; [apply raising_step | intros _].
  apply raising_step.
Qed.

End Body.

(** In a dry run the workspace is still there when it is listed. *)
Lemma copy_results_dry_raise c verbosity tmp a sub w e :
  opt_dry_run c = true -> w_fs w !! tmp = Some Dir ->
  (copy_results os verbosity true (opt_save_all c) tmp a sub w).1 = Raise e ->
  is_Exception e = true -> crash_cause c e.
Proof.
  intros Hd Hfs. unfold copy_results, fpaths_to_copy.
  assert (Hf : forall l : list Path.t,
            raising (crash_cause c)
              (for_each l (fun p =>
                 run_command os verbosity true
                   [AStr "cp"; AStr "-vfp"; APath p; APath sub] None false))).
  { intros l. apply raising_for_each. intros x.
    apply raising_run_command. done. }
  destruct (opt_save_all c).
  - unfold bind at 1, iterdir. rewrite Hfs. apply Hf.
  - unfold bind at 1, ret. apply Hf.
Qed.

Lemma pipeline_dry_raise c verbosity ps ts tmp w e :
  opt_dry_run c = true -> wf_path tmp -> wf_path (fpath_nifti ps) ->
  existsb (Str.endswith (Path.str (fpath_nifti ps))) valid_file_formats
  = true ->
  w_fs w !! tmp = Some Dir ->
  (pipeline os verbosity true c ps ts tmp w).1 = Raise e ->
  is_Exception e = true -> crash_cause c e.
Proof.
  intros Hd Htmp Hwf Hext Hfs.
  destruct (materialized_name tmp _ Htmp Hwf Hext) as (Wr & Nr & Neq).
  unfold pipeline. unfold bind at 1. rewrite materialize_dry_exact.
  set (w1 := mkWorld _ _).
  assert (H1 : w_fs w1 !! tmp = Some Dir).
  { subst w1. cbn [w_fs]. unfold dry_materialized_fs.
    destruct (String.eqb _ _); [by rewrite lookup_insert_ne |done]. }
  clearbody w1. unfold bind at 1.
  destruct (make_output_dir _ _ _ w1) as [[sub|e'] w2] eqn:Em.
  2: { cbn [fst]. intros [= ->].
       apply (raising_make_output_dir c (opt_overwrite c) (dpath_out ps)
                (materialized tmp (fpath_nifti ps)) w1).
       by rewrite Em. }
  apply make_output_dir_Return_fs in Em as (_ & -> & _).
  set (w2 := mkWorld _ _).
  assert (H2 : w_fs w2 !! tmp = Some Dir)
    by (by apply with_output_dir_keeps).
  clearbody w2. unfold bind at 1.
  pose proof (raising_run_stages c verbosity (opt_template_prefix c)
                (opt_beast_conf c) ps ts tmp _ Htmp Wr Nr w2) as Rs.
  rewrite Hd in Rs.
  destruct (run_stages _ _ _ _ _ _ _ _ _ w2) as [[a|e'] w3] eqn:Es.
  2: { cbn [fst]. intros [= ->]. by apply Rs. }
  clear Rs. apply run_stages_dry_fs in Es. rewrite <- Es in H2.
  rewrite bind_dry. set (w4 := mkWorld _ _).
  assert (H4 : w_fs w4 !! tmp = Some Dir) by exact H2.
  clearbody w4. unfold bind at 1.
  pose proof (copy_results_dry_raise c verbosity tmp a sub w4 e Hd H4) as Rc.
  destruct (copy_results _ _ _ _ _ _ _ w4) as [[[]|e'] w5].
  2: { cbn [fst] in *. intros Heq. by apply Rc. }
  clear Rc. rewrite bind_dry. unfold timestamp. by rewrite dry_step.
Qed.

Lemma raising_after_timestamp c :
  raising (crash_cause c) (after_timestamp os c).
Proof.
  intros w e. unfold after_timestamp. unfold bind at 1.
  destruct (process_paths_cases os c)
    as [(ps & Ep & (W1 & _) & _) | [Ep | [(Ep & Hk1 & Hk2) | (Ep & _)]]];
    rewrite Ep.
  - unfold bind at 1. rewrite check_paths_spec.
    destruct (first_failed_check _ _ _) as [msg|] eqn:Ef;
      [unfold failed; cbn [fst]; by intros [= <-] |].
    lazy zeta.
    assert (Hext : existsb (Str.endswith (Path.str (fpath_nifti ps)))
                     valid_file_formats = true).
    { unfold first_failed_check in Ef. lazy zeta in Ef.
      destruct (negb (present _ (fpath_nifti ps))); [done |].
      destruct (existsb _ _); [done | by simpl in Ef]. }
    set (ts := mkTemplates _ _). clearbody ts. clear Ef.
    unfold with_TemporaryDirectory. cbn [w_fs w_log].
    set (d := Path.of_string _). set (w1 := mkWorld _ _).
    assert (Hd1 : w_fs w1 !! d = Some Dir)
      by (subst w1; cbn [w_fs]; apply lookup_insert_eq).
    assert (Wd : wf_path d) by apply of_string_wf.
    clearbody w1 d.
    destruct (decide (opt_dry_run c = true)) as [Hd|Hd%not_true_is_false].
    + pose proof (pipeline_dry_raise c (effective_verbosity c) ps ts d w1 e
                    Hd Wd W1 Hext Hd1) as Hp.
      rewrite Hd.
      destruct (pipeline _ _ _ _ _ _ _ w1) as [r w2]. exact Hp.
    + pose proof (raising_pipeline_real c (effective_verbosity c) ps ts d
                    Hd Wd W1 Hext w1 e) as Hp.
      destruct (pipeline _ _ _ _ _ _ _ w1) as [r w2]. exact Hp.
  - cbn [fst]. intros [= <-] _. exact I.
  - cbn [fst]. intros [= <-] _. done.
  - unfold failed. cbn [fst]. by intros [= <-].
Qed.

End Raising.

(** X18. The exception behind a printed traceback is one of five: a
    [RuntimeError] of [expanduser]; the [KeyError] of the template
    identifier, when no template directory was given and the table does
    not have the identifier; the [OSError] of a program that cannot be
    started, in real runs only; a [NotADirectoryError]; or a
    [FileNotFoundError], in real runs only (a workspace that is gone
    when it is listed, or, by its class in Python, a program that is
    not found).  It is never a [SystemExit], a [TypeError], a
    [ValueError] or a [FileExistsError]: the return code of a command
    and an output directory that exists are reported without a
    traceback, the share directory is never joined when it is missing,
    and the validated scan always has a name to put an extension on. *)
Theorem crash_causes (os : OS) (c : Config) (fs : FS) (e : exn) :
  let r := run_dbm_minc os c (initial fs) in
  Traceback e ∈ errors (w_log r.2) ->
  match e with
  | RuntimeError | NotADirectoryError _ => True
  | KeyError k =>
      k = opt_template_prefix c /\ opt_dpath_templates c = None /\
      DNAME_TEMPLATE_MAP !! k = None
  | OSError _ => opt_dry_run c = false
  | FileNotFoundError _ => opt_dry_run c = false
  | SystemExit _ | TypeError | ValueError | FileExistsError _ => False
  end.
Proof.
  intros r Hin.
  set (body := bind (timestamp os (opt_verbosity c) (opt_dry_run c))
                 (fun _ => after_timestamp os c)).
  assert (Hr : r = try_except body is_Exception on_exception (initial fs))
    by reflexivity.
  assert (Hraise : raising (crash_cause c) body).
  { apply raising_bind; [| intros _; apply raising_after_timestamp].
    unfold timestamp. apply raising_run_command. by intros H a. }
  assert (Hlogs : logs no_traceback body).
  { apply clogs_bind; [apply run_command_no_traceback | intros _].
    apply (clogs_after_timestamp os (P := no_traceback) c);
      [| intros; apply run_command_no_traceback].
    intros d evs s H p e' col b Hq.
    rewrite elem_of_cons, elem_of_app, list_elem_of_singleton in Hq.
    destruct Hq as [Hq | [Hq | Hq]]; [done | by apply H in Hq | done]. }
  destruct (Hlogs (initial fs)) as (evs & El & Hno).
  pose proof (Hraise (initial fs)) as Hra.
  assert (Hnone : forall l, no_traceback l None \/ True ->
            (forall p e' col b, Echo p (Traceback e') col b ∉ l) ->
            Traceback e ∉ errors l).
  { intros l _ Hl (p & col & b & Hq)%elem_of_errors. by apply Hl in Hq. }
  assert (Hpre : Traceback e ∉ errors (w_log (body (initial fs)).2)).
  { rewrite El. simpl. apply Hnone; [by right | exact Hno]. }
  assert (Hgoal : crash_cause c e -> match e with
    | RuntimeError | NotADirectoryError _ => True
    | KeyError k =>
        k = opt_template_prefix c /\ opt_dpath_templates c = None /\
        DNAME_TEMPLATE_MAP !! k = None
    | OSError _ => opt_dry_run c = false
    | FileNotFoundError _ => opt_dry_run c = false
    | SystemExit _ | TypeError | ValueError | FileExistsError _ => False
    end) by (by destruct e).
  apply Hgoal. clear Hgoal.
  rewrite Hr in Hin. unfold try_except in Hin.
  destruct (body (initial fs)) as [[[]|e'] w']; cbn [fst snd] in *;
    [done |].
  destruct (is_Exception e') eqn:Hex; [| done].
  unfold on_exception, print_error_and_exit, echo, emit, bind, raise in Hin.
  cbn [fst snd w_log] in Hin. rewrite errors_app in Hin.
  apply elem_of_app in Hin as [Hin | Hin]; [done |].
  apply list_elem_of_singleton in Hin. injection Hin as ->. by apply Hra.
Qed.

Lemma crash_causes_witness :
  let c := mkConfig Ex.scan "/out" (Some "/share") None "colin27" None
             DEFAULT_BEAST_CONF false false false DEFAULT_VERBOSITY false in
  let r := run_dbm_minc Ex.os_ok c (initial Ex.fs) in
  Traceback (KeyError "colin27") ∈ errors (w_log r.2) /\
  ("colin27" = opt_template_prefix c /\ opt_dpath_templates c = None /\
   DNAME_TEMPLATE_MAP !! "colin27" = None).
Proof.
  intros c r.
  assert (H : Traceback (KeyError "colin27") ∈ errors (w_log r.2)).
  { apply list_elem_of_lookup. exists 0%nat. vm_compute. reflexivity. }
  split; [exact H |].
  exact (crash_causes Ex.os_ok c Ex.fs (KeyError "colin27") H).
Defined.
